(** * A project-and-task tracking backend: its two Express servers over a
      relational store, embedded and verified.

    The repository holds two servers.  Variant A (the larger file) serves
    projects, tasks, file attachments and the completion percentage; variant
    B ([server.js]) serves projects only.  Every handler is one or two
    parameterised SQL statements sent through [pool.query], wrapped in a
    [try]/[catch] that turns a rejected query into a 500 response.

    The embedding keeps that shape: the store is a record of tables (lists
    of rows, in storage order) with its serial sequences, a statement is a
    computation in a small state-and-failure monad, and a handler maps a
    request and a store to a response and a store.  JavaScript numbers are
    IEEE 754 binary64 values, taken from the standard library's
    specification of floating-point arithmetic.

    The store is taken as [createTables] leaves it: the tables exist, with
    the columns, defaults and constraints of their CREATE TABLE statements
    (what [createTables] makes of the database it finds is in [Schema]).
    A query is rejected when the store refuses it (a parameter that is not
    an integer, a text that holds U+0000, a constraint); a lost connection
    is not modelled.  A string stands for the UTF-8 text of a JavaScript
    string.  Of what Express does with a response after the handler has
    handed it over, [res.sendFile] is modelled: the file is sent when it
    is on the disk, and the answer is Express's 404 when it is not. *)

From Stdlib Require Import ZArith NArith Arith List Bool String Ascii Lia.
From Stdlib Require Import Permutation Sorted.
From Stdlib Require Import DecimalString DecimalNat DecimalN.
From Stdlib Require Import Floats.PrimFloat Floats.FloatOps Floats.SpecFloat Uint63.
Import ListNotations.

Local Open Scope string_scope.
Local Open Scope Z_scope.

Set Implicit Arguments.
Set Warnings "-register-all".
Set Warnings "-automation".


(* ================================================================== *)
(** * JavaScript values the handlers compute with *)
(* ================================================================== *)

Module JS.

(** A Number is a binary64 float: 53 bits of precision, infinities at
    exponent 1024. *)
Definition number := spec_float.
Definition prec : Z := 53.
Definition emax : Z := 1024.

(** The Number nearest to an integer (ties to even). *)
Definition num (z : Z) : number := binary_normalize prec emax z 0 false.

(** [x / y] and [x * y]. *)
Definition div (x y : number) : number := SFdiv prec emax x y.
Definition mul (x y : number) : number := SFmul prec emax x y.

(** [x === y] on Numbers: IEEE equality, so [NaN] equals nothing and
    [-0 === 0]. *)
Definition strict_eq (x y : number) : bool := SFeqb x y.

(** [Math.round(x)]: the integral Number closest to [x], the one nearer
    to +infinity on a tie; a result of zero keeps the sign of [x];
    [NaN], the infinities and the zeros are returned as they are. *)
Definition Math_round (x : number) : number :=
  match x with
  | S754_finite s m e =>
      let v := if s then Zneg m else Zpos m in
      let n := if 0 <=? e then v * 2 ^ e
               else (2 * v + 2 ^ (- e)) / 2 ^ (1 - e) in
      if n =? 0 then S754_zero s else num n
  | _ => x
  end.

(** ** [parseInt(string)] with no radix argument *)

Definition is_white (c : ascii) : bool :=
  let n := nat_of_ascii c in
  ((9 <=? n) && (n <=? 13))%nat || (n =? 32)%nat.

Fixpoint skip_white (s : string) : string :=
  match s with
  | String c r => if is_white c then skip_white r else s
  | EmptyString => s
  end.

(** The value of a character as a digit of the given radix (10 or 16). *)
Definition digit_of (radix : Z) (c : ascii) : option Z :=
  let n := Z.of_nat (nat_of_ascii c) in
  if (48 <=? n) && (n <=? 57) then Some (n - 48)
  else if (radix =? 16) && (97 <=? n) && (n <=? 102) then Some (n - 87)
  else if (radix =? 16) && (65 <=? n) && (n <=? 70) then Some (n - 55)
  else None.

(** The integer written by the longest prefix of digits; [acc] is [None]
    until a digit has been read. *)
Fixpoint digits_value (radix : Z) (s : string) (acc : option Z) : option Z :=
  match s with
  | String c r =>
      match digit_of radix c with
      | Some v =>
          digits_value radix r
            (Some (radix * match acc with Some a => a | None => 0 end + v))
      | None => acc
      end
  | EmptyString => acc
  end.

Definition parse_magnitude (s : string) : option Z :=
  match s with
  | String "0"%char (String "x"%char r)
  | String "0"%char (String "X"%char r) =>
      digits_value 16 r None
  | _ => digits_value 10 s None
  end.

Definition parseInt (s : string) : number :=
  let s := skip_white s in
  let '(neg, s) :=
    match s with
    | String "-"%char r => (true, r)
    | String "+"%char r => (false, r)
    | _ => (false, s)
    end in
  match parse_magnitude s with
  | Some 0 => S754_zero neg
  | Some z => num (if neg then - z else z)
  | None => S754_nan
  end.

(** [String(n)] for a non-negative integer below 10^21: its decimal
    digits.  This is what [Date.now() + '-'] prepends. *)
Definition string_of_N (n : N) : string :=
  NilEmpty.string_of_uint (N.to_uint n).

End JS.

(* ================================================================== *)
(** * JSON values, requests and responses *)
(* ================================================================== *)

Inductive json :=
| JNull
| JBool (b : bool)
| JNum (x : JS.number)
| JStr (s : string)
| JArr (items : list json)
| JObj (fields : list (string * json)).

(** A property of [req.body]: [None] when the body has no such property
    (destructuring yields [undefined]). *)
Definition property := option json.

(** JavaScript truthiness, as [!name] tests it. *)
Definition truthy (v : property) : bool :=
  match v with
  | None | Some JNull => false
  | Some (JBool b) => b
  | Some (JNum x) =>
      match x with S754_zero _ | S754_nan => false | _ => true end
  | Some (JStr s) => negb (s =? "")%string
  | Some (JArr _) | Some (JObj _) => true
  end.

Definition json_keys (j : json) : list string :=
  match j with JObj fields => map fst fields | _ => [] end.

(** What a handler hands to [res]. *)
Inductive body :=
| BText (text : string)            (* res.send(string) *)
| BJson (value : json)             (* res.json(value) *)
| BJsonUndefined                   (* res.json(undefined): nothing to serialise *)
| BSendFile (path : string)        (* res.sendFile(path) *)
| BFile (content : string)         (* the bytes of a file, streamed *)
| BErrorPage.                      (* the page of Express's final handler *)

Record response := Response { status : Z; payload : body }.

(** [res.send], [res.json] and [res.sendFile] without a preceding
    [res.status] leave the status at Express's initial 200. *)
Definition ok (b : body) : response := Response 200 b.

(* ================================================================== *)
(** * What the servers take from their platform *)
(* ================================================================== *)

(** Text without the character U+0000. *)
Fixpoint nul_free (s : string) : bool :=
  match s with
  | EmptyString => true
  | String c r => negb (Ascii.eqb c Ascii.zero) && nul_free r
  end.

(** The handlers pass route parameters and body values to the store
    untouched; the conversions below are the store's, the driver's and
    Node's, not the repository's. *)
Class Platform := {
  (** The store's input conversion for an [integer] column compared with
      or assigned from a text parameter; [None] when it rejects the text
      (the query then fails). *)
  int4in : string -> option Z;
  (** The store's input conversion for [text]: [false] when it refuses
      the text (the query then fails).  A text that holds the character
      U+0000 is refused. *)
  textin : string -> bool;
  textin_nul : forall s, nul_free s = false -> textin s = false;
  (** The driver's text for a parameter that is not a string, [null] or a
      boolean. *)
  driver_text : json -> string;
  (** The JSON text of a stored timestamp (the driver builds a [Date],
      [res.json] prints it). *)
  timestamp_text : Z -> string;
  (** Node's [path.resolve] of two segments, and [__dirname]. *)
  path_resolve : string -> string -> string;
  dirname : string;
  (** The directory the process runs in: the file system takes relative
      paths, those of the upload middleware included, from there. *)
  cwd : string
}.

(** The largest value of an [integer] column, hence of a SERIAL id. *)
Definition int4_max : Z := 2147483647.

(* ================================================================== *)
(** * Queries: state and failure *)
(* ================================================================== *)

Section Query.
Variable S : Type.

(** [await pool.query(..)] against a store of type [S]: it resolves with
    a result or rejects, and leaves a store either way. *)
Definition query (A : Type) := S -> option A * S.

Definition resolve {A} (a : A) : query A := fun s => (Some a, s).
Definition reject {A} : query A := fun s => (None, s).

Definition bind {A B} (m : query A) (k : A -> query B) : query B :=
  fun s =>
    match m s with
    | (Some a, s') => k a s'
    | (None, s') => (None, s')
    end.

(** [try { .. } catch (err) { respond }]. *)
Definition try_catch (m : query response) (handler : response)
  : S -> response * S :=
  fun s =>
    match m s with
    | (Some r, s') => (r, s')
    | (None, s') => (handler, s')
    end.
End Query.

Arguments resolve {S A} a.
Arguments reject {S A}.
Arguments bind {S A B} m k.
Arguments try_catch {S} m handler.

Notation "x <- m ;; k" := (bind m (fun x => k))
  (at level 61, m at next level, right associativity).

(* ================================================================== *)
(** * SQL fragments shared by both servers *)
(* ================================================================== *)

(** A text parameter as the driver sends it: [undefined] and [null] become
    SQL NULL, strings go as they are, booleans as [true]/[false]. *)
Definition prepare_value `{Platform} (v : property) : option string :=
  match v with
  | None | Some JNull => None
  | Some (JStr s) => Some s
  | Some (JBool b) => Some (if b then "true" else "false")
  | Some j => Some (driver_text j)
  end.

(** The store refuses a text parameter at its input, before the statement
    runs; NULL is no text and passes here. *)
Definition refused_text `{Platform} (v : option string) : bool :=
  match v with
  | Some s => negb (textin s)
  | None => false
  end.

Section OrderBy.
Variable A : Type.
Variable key : A -> option Z.

(** [a] may stand before [b] under [ORDER BY key DESC]: NULLs first,
    then larger keys. *)
Definition desc_before (a b : A) : bool :=
  match key a, key b with
  | None, _ => true
  | Some _, None => false
  | Some x, Some y => y <=? x
  end.

Fixpoint insert_desc (a : A) (l : list A) : list A :=
  match l with
  | [] => [a]
  | b :: r => if desc_before a b then a :: l else b :: insert_desc a r
  end.

(** [ORDER BY key DESC], as a stable insertion sort (the store leaves
    the order of equal keys open; nothing below depends on it). *)
Fixpoint order_by_desc (l : list A) : list A :=
  match l with
  | [] => []
  | a :: r => insert_desc a (order_by_desc r)
  end.
End OrderBy.

Definition opt_json {A} (f : A -> json) (o : option A) : json :=
  match o with Some a => f a | None => JNull end.

Definition id_json (z : Z) : json := JNum (JS.num z).

(** The parsed [req.body]: looking a property up gives its value, or
    [None] where the object has none. *)
Definition req_body := string -> property.

(** [res.json(result.rows[0])]: the first row, or [undefined] when the
    statement returned none. *)
Definition first_row_json {A} (f : A -> json) (rows : list A) : body :=
  match rows with
  | r :: _ => BJson (f r)
  | [] => BJsonUndefined
  end.

(** SQL [NOT] on a nullable boolean: NULL stays NULL. *)
Definition sql_not (b : option bool) : option bool := option_map negb b.

(** SQL [column = value] for a nullable integer column: NULL matches
    nothing. *)
Definition sql_eq (column : option Z) (value : Z) : bool :=
  match column with Some c => c =? value | None => false end.

(** A bigint as the driver delivers it: the text of its decimal digits. *)
Definition count_text (n : nat) : string :=
  NilEmpty.string_of_uint (Nat.to_uint n).

(* ================================================================== *)
(** * Variant A: projects, tasks, files, completion *)
(* ================================================================== *)

Module VariantA.

(** ** Rows, column for column as [createTables] declares them.  A
    column without NOT NULL is an [option]. *)

Module Project.
Record t := Row {
  id : Z;                       (* SERIAL PRIMARY KEY *)
  name : string;                (* TEXT NOT NULL *)
  description : option string;  (* TEXT *)
  status : option string;       (* TEXT DEFAULT 'new' *)
  created_at : option Z         (* TIMESTAMP DEFAULT CURRENT_TIMESTAMP *)
}.
End Project.

Module Task.
Record t := Row {
  id : Z;                       (* SERIAL PRIMARY KEY *)
  title : string;               (* TEXT NOT NULL *)
  done : option bool;           (* BOOLEAN DEFAULT FALSE *)
  project_id : option Z         (* INTEGER REFERENCES projects(id) *)
}.
End Task.

Module File.
Record t := Row {
  id : Z;                       (* SERIAL PRIMARY KEY *)
  filename : string;            (* TEXT NOT NULL *)
  filepath : string;            (* TEXT NOT NULL *)
  project_id : option Z         (* INTEGER REFERENCES projects(id) *)
}.
End File.

(** The statements of the source, as the log of the pool records them. *)
Inductive sql :=
| InsertFile | SelectProjectFiles | SelectFile
| CountTasks | CountDoneTasks
| SelectProjects | InsertProject
| SelectTasks | InsertTask | ToggleTask.

(** The store with its three serial sequences (the last value each has
    issued), the [uploads/] directory of the disk (path and content), and
    the statements the pool has been sent, oldest first. *)
Record world := World {
  projects : list Project.t;
  tasks : list Task.t;
  files : list File.t;
  projects_id_seq : Z;
  tasks_id_seq : Z;
  files_id_seq : Z;
  uploads : list (string * string);
  log : list sql
}.

Definition empty : world := World [] [] [] 0 0 0 [] [].

Definition sent (q : sql) (w : world) : world :=
  World (projects w) (tasks w) (files w) (projects_id_seq w)
        (tasks_id_seq w) (files_id_seq w) (uploads w) (log w ++ [q]).

Definition with_projects (l : list Project.t) (seq : Z) (w : world) : world :=
  World l (tasks w) (files w) seq (tasks_id_seq w) (files_id_seq w)
        (uploads w) (log w).

Definition with_tasks (l : list Task.t) (seq : Z) (w : world) : world :=
  World (projects w) l (files w) (projects_id_seq w) seq (files_id_seq w)
        (uploads w) (log w).

Definition with_files (l : list File.t) (seq : Z) (w : world) : world :=
  World (projects w) (tasks w) l (projects_id_seq w) (tasks_id_seq w) seq
        (uploads w) (log w).

Definition with_uploads (d : list (string * string)) (w : world) : world :=
  World (projects w) (tasks w) (files w) (projects_id_seq w)
        (tasks_id_seq w) (files_id_seq w) d (log w).

(** [fs] writing a file: a file already at that path is replaced. *)
Definition write_file (path content : string) (d : list (string * string))
  : list (string * string) :=
  (path, content) :: filter (fun e => negb (fst e =? path)%string) d.

Definition project_exists (z : Z) (w : world) : bool :=
  existsb (fun p => Project.id p =? z) (projects w).

(** The rows of [tasks WHERE project_id = z]. *)
Definition project_tasks (z : Z) (w : world) : list Task.t :=
  filter (fun t => sql_eq (Task.project_id t) z) (tasks w).

(** The rows of [tasks WHERE project_id = z AND done = true]. *)
Definition project_done_tasks (z : Z) (w : world) : list Task.t :=
  filter (fun t => sql_eq (Task.project_id t) z
                   && match Task.done t with
                      | Some true => true
                      | _ => false
                      end)
         (tasks w).

Section Statements.
Context `{Platform}.

(** [SELECT * FROM projects ORDER BY created_at DESC] *)
Definition select_projects : query world (list Project.t) :=
  fun w =>
    (Some (order_by_desc Project.created_at (projects w)),
     sent SelectProjects w).

(** [INSERT INTO projects (name, description) VALUES ($1, $2)
    RETURNING *], run at store time [now].  A parameter the store does
    not take as text fails the statement before it runs.  The sequence
    advances before the row is checked, so a refused row still uses up
    an id. *)
Definition insert_project (now : Z) (name description : option string)
  : query world (list Project.t) :=
  fun w =>
    let w := sent InsertProject w in
    if refused_text name || refused_text description then (None, w)
    else if int4_max <=? projects_id_seq w then (None, w)
    else
      let new_id := projects_id_seq w + 1 in
      let w := with_projects (projects w) new_id w in
      match name with
      | None => (None, w)
      | Some n =>
          if project_exists new_id w then (None, w)
          else
            let row := Project.Row new_id n description (Some "new")
                                   (Some now) in
            (Some [row], with_projects (projects w ++ [row]) new_id w)
      end.

(** [SELECT * FROM tasks WHERE project_id = $1] *)
Definition select_tasks (project : string) : query world (list Task.t) :=
  fun w =>
    let w := sent SelectTasks w in
    match int4in project with
    | None => (None, w)
    | Some z =>
        (Some (project_tasks z w), w)
    end.

(** [INSERT INTO tasks (title, project_id) VALUES ($1, $2) RETURNING *] *)
Definition insert_task (title : option string) (project : string)
  : query world (list Task.t) :=
  fun w =>
    let w := sent InsertTask w in
    match int4in project with
    | None => (None, w)
    | Some z =>
        if refused_text title then (None, w)
        else if int4_max <=? tasks_id_seq w then (None, w)
        else
          let new_id := tasks_id_seq w + 1 in
          let w := with_tasks (tasks w) new_id w in
          match title with
          | None => (None, w)
          | Some t =>
              if existsb (fun r => Task.id r =? new_id) (tasks w)
                 || negb (project_exists z w)
              then (None, w)
              else
                let row := Task.Row new_id t (Some false) (Some z) in
                (Some [row], with_tasks (tasks w ++ [row]) new_id w)
          end
    end.

(** The update of one row by [SET done = NOT done WHERE id = $1]. *)
Definition toggle_row (z : Z) (t : Task.t) : Task.t :=
  if Task.id t =? z
  then Task.Row (Task.id t) (Task.title t) (sql_not (Task.done t))
                (Task.project_id t)
  else t.

(** [UPDATE tasks SET done = NOT done WHERE id = $1 RETURNING *]: the
    rows it returns are the updated ones. *)
Definition toggle_task (task : string) : query world (list Task.t) :=
  fun w =>
    let w := sent ToggleTask w in
    match int4in task with
    | None => (None, w)
    | Some z =>
        let updated := map (toggle_row z) (tasks w) in
        (Some (filter (fun t => Task.id t =? z) updated),
         with_tasks updated (tasks_id_seq w) w)
    end.

(** [SELECT COUNT( * ) FROM tasks WHERE project_id = $1]: one row, its
    [count] a bigint, which the driver delivers as text. *)
Definition count_tasks (project : string) : query world (list string) :=
  fun w =>
    let w := sent CountTasks w in
    match int4in project with
    | None => (None, w)
    | Some z =>
        (Some [count_text (List.length (project_tasks z w))], w)
    end.

(** [SELECT COUNT( * ) FROM tasks WHERE project_id = $1 AND done = true] *)
Definition count_done_tasks (project : string)
  : query world (list string) :=
  fun w =>
    let w := sent CountDoneTasks w in
    match int4in project with
    | None => (None, w)
    | Some z =>
        (Some [count_text (List.length (project_done_tasks z w))], w)
    end.

(** [INSERT INTO files (filename, filepath, project_id)
    VALUES ($1, $2, $3)]: no RETURNING, no rows. *)
Definition insert_file (filename filepath project : string)
  : query world (list File.t) :=
  fun w =>
    let w := sent InsertFile w in
    match int4in project with
    | None => (None, w)
    | Some z =>
        if int4_max <=? files_id_seq w then (None, w)
        else
          let new_id := files_id_seq w + 1 in
          let w := with_files (files w) new_id w in
          if existsb (fun r => File.id r =? new_id) (files w)
             || negb (project_exists z w)
          then (None, w)
          else
            let row := File.Row new_id filename filepath (Some z) in
            (Some [], with_files (files w ++ [row]) new_id w)
    end.

(** [SELECT id, filename FROM files WHERE project_id = $1]: rows of
    two columns. *)
Definition select_project_files (project : string)
  : query world (list (Z * string)) :=
  fun w =>
    let w := sent SelectProjectFiles w in
    match int4in project with
    | None => (None, w)
    | Some z =>
        (Some (map (fun f => (File.id f, File.filename f))
                   (filter (fun f => sql_eq (File.project_id f) z)
                           (files w))), w)
    end.

(** [SELECT * FROM files WHERE id = $1] *)
Definition select_file (file : string) : query world (list File.t) :=
  fun w =>
    let w := sent SelectFile w in
    match int4in file with
    | None => (None, w)
    | Some z => (Some (filter (fun f => File.id f =? z) (files w)), w)
    end.
End Statements.

(** ** Rows as the driver hands them to [res.json]: one property a
    column, named as the column. *)

Section Rows.
Context `{Platform}.

Definition project_json (p : Project.t) : json :=
  JObj [("id", id_json (Project.id p));
        ("name", JStr (Project.name p));
        ("description", opt_json JStr (Project.description p));
        ("status", opt_json JStr (Project.status p));
        ("created_at",
         opt_json (fun t => JStr (timestamp_text t)) (Project.created_at p))].

Definition task_json (t : Task.t) : json :=
  JObj [("id", id_json (Task.id t));
        ("title", JStr (Task.title t));
        ("done", opt_json JBool (Task.done t));
        ("project_id", opt_json id_json (Task.project_id t))].

Definition file_listing_json (r : Z * string) : json :=
  JObj [("id", id_json (fst r)); ("filename", JStr (snd r))].
End Rows.

(** ** The upload middleware: [multer.diskStorage] *)

(** [req.file] as the handler reads it. *)
Record uploaded := Uploaded { originalname : string; path : string }.

(** [filename: Date.now() + '-' + file.originalname], under
    [destination: 'uploads/']. *)
Definition storage_filename (now : N) (original : string) : string :=
  JS.string_of_N now ++ "-" ++ original.

Definition storage_path (now : N) (original : string) : string :=
  "uploads/" ++ storage_filename now original.

(** [upload.single('file')]: with a part named [file] in the request, its
    content is written under the storage path and [req.file] is set;
    without one [req.file] stays undefined.  [now] is what [Date.now()]
    returns when the file name is chosen. *)
Definition upload_single (now : N) (part : option (string * string))
  (w : world) : option uploaded * world :=
  match part with
  | None => (None, w)
  | Some (original, content) =>
      let p := storage_path now original in
      (Some (Uploaded original p),
       with_uploads (write_file p content (uploads w)) w)
  end.

(** ** The handlers *)

Section Handlers.
Context `{Platform}.

(** [GET /] *)
Definition root : response := ok (BText "🟢 Backend is live and running!").

(** [POST /projects/:id/upload] *)
Definition upload_file (now : N) (id : string)
  (part : option (string * string)) (w : world) : response * world :=
  let '(file, w) := upload_single now part w in
  match file with
  | None => (Response 400 (BText "No file uploaded"), w)
  | Some file =>
      try_catch
        (_ <- insert_file (originalname file) (path file) id ;;
         resolve (Response 201 (BText "File uploaded")))
        (Response 500 (BText "Upload error")) w
  end.

(** [GET /projects/:id/files] *)
Definition list_files (id : string) : world -> response * world :=
  try_catch
    (rows <- select_project_files id ;;
     resolve (ok (BJson (JArr (map file_listing_json rows)))))
    (Response 500 (BText "Error fetching files")).

(** [res.sendFile(path)] on a response of status [st], which the handler
    does not wait for.  The disk holds what the upload middleware wrote,
    under the directory the process runs in: the file at [path] is
    streamed when it is there; when it is not, Express hands the error to
    its final handler, which answers 404. *)
Definition on_disk (path : string) (w : world) : option string :=
  option_map snd
    (find (fun e => (path_resolve cwd (fst e) =? path)%string) (uploads w)).

Definition send_file (st : Z) (path : string) (w : world) : response :=
  match on_disk path w with
  | Some content => Response st (BFile content)
  | None => Response 404 BErrorPage
  end.

(** What the client receives for what a handler has handed to [res]. *)
Definition delivered (r : response) (w : world) : response :=
  match payload r with
  | BSendFile path => send_file (status r) path w
  | _ => r
  end.

(** [GET /files/:id/view], up to the call of [res.sendFile]: the response
    as the handler leaves it, with the path it hands over.  What the
    client receives of it is [delivered], as [route] has it. *)
Definition view_file (id : string) : world -> response * world :=
  try_catch
    (rows <- select_file id ;;
     match rows with
     | [] => resolve (Response 404 (BText "File not found"))
     | row :: _ =>
         resolve (ok (BSendFile (path_resolve dirname (File.filepath row))))
     end)
    (Response 500 (BText "Error viewing file")).

(** [totalTasks === 0 ? 0 : Math.round((doneTasks / totalTasks) * 100)] *)
Definition percentage (doneTasks totalTasks : JS.number) : JS.number :=
  if JS.strict_eq totalTasks (JS.num 0) then JS.num 0
  else JS.Math_round (JS.mul (JS.div doneTasks totalTasks) (JS.num 100)).

(** [GET /projects/:id/completion].  [total[0].count] on a result
    without rows would throw inside the [try]. *)
Definition completion (id : string) : world -> response * world :=
  try_catch
    (total <- count_tasks id ;;
     done <- count_done_tasks id ;;
     match total, done with
     | total0 :: _, done0 :: _ =>
         let totalTasks := JS.parseInt total0 in
         let doneTasks := JS.parseInt done0 in
         resolve
           (ok (BJson (JObj [("percentage",
                              JNum (percentage doneTasks totalTasks))])))
     | _, _ => reject
     end)
    (Response 500 (BText "Error calculating completion")).

(** [GET /projects] *)
Definition list_projects : world -> response * world :=
  try_catch
    (rows <- select_projects ;;
     resolve (ok (BJson (JArr (map project_json rows)))))
    (Response 500 (BText "Server Error")).

(** [POST /projects], reaching the store at store time [now]. *)
Definition create_project (now : Z) (body : req_body) (w : world)
  : response * world :=
  let name := body "name" in
  let description := body "description" in
  if negb (truthy name) || negb (truthy description)
  then (Response 400
          (BJson (JObj [("error", JStr "Name and description are required")])),
        w)
  else
    try_catch
      (rows <- insert_project now (prepare_value name)
                              (prepare_value description) ;;
       resolve (Response 201 (first_row_json project_json rows)))
      (Response 500 (BText "Server Error")) w.

(** [GET /projects/:id/tasks] *)
Definition list_tasks (id : string) : world -> response * world :=
  try_catch
    (rows <- select_tasks id ;;
     resolve (ok (BJson (JArr (map task_json rows)))))
    (Response 500 (BText "Error fetching tasks")).

(** [POST /projects/:id/tasks] *)
Definition add_task (id : string) (body : req_body)
  : world -> response * world :=
  let title := body "title" in
  try_catch
    (rows <- insert_task (prepare_value title) id ;;
     resolve (Response 201 (first_row_json task_json rows)))
    (Response 500 (BText "Error adding task")).

(** [PUT /tasks/:id] *)
Definition toggle (id : string) : world -> response * world :=
  try_catch
    (rows <- toggle_task id ;;
     resolve (ok (first_row_json task_json rows)))
    (Response 500 (BText "Error toggling task")).
End Handlers.

(** ** The router: one handler a method and path *)

Inductive request :=
| GetRoot
| PostUpload (now : N) (id : string) (part : option (string * string))
| GetFiles (id : string)
| GetFileView (id : string)
| GetCompletion (id : string)
| GetProjects
| PostProjects (now : Z) (body : req_body)
| GetTasks (id : string)
| PostTasks (id : string) (body : req_body)
| PutTask (id : string).

Definition route `{Platform} (r : request) (w : world) : response * world :=
  match r with
  | GetRoot => (root, w)
  | PostUpload now id part => upload_file now id part w
  | GetFiles id => list_files id w
  | GetFileView id =>
      let '(r, w') := view_file id w in (delivered r w', w')
  | GetCompletion id => completion id w
  | GetProjects => list_projects w
  | PostProjects now body => create_project now body w
  | GetTasks id => list_tasks id w
  | PostTasks id body => add_task id body w
  | PutTask id => toggle id w
  end.

(** The store after a sequence of requests, served one after another. *)
Fixpoint serve `{Platform} (rs : list request) (w : world) : world :=
  match rs with
  | [] => w
  | r :: rest => serve rest (snd (route r w))
  end.

End VariantA.

(* ================================================================== *)
(** * Variant B ([server.js]): projects only *)
(* ================================================================== *)

Module VariantB.

Module Project.
Record t := Row {
  id : Z;                       (* SERIAL PRIMARY KEY *)
  name : string;                (* TEXT NOT NULL *)
  status : string;              (* TEXT NOT NULL *)
  created_at : option Z         (* TIMESTAMP DEFAULT CURRENT_TIMESTAMP *)
}.
End Project.

Inductive sql := SelectProjects | InsertProject.

Record world := World {
  projects : list Project.t;
  projects_id_seq : Z;
  log : list sql
}.

Definition empty : world := World [] 0 [].

Definition sent (q : sql) (w : world) : world :=
  World (projects w) (projects_id_seq w) (log w ++ [q]).

Definition with_projects (l : list Project.t) (seq : Z) (w : world) : world :=
  World l seq (log w).

Definition project_exists (z : Z) (w : world) : bool :=
  existsb (fun p => Project.id p =? z) (projects w).

Section Server.
Context `{Platform}.

(** [SELECT * FROM projects ORDER BY created_at DESC] *)
Definition select_projects : query world (list Project.t) :=
  fun w =>
    (Some (order_by_desc Project.created_at (projects w)),
     sent SelectProjects w).

(** [INSERT INTO projects (name, status) VALUES ($1, $2) RETURNING *] *)
Definition insert_project (now : Z) (name status : option string)
  : query world (list Project.t) :=
  fun w =>
    let w := sent InsertProject w in
    if refused_text name || refused_text status then (None, w)
    else if int4_max <=? projects_id_seq w then (None, w)
    else
      let new_id := projects_id_seq w + 1 in
      let w := with_projects (projects w) new_id w in
      match name, status with
      | Some n, Some s =>
          if project_exists new_id w then (None, w)
          else
            let row := Project.Row new_id n s (Some now) in
            (Some [row], with_projects (projects w ++ [row]) new_id w)
      | _, _ => (None, w)
      end.

Definition project_json (p : Project.t) : json :=
  JObj [("id", id_json (Project.id p));
        ("name", JStr (Project.name p));
        ("status", JStr (Project.status p));
        ("created_at",
         opt_json (fun t => JStr (timestamp_text t)) (Project.created_at p))].

(** [GET /] *)
Definition root : response := ok (BText "🟢 Backend is live and running!").

(** [GET /projects] *)
Definition list_projects : world -> response * world :=
  try_catch
    (rows <- select_projects ;;
     resolve (ok (BJson (JArr (map project_json rows)))))
    (Response 500 (BText "Server Error")).

(** [POST /projects] *)
Definition create_project (now : Z) (body : req_body) (w : world)
  : response * world :=
  let name := body "name" in
  let status := body "status" in
  if negb (truthy name) || negb (truthy status)
  then (Response 400
          (BJson (JObj [("error", JStr "Name and status are required")])),
        w)
  else
    try_catch
      (rows <- insert_project now (prepare_value name)
                              (prepare_value status) ;;
       resolve (Response 201 (first_row_json project_json rows)))
      (Response 500 (BText "Server Error")) w.
End Server.

Inductive request :=
| GetRoot
| GetProjects
| PostProjects (now : Z) (body : req_body).

Definition route `{Platform} (r : request) (w : world) : response * world :=
  match r with
  | GetRoot => (root, w)
  | GetProjects => list_projects w
  | PostProjects now body => create_project now body w
  end.

Fixpoint serve `{Platform} (rs : list request) (w : world) : world :=
  match rs with
  | [] => w
  | r :: rest => serve rest (snd (route r w))
  end.

End VariantB.

(* ================================================================== *)
(** * A platform to run the handlers on *)
(* ================================================================== *)

(** Decimal ids within the range of [integer]; anything else is refused. *)
Definition decimal_int4in (s : string) : option Z :=
  match s with
  | EmptyString => None
  | _ =>
      match NilEmpty.uint_of_string s with
      | Some u =>
          let z := Z.of_N (N.of_uint u) in
          if z <=? int4_max then Some z else None
      | None => None
      end
  end.

(** Timestamps printed as their digits, paths joined by a slash, the
    server installed under [/srv/backend] and started there. *)
Definition node_on_postgres : Platform := {|
  int4in := decimal_int4in;
  textin := nul_free;
  textin_nul := fun _ refused => refused;
  driver_text := fun _ => "[object Object]";
  timestamp_text := fun t => NilEmpty.string_of_int (Z.to_int t);
  path_resolve := fun dir p => dir ++ "/" ++ p;
  dirname := "/srv/backend";
  cwd := "/srv/backend"
|}.

(** A body with the given properties (the first binding of a name is the
    one found). *)
Fixpoint body_of (fields : list (string * json)) : req_body :=
  fun key =>
    match fields with
    | [] => None
    | (k, v) :: rest => if (k =? key)%string then Some v else body_of rest key
    end.

(* ================================================================== *)
(** * Vocabulary of the statements *)
(* ================================================================== *)

(** A required body field is missing ([undefined] or [null]) or empty. *)
Definition missing_or_empty (v : property) : Prop :=
  v = None \/ v = Some JNull \/ v = Some (JStr "").

(** A required text field is present: a string that is not empty. *)
Definition present (v : property) : Prop :=
  exists s, v = Some (JStr s) /\ s <> "".

(** A serial sequence can still issue ids, and is ahead of every id in
    its table: what holds of a table filled through the sequence alone. *)
Definition issues_fresh_ids (ids : list Z) (seq : Z) : Prop :=
  seq < int4_max /\ Forall (fun i => i <= seq) ids.

(** The ids of a table under its primary key, all issued by its sequence. *)
Definition keyed (ids : list Z) (seq : Z) : Prop :=
  NoDup ids /\ Forall (fun i => i <= seq) ids.

(** What every store of variant A satisfies that was filled through the
    handlers: primary keys hold and come from the sequences, every task has
    a [done] that is not NULL, every task and file belongs to a project of
    the store, and the file of every attachment is in the upload
    directory. *)
Record consistent (w : VariantA.world) : Prop := Consistent {
  projects_keyed :
    keyed (map VariantA.Project.id (VariantA.projects w))
          (VariantA.projects_id_seq w);
  tasks_keyed :
    keyed (map VariantA.Task.id (VariantA.tasks w)) (VariantA.tasks_id_seq w);
  files_keyed :
    keyed (map VariantA.File.id (VariantA.files w)) (VariantA.files_id_seq w);
  tasks_decided :
    Forall (fun t => VariantA.Task.done t <> None) (VariantA.tasks w);
  tasks_owned :
    Forall (fun t => exists z, VariantA.Task.project_id t = Some z
                               /\ VariantA.project_exists z w = true)
           (VariantA.tasks w);
  files_owned :
    Forall (fun f => exists z, VariantA.File.project_id f = Some z
                               /\ VariantA.project_exists z w = true)
           (VariantA.files w);
  files_stored :
    Forall (fun f => In (VariantA.File.filepath f)
                        (map fst (VariantA.uploads w)))
           (VariantA.files w)
}.

(** The same of variant B, which has the projects table only. *)
Definition consistent_B (w : VariantB.world) : Prop :=
  keyed (map VariantB.Project.id (VariantB.projects w))
        (VariantB.projects_id_seq w).

(** The row variant A stores for a name and a description: the next id of
    the sequence, the status left to its default, the store's time. *)
Definition created_A (w : VariantA.world) (now : Z) (n d : string)
  : VariantA.Project.t :=
  VariantA.Project.Row (VariantA.projects_id_seq w + 1) n (Some d)
                       (Some "new") (Some now).

(** The row variant B stores for a name and a status. *)
Definition created_B (w : VariantB.world) (now : Z) (n s : string)
  : VariantB.Project.t :=
  VariantB.Project.Row (VariantB.projects_id_seq w + 1) n s (Some now).

(** The row the upload of a file named [original], stored at [now], adds
    for project [z]. *)
Definition uploaded_row (w : VariantA.world) (now : N) (original : string)
  (z : Z) : VariantA.File.t :=
  VariantA.File.Row (VariantA.files_id_seq w + 1) original
                    (VariantA.storage_path now original) (Some z).

(** Two projects created in this order, the second at a later store time. *)
Definition apollo : VariantA.Project.t :=
  VariantA.Project.Row 1 "Apollo" (Some "first") (Some "new") (Some 1000).
Definition gemini : VariantA.Project.t :=
  VariantA.Project.Row 2 "Gemini" (Some "second") (Some "new") (Some 2000).

Definition two_projects : VariantA.world :=
  VariantA.World [apollo; gemini] [] [] 2 0 0 [] [].

(** Project 1 with [total] tasks, ids 1 to [total], the first [finished]
    of them done. *)
Definition backlog (finished total : nat) : list VariantA.Task.t :=
  map (fun i => VariantA.Task.Row (Z.of_nat i) "task"
                                  (Some (i <=? finished)%nat) (Some 1))
      (seq 1 total).

Definition tracked (finished total : nat) : VariantA.world :=
  VariantA.World [apollo] (backlog finished total) [] 1 (Z.of_nat total) 0
                 [] [].

(** Project 1 with two attachments. *)
Definition plan_pdf : VariantA.File.t :=
  VariantA.File.Row 1 "plan.pdf" "uploads/1700000000000-plan.pdf" (Some 1).
Definition notes_txt : VariantA.File.t :=
  VariantA.File.Row 2 "notes.txt" "uploads/1700000000500-notes.txt" (Some 1).

Definition attached : VariantA.world :=
  VariantA.World [apollo] [] [plan_pdf; notes_txt] 1 0 2
    [("uploads/1700000000500-notes.txt", "notes");
     ("uploads/1700000000000-plan.pdf", "plan")] [].

(** The attachments after the upload directory has been emptied: the
    rows are there, the files are gone. *)
Definition lost : VariantA.world := VariantA.with_uploads [] attached.

(** The percentage as the specification defines it: 0 without tasks,
    else 100 * done / total rounded to the nearest integer, a half
    upwards. *)
Definition spec_percentage (finished total : nat) : Z :=
  match total with
  | O => 0
  | _ => (200 * Z.of_nat finished + Z.of_nat total) / (2 * Z.of_nat total)
  end.

(** Structural equality of Numbers. *)
Definition same_number (x y : JS.number) : bool :=
  match x, y with
  | S754_zero s, S754_zero s' | S754_infinity s, S754_infinity s' => Bool.eqb s s'
  | S754_nan, S754_nan => true
  | S754_finite s m e, S754_finite s' m' e' =>
      Bool.eqb s s' && (m =? m')%positive && (e =? e')
  | _, _ => false
  end.

(** The handler's percentage is the specification's for [finished] done
    tasks among [total]; and for every such count among [total] tasks. *)
Definition agrees (total finished : nat) : bool :=
  same_number
    (VariantA.percentage (JS.num (Z.of_nat finished)) (JS.num (Z.of_nat total)))
    (JS.num (spec_percentage finished total)).

Definition agrees_throughout (total : nat) : bool :=
  forallb (agrees total) (seq 0 (S total)).

(** ** Binary64 rounding, for the proofs about the percentage *)

(** What a location says of the part [a/b] of the last place that lies
    beyond the mantissa, for [0 <= a < b]: nothing, less than a half, a
    half, more than a half. *)
Definition located (l : location) (a b : Z) : Prop :=
  match l with
  | loc_Exact => a = 0
  | loc_Inexact Lt => 0 < a /\ 2 * a < b
  | loc_Inexact Eq => 0 < a /\ 2 * a = b
  | loc_Inexact Gt => b < 2 * a
  end.

(** A record of the right shift that holds [mx] shifted by [k] bits, the
    value being [mx + a/b] before the shift. *)
Definition shifted_to (mx a b : Z) (k : Z) (rec : shr_record) : Prop :=
  shr_m rec = mx / 2 ^ k
  /\ located (loc_of_shr_record rec) ((mx mod 2 ^ k) * b + a) (2 ^ k * b).

(** Rounding to binary64, as division and multiplication call it. *)
Definition round64 := binary_round_aux 53 1024.


(** ** Vocabulary of the statements about whole runs *)

(** The routes registered with [app.get]. *)
Definition is_get (r : VariantA.request) : bool :=
  match r with
  | VariantA.GetRoot | VariantA.GetFiles _ | VariantA.GetFileView _
  | VariantA.GetCompletion _ | VariantA.GetProjects | VariantA.GetTasks _ =>
      true
  | VariantA.PostUpload _ _ _ | VariantA.PostProjects _ _
  | VariantA.PostTasks _ _ | VariantA.PutTask _ => false
  end.

(** [w'] has the rows of [w], table for table. *)
Definition same_tables (w w' : VariantA.world) : Prop :=
  VariantA.projects w' = VariantA.projects w
  /\ VariantA.tasks w' = VariantA.tasks w
  /\ VariantA.files w' = VariantA.files w.

(** [w'] is [w] but for the log of statements: the same rows, the same
    sequences, the same upload directory. *)
Definition same_store (w w' : VariantA.world) : Prop :=
  same_tables w w'
  /\ VariantA.projects_id_seq w' = VariantA.projects_id_seq w
  /\ VariantA.tasks_id_seq w' = VariantA.tasks_id_seq w
  /\ VariantA.files_id_seq w' = VariantA.files_id_seq w
  /\ VariantA.uploads w' = VariantA.uploads w.

(** A task apart from its [done] column. *)
Definition task_identity (t : VariantA.Task.t) : Z * string * option Z :=
  (VariantA.Task.id t, VariantA.Task.title t, VariantA.Task.project_id t).

(** [w'] holds everything [w] holds: every project and every file row of
    [w], every task of [w] up to its [done], and a file under every path
    of its upload directory. *)
Definition extends (w w' : VariantA.world) : Prop :=
  (forall p, In p (VariantA.projects w) -> In p (VariantA.projects w'))
  /\ (forall t, In t (VariantA.tasks w) ->
                In (task_identity t) (map task_identity (VariantA.tasks w')))
  /\ (forall f, In f (VariantA.files w) -> In f (VariantA.files w'))
  /\ (forall p, In p (map fst (VariantA.uploads w))
                -> In p (map fst (VariantA.uploads w'))).

(** The row [POST /projects/:id/tasks] stores for a title and project
    [z]: the next id of the sequence, [done] left to its default. *)
Definition created_task (w : VariantA.world) (title : string) (z : Z)
  : VariantA.Task.t :=
  VariantA.Task.Row (VariantA.tasks_id_seq w + 1) title (Some false) (Some z).

(** The string has no hyphen. *)
Fixpoint dashless (s : string) : bool :=
  match s with
  | EmptyString => true
  | String c r => negb (Ascii.eqb c "-"%char) && dashless r
  end.

(* ================================================================== *)
(** * The tables at start-up: [createTables] and [createTable] *)
(* ================================================================== *)

Module Schema.

(** A table that exists: its rows and the last value its sequence has
    issued. *)
Definition table (row : Type) : Type := (list row * Z)%type.

(** A table as CREATE TABLE makes it: no row, nothing issued. *)
Definition fresh {row : Type} : table row := ([], 0).

(** The database variant A finds when it starts: each of its three
    tables is there or not. *)
Record database := Database {
  projects : option (table VariantA.Project.t);
  tasks : option (table VariantA.Task.t);
  files : option (table VariantA.File.t)
}.

Definition blank : database := Database None None None.

(** The tables of a store of the handlers. *)
Definition tables_of (w : VariantA.world) : database :=
  Database (Some (VariantA.projects w, VariantA.projects_id_seq w))
           (Some (VariantA.tasks w, VariantA.tasks_id_seq w))
           (Some (VariantA.files w, VariantA.files_id_seq w)).

(** [CREATE TABLE IF NOT EXISTS projects ( .. )]: a table of that name is
    left as it is. *)
Definition create_projects : query database unit :=
  fun d =>
    match projects d with
    | Some _ => (Some tt, d)
    | None => (Some tt, Database (Some fresh) (tasks d) (files d))
    end.

(** [CREATE TABLE IF NOT EXISTS tasks ( .. project_id INTEGER REFERENCES
    projects(id) .. )]: a new table needs the table it references. *)
Definition create_tasks : query database unit :=
  fun d =>
    match tasks d with
    | Some _ => (Some tt, d)
    | None =>
        match projects d with
        | Some _ => (Some tt, Database (projects d) (Some fresh) (files d))
        | None => (None, d)
        end
    end.

(** [CREATE TABLE IF NOT EXISTS files ( .. project_id INTEGER REFERENCES
    projects(id) .. )] *)
Definition create_files : query database unit :=
  fun d =>
    match files d with
    | Some _ => (Some tt, d)
    | None =>
        match projects d with
        | Some _ => (Some tt, Database (projects d) (tasks d) (Some fresh))
        | None => (None, d)
        end
    end.

(** What the function writes to the console: the line of [console.log]
    at the end of the [try], or the one of [console.error] in the
    [catch]. *)
Inductive console := TablesReady | TableCreationError.

(** [createTables] of variant A: the three statements one after the
    other; the first that is rejected ends the [try]. *)
Definition createTables (d : database) : console * database :=
  match (_ <- create_projects ;; _ <- create_tasks ;; _ <- create_files ;;
         resolve TablesReady) d with
  | (Some line, d') => (line, d')
  | (None, d') => (TableCreationError, d')
  end.

(** [createTable] of variant B: its one table. *)
Definition createTable (d : option (table VariantB.Project.t))
  : console * option (table VariantB.Project.t) :=
  match d with
  | Some _ => (TablesReady, d)
  | None => (TablesReady, Some fresh)
  end.

End Schema.
(* ================================================================== *)
(** * ORDER BY: the result is a sorted rearrangement *)
(* ================================================================== *)

Section OrderByFacts.
Variable A : Type.
Variable key : A -> option Z.

Let before (a b : A) : Prop := desc_before key a b = true.

Lemma desc_before_total a b :
  desc_before key a b = true \/ desc_before key b a = true.
Proof.
  unfold desc_before.
  destruct (key a), (key b); auto.
  destruct (Z.leb_spec z0 z); auto.
  right. apply Z.leb_le. lia.
Qed.

Lemma desc_before_trans a b c :
  desc_before key a b = true -> desc_before key b c = true ->
  desc_before key a c = true.
Proof.
  unfold desc_before.
  destruct (key a), (key b), (key c); try congruence.
  rewrite !Z.leb_le. lia.
Qed.

Lemma insert_desc_perm a l : Permutation (insert_desc key a l) (a :: l).
Proof.
  induction l as [|b r IH]; simpl; [reflexivity|].
  destruct (desc_before key a b); [reflexivity|].
  rewrite IH. apply perm_swap.
Qed.

Lemma order_by_desc_perm l : Permutation (order_by_desc key l) l.
Proof.
  induction l as [|a r IH]; simpl; [constructor|].
  rewrite insert_desc_perm. now constructor.
Qed.

Lemma insert_desc_sorted a l :
  StronglySorted before l -> StronglySorted before (insert_desc key a l).
Proof.
  induction 1 as [|b r Hs IH Hb]; simpl.
  - repeat constructor.
  - destruct (desc_before key a b) eqn:E.
    + constructor; [now constructor|].
      constructor; [exact E|].
      eapply Forall_impl; [|exact Hb].
      intros c Hc. eapply desc_before_trans; eassumption.
    + constructor; [exact IH|].
      apply (Permutation_Forall (Permutation_sym (insert_desc_perm a r))).
      constructor; [|exact Hb].
      destruct (desc_before_total a b) as [F|F]; [congruence|exact F].
Qed.

Lemma order_by_desc_sorted l : StronglySorted before (order_by_desc key l).
Proof.
  induction l as [|a r IH]; simpl; [constructor|].
  now apply insert_desc_sorted.
Qed.

Lemma sorted_positions (R : A -> A -> Prop) l :
  StronglySorted R l ->
  forall i j a b, (i < j)%nat ->
    nth_error l i = Some a -> nth_error l j = Some b -> R a b.
Proof.
  induction 1 as [|x r Hs IH Hx]; intros i j a b Hij Hi Hj.
  - destruct i; discriminate.
  - destruct j as [|j]; [lia|]. simpl in Hj.
    destruct i as [|i]; simpl in Hi.
    + injection Hi as <-.
      rewrite Forall_forall in Hx. apply Hx.
      eapply nth_error_In; eassumption.
    + apply (IH i j); auto. lia.
Qed.

(** In the rows an [ORDER BY key DESC] returns, a row with a later key
    stands at an earlier position. *)
Lemma order_by_desc_later_first l i j a b ka kb :
  nth_error (order_by_desc key l) i = Some b ->
  nth_error (order_by_desc key l) j = Some a ->
  key a = Some ka -> key b = Some kb -> ka < kb ->
  (i < j)%nat.
Proof.
  intros Hi Hj Ha Hb Hlt.
  destruct (Nat.lt_trichotomy i j) as [L|[E|G]]; [exact L| |].
  - subst j. rewrite Hi in Hj. injection Hj as ->.
    rewrite Ha in Hb. injection Hb as ->. lia.
  - pose proof (sorted_positions (order_by_desc_sorted l) G Hj Hi) as S.
    unfold before, desc_before in S. rewrite Ha, Hb in S.
    apply Z.leb_le in S. lia.
Qed.
End OrderByFacts.

(* ================================================================== *)
(** * Listing projects *)
(* ================================================================== *)

Section Listing.
Context `{Platform}.

Lemma listing_A (w : VariantA.world) :
  fst (VariantA.list_projects w)
  = ok (BJson (JArr (map VariantA.project_json
          (order_by_desc VariantA.Project.created_at (VariantA.projects w))))).
Proof. reflexivity. Qed.

Lemma listing_B (w : VariantB.world) :
  fst (VariantB.list_projects w)
  = ok (BJson (JArr (map VariantB.project_json
          (order_by_desc VariantB.Project.created_at (VariantB.projects w))))).
Proof. reflexivity. Qed.
End Listing.

(** C6, as the query orders.  [GET /projects] answers 200 with one object
    a project row, all of them, each with the columns of its row under
    their names, ordered by [created_at] descending: of two rows, the one
    with the later [created_at] stands at the earlier position of the
    array.  The query orders by nothing else, so rows of one [created_at]
    come in no promised order.  This holds of both servers. *)
Theorem list_projects_newest_first `{Platform} :
  (forall w : VariantA.world,
      exists rows,
        fst (VariantA.list_projects w)
        = Response 200
            (BJson (JArr (map (fun p =>
               JObj [("id", id_json (VariantA.Project.id p));
                   ("name", JStr (VariantA.Project.name p));
                   ("description",
                    opt_json JStr (VariantA.Project.description p));
                   ("status", opt_json JStr (VariantA.Project.status p));
                   ("created_at",
                    opt_json (fun t => JStr (timestamp_text t))
                             (VariantA.Project.created_at p))])
               rows)))
        /\ Permutation rows (VariantA.projects w)
        /\ forall i j a b ta tb,
            nth_error rows i = Some b -> nth_error rows j = Some a ->
            VariantA.Project.created_at a = Some ta ->
            VariantA.Project.created_at b = Some tb ->
            ta < tb -> (i < j)%nat)
  /\ (forall w : VariantB.world,
      exists rows,
        fst (VariantB.list_projects w)
        = Response 200
            (BJson (JArr (map (fun p =>
               JObj [("id", id_json (VariantB.Project.id p));
                   ("name", JStr (VariantB.Project.name p));
                   ("status", JStr (VariantB.Project.status p));
                   ("created_at",
                    opt_json (fun t => JStr (timestamp_text t))
                             (VariantB.Project.created_at p))])
               rows)))
        /\ Permutation rows (VariantB.projects w)
        /\ forall i j a b ta tb,
            nth_error rows i = Some b -> nth_error rows j = Some a ->
            VariantB.Project.created_at a = Some ta ->
            VariantB.Project.created_at b = Some tb ->
            ta < tb -> (i < j)%nat).
Proof.
  split; intros w.
  - exists (order_by_desc VariantA.Project.created_at (VariantA.projects w)).
    split; [reflexivity|]. split; [apply order_by_desc_perm|].
    intros i j a b ta tb. apply order_by_desc_later_first.
  - exists (order_by_desc VariantB.Project.created_at (VariantB.projects w)).
    split; [reflexivity|]. split; [apply order_by_desc_perm|].
    intros i j a b ta tb. apply order_by_desc_later_first.
Qed.


(* ================================================================== *)
(** * Creating a project *)
(* ================================================================== *)

Lemma missing_or_empty_falsy v : missing_or_empty v -> truthy v = false.
Proof. intros [-> | [-> | ->]]; reflexivity. Qed.

Lemma present_truthy v : present v -> truthy v = true.
Proof.
  intros (s & -> & Hs). simpl.
  destruct (String.eqb_spec s ""); [contradiction | reflexivity].
Qed.

Lemma fresh_id_unused (ids : list Z) (seq : Z) :
  Forall (fun i => i <= seq) ids -> existsb (fun i => i =? seq + 1) ids = false.
Proof.
  induction 1 as [|i r Hi _ IH]; simpl; [reflexivity|].
  rewrite IH, orb_false_r. apply Z.eqb_neq. lia.
Qed.

Lemma id_among_keys {A} (key : A -> Z) (z : Z) (rows : list A) :
  existsb (fun i => i =? z) (map key rows)
  = existsb (fun row => key row =? z) rows.
Proof.
  induction rows as [|row rest IH]; simpl; [reflexivity | now rewrite IH].
Qed.

Section Creation.
Context `{Platform}.

Lemma create_A_refused now body w :
  truthy (body "name") = false \/ truthy (body "description") = false ->
  VariantA.create_project now body w
  = (Response 400
       (BJson (JObj [("error", JStr "Name and description are required")])),
     w).
Proof.
  intros F. unfold VariantA.create_project.
  destruct F as [-> | ->]; [reflexivity|].
  now rewrite orb_true_r.
Qed.

Lemma create_A_stored now body w n d :
  truthy (body "name") = true -> truthy (body "description") = true ->
  prepare_value (body "name") = Some n ->
  prepare_value (body "description") = Some d ->
  textin n = true -> textin d = true ->
  issues_fresh_ids (map VariantA.Project.id (VariantA.projects w))
                   (VariantA.projects_id_seq w) ->
  VariantA.create_project now body w
  = (Response 201 (BJson (VariantA.project_json (created_A w now n d))),
     VariantA.with_projects
       (VariantA.projects w ++ [created_A w now n d])
       (VariantA.projects_id_seq w + 1)
       (VariantA.sent VariantA.InsertProject w)).
Proof.
  intros Tn Td Pn Pd In Id [Hmax Hids].
  unfold VariantA.create_project. rewrite Tn, Td. simpl.
  unfold try_catch, bind, VariantA.insert_project. rewrite Pn, Pd. simpl.
  rewrite In, Id. simpl.
  destruct (Z.leb_spec int4_max (VariantA.projects_id_seq w)); [lia|].
  unfold VariantA.project_exists. simpl.
  rewrite <- (id_among_keys VariantA.Project.id).
  rewrite (fresh_id_unused Hids). reflexivity.
Qed.

Lemma create_B_refused now body w :
  truthy (body "name") = false \/ truthy (body "status") = false ->
  VariantB.create_project now body w
  = (Response 400
       (BJson (JObj [("error", JStr "Name and status are required")])),
     w).
Proof.
  intros F. unfold VariantB.create_project.
  destruct F as [-> | ->]; [reflexivity|].
  now rewrite orb_true_r.
Qed.

Lemma create_B_stored now body w n s :
  truthy (body "name") = true -> truthy (body "status") = true ->
  prepare_value (body "name") = Some n ->
  prepare_value (body "status") = Some s ->
  textin n = true -> textin s = true ->
  issues_fresh_ids (map VariantB.Project.id (VariantB.projects w))
                   (VariantB.projects_id_seq w) ->
  VariantB.create_project now body w
  = (Response 201 (BJson (VariantB.project_json (created_B w now n s))),
     VariantB.with_projects
       (VariantB.projects w ++ [created_B w now n s])
       (VariantB.projects_id_seq w + 1)
       (VariantB.sent VariantB.InsertProject w)).
Proof.
  intros Tn Ts Pn Ps In Is [Hmax Hids].
  unfold VariantB.create_project. rewrite Tn, Ts. simpl.
  unfold try_catch, bind, VariantB.insert_project. rewrite Pn, Ps. simpl.
  rewrite In, Is. simpl.
  destruct (Z.leb_spec int4_max (VariantB.projects_id_seq w)); [lia|].
  unfold VariantB.project_exists. simpl.
  rewrite <- (id_among_keys VariantB.Project.id).
  rewrite (fresh_id_unused Hids). reflexivity.
Qed.

(** A text the store does not take fails the insert before it runs: the
    handler's [catch] answers, and the store has only seen the
    statement. *)
Lemma create_A_text_refused now body w n d :
  truthy (body "name") = true -> truthy (body "description") = true ->
  prepare_value (body "name") = Some n ->
  prepare_value (body "description") = Some d ->
  textin n = false \/ textin d = false ->
  VariantA.create_project now body w
  = (Response 500 (BText "Server Error"),
     VariantA.sent VariantA.InsertProject w).
Proof.
  intros Tn Td Pn Pd Refused.
  unfold VariantA.create_project. rewrite Tn, Td. simpl.
  unfold try_catch, bind, VariantA.insert_project. rewrite Pn, Pd. simpl.
  destruct Refused as [-> | ->]; simpl; [reflexivity|].
  now rewrite orb_true_r.
Qed.

Lemma create_B_text_refused now body w n s :
  truthy (body "name") = true -> truthy (body "status") = true ->
  prepare_value (body "name") = Some n ->
  prepare_value (body "status") = Some s ->
  textin n = false \/ textin s = false ->
  VariantB.create_project now body w
  = (Response 500 (BText "Server Error"),
     VariantB.sent VariantB.InsertProject w).
Proof.
  intros Tn Ts Pn Ps Refused.
  unfold VariantB.create_project. rewrite Tn, Ts. simpl.
  unfold try_catch, bind, VariantB.insert_project. rewrite Pn, Ps. simpl.
  destruct Refused as [-> | ->]; simpl; [reflexivity|].
  now rewrite orb_true_r.
Qed.
End Creation.

(** C4.  [POST /projects] with a required field missing or empty answers
    400 with a validation error and leaves the store as it was, its log
    included: no statement was sent.  With every required field present,
    of text the store takes, it answers 201 with the created row: the id
    the sequence issued, the fields as they were sent, the store's
    timestamp; and the row is in the table.  A field of text the store
    refuses (PostgreSQL: one holding U+0000) fails the insert: the answer
    is the 500 of the handler's [catch] and nothing is stored.  The
    required fields are [name] and [description] in variant A, [name] and
    [status] in variant B. *)
Theorem create_project_validates_before_insert `{Platform} now body :
  (forall w : VariantA.world,
      (missing_or_empty (body "name") \/ missing_or_empty (body "description") ->
       VariantA.create_project now body w
       = (Response 400
            (BJson (JObj [("error", JStr "Name and description are required")])),
          w))
      /\ (forall n d,
             body "name" = Some (JStr n) -> n <> "" ->
             body "description" = Some (JStr d) -> d <> "" ->
             (textin n = true -> textin d = true ->
              issues_fresh_ids (map VariantA.Project.id (VariantA.projects w))
                               (VariantA.projects_id_seq w) ->
              let row := created_A w now n d in
              let after := snd (VariantA.create_project now body w) in
              fst (VariantA.create_project now body w)
              = Response 201
                  (BJson (JObj [("id", id_json (VariantA.projects_id_seq w + 1));
                                ("name", JStr n);
                                ("description", JStr d);
                                ("status", JStr "new");
                                ("created_at", JStr (timestamp_text now))]))
              /\ VariantA.projects after = (VariantA.projects w ++ [row])%list
              /\ VariantA.log after
                 = (VariantA.log w ++ [VariantA.InsertProject])%list
              /\ Forall (fun p => VariantA.Project.id p < VariantA.Project.id row)
                        (VariantA.projects w))
             /\ (textin n = false \/ textin d = false ->
                 VariantA.create_project now body w
                 = (Response 500 (BText "Server Error"),
                    VariantA.sent VariantA.InsertProject w))))
  /\ (forall w : VariantB.world,
      (missing_or_empty (body "name") \/ missing_or_empty (body "status") ->
       VariantB.create_project now body w
       = (Response 400
            (BJson (JObj [("error", JStr "Name and status are required")])),
          w))
      /\ (forall n s,
             body "name" = Some (JStr n) -> n <> "" ->
             body "status" = Some (JStr s) -> s <> "" ->
             (textin n = true -> textin s = true ->
              issues_fresh_ids (map VariantB.Project.id (VariantB.projects w))
                               (VariantB.projects_id_seq w) ->
              let row := created_B w now n s in
              let after := snd (VariantB.create_project now body w) in
              fst (VariantB.create_project now body w)
              = Response 201
                  (BJson (JObj [("id", id_json (VariantB.projects_id_seq w + 1));
                                ("name", JStr n);
                                ("status", JStr s);
                                ("created_at", JStr (timestamp_text now))]))
              /\ VariantB.projects after = (VariantB.projects w ++ [row])%list
              /\ VariantB.log after
                 = (VariantB.log w ++ [VariantB.InsertProject])%list
              /\ Forall (fun p => VariantB.Project.id p < VariantB.Project.id row)
                        (VariantB.projects w))
             /\ (textin n = false \/ textin s = false ->
                 VariantB.create_project now body w
                 = (Response 500 (BText "Server Error"),
                    VariantB.sent VariantB.InsertProject w)))).
Proof.
  split; intros w; split.
  - intros M. apply create_A_refused.
    destruct M as [M | M]; [left | right]; now apply missing_or_empty_falsy.
  - intros n d Bn Hn Bd Hd.
    assert (truthy (body "name") = true) as Tn
        by (apply present_truthy; now exists n).
    assert (truthy (body "description") = true) as Td
        by (apply present_truthy; now exists d).
    assert (prepare_value (body "name") = Some n) as Pn by now rewrite Bn.
    assert (prepare_value (body "description") = Some d) as Pd
        by now rewrite Bd.
    split.
    + intros In Id Hfresh row after. subst row after.
      rewrite (@create_A_stored _ now body w n d Tn Td Pn Pd In Id Hfresh).
      simpl. repeat split; try reflexivity.
      destruct Hfresh as [_ Hids]. rewrite Forall_map in Hids.
      eapply Forall_impl; [|exact Hids]. simpl. intros; lia.
    + now apply create_A_text_refused with (n := n) (d := d).
  - intros M. apply create_B_refused.
    destruct M as [M | M]; [left | right]; now apply missing_or_empty_falsy.
  - intros n s0 Bn Hn Bs Hs.
    assert (truthy (body "name") = true) as Tn
        by (apply present_truthy; now exists n).
    assert (truthy (body "status") = true) as Ts
        by (apply present_truthy; now exists s0).
    assert (prepare_value (body "name") = Some n) as Pn by now rewrite Bn.
    assert (prepare_value (body "status") = Some s0) as Ps by now rewrite Bs.
    split.
    + intros In Is Hfresh row after. subst row after.
      rewrite (@create_B_stored _ now body w n s0 Tn Ts Pn Ps In Is Hfresh).
      simpl. repeat split; try reflexivity.
      destruct Hfresh as [_ Hids]. rewrite Forall_map in Hids.
      eapply Forall_impl; [|exact Hids]. simpl. intros; lia.
    + now apply create_B_text_refused with (n := n) (s := s0).
Qed.


(** C5, as the handler has it.  In variant A [POST /projects] requires a
    description as it requires a name: with a name but no description it
    answers 400 and stores nothing.  With both, of text the store takes,
    it answers 201 with the created row, and the row has status "new"
    whatever the body says of a status: the handler never passes one, so
    the column's default always applies. *)
Theorem create_project_requires_description `{Platform} now body w :
  (present (body "name") -> missing_or_empty (body "description") ->
   fst (VariantA.create_project now body w)
   = Response 400
       (BJson (JObj [("error", JStr "Name and description are required")]))
   /\ snd (VariantA.create_project now body w) = w)
  /\ (forall n d,
         body "name" = Some (JStr n) -> n <> "" ->
         body "description" = Some (JStr d) -> d <> "" ->
         textin n = true -> textin d = true ->
         issues_fresh_ids (map VariantA.Project.id (VariantA.projects w))
                          (VariantA.projects_id_seq w) ->
         exists row,
           fst (VariantA.create_project now body w)
           = Response 201
               (BJson (JObj [("id", id_json (VariantA.Project.id row));
                             ("name", JStr n);
                             ("description", JStr d);
                             ("status", JStr "new");
                             ("created_at", JStr (timestamp_text now))]))
           /\ VariantA.projects (snd (VariantA.create_project now body w))
              = (VariantA.projects w ++ [row])%list
           /\ VariantA.Project.id row = VariantA.projects_id_seq w + 1
           /\ VariantA.Project.name row = n
           /\ VariantA.Project.description row = Some d
           /\ VariantA.Project.status row = Some "new").
Proof.
  split.
  - intros _ M.
    rewrite create_A_refused; [split; reflexivity|].
    right. now apply missing_or_empty_falsy.
  - intros n d Bn Hn Bd Hd In Id Hfresh. exists (created_A w now n d).
    rewrite (@create_A_stored _ now body w n d); simpl.
    + repeat split; reflexivity.
    + apply present_truthy. now exists n.
    + apply present_truthy. now exists d.
    + now rewrite Bn.
    + now rewrite Bd.
    + exact In.
    + exact Id.
    + exact Hfresh.
Qed.

(* ================================================================== *)
(** * Rows found by their id *)
(* ================================================================== *)

Section ById.
Variable A : Type.
Variable key : A -> Z.

Lemma filter_absent z (l : list A) :
  (forall a, In a l -> key a <> z) -> filter (fun a => key a =? z) l = [].
Proof.
  induction l as [|a r IH]; intros Hno; simpl; [reflexivity|].
  destruct (Z.eqb_spec (key a) z) as [E|_].
  - exfalso. apply (Hno a); [now left | exact E].
  - apply IH. intros b Hb. apply Hno. now right.
Qed.

Lemma filter_present z (l : list A) a :
  In a l -> key a = z ->
  exists b rest, filter (fun a => key a =? z) l = b :: rest
                 /\ In b l /\ key b = z.
Proof.
  intros Hin Hk.
  assert (In a (filter (fun a => key a =? z) l)) as F
      by (apply filter_In; split; [exact Hin | now apply Z.eqb_eq]).
  destruct (filter (fun a => key a =? z) l) as [|b rest] eqn:E; [destruct F|].
  exists b, rest. split; [reflexivity|].
  assert (In b (filter (fun a => key a =? z) l)) as Hb by (rewrite E; now left).
  apply filter_In in Hb. destruct Hb as [Hb Hz].
  split; [exact Hb | now apply Z.eqb_eq].
Qed.

(** Under a primary key, [WHERE id = z] finds the one row or none. *)
Lemma filter_primary_key (l : list A) a :
  NoDup (map key l) -> In a l ->
  filter (fun b => key b =? key a) l = [a].
Proof.
  induction l as [|b r IH]; intros Hnd Hin; [destruct Hin|].
  simpl in Hnd. inversion Hnd as [|k ks Hk Hr]; subst. simpl.
  destruct Hin as [-> | Hin].
  - rewrite Z.eqb_refl. f_equal. apply filter_absent.
    intros c Hc E. apply Hk. rewrite <- E. now apply in_map.
  - destruct (Z.eqb_spec (key b) (key a)) as [E|_]; [|now apply IH].
    exfalso. apply Hk. rewrite E. now apply in_map.
Qed.
End ById.

(* ================================================================== *)
(** * Toggling a task *)
(* ================================================================== *)

Section Toggling.
Context `{Platform}.

Lemma toggle_row_id z t :
  VariantA.Task.id (VariantA.toggle_row z t) = VariantA.Task.id t.
Proof.
  unfold VariantA.toggle_row. now destruct (VariantA.Task.id t =? z).
Qed.

Lemma toggle_row_twice z t :
  VariantA.toggle_row z (VariantA.toggle_row z t) = t.
Proof.
  unfold VariantA.toggle_row.
  destruct (VariantA.Task.id t =? z) eqn:E; simpl; rewrite E; [|reflexivity].
  destruct t as [i ti [[|]|] p]; reflexivity.
Qed.

Lemma toggle_row_other z t :
  VariantA.Task.id t <> z -> VariantA.toggle_row z t = t.
Proof.
  intros Hne. unfold VariantA.toggle_row.
  now destruct (Z.eqb_spec (VariantA.Task.id t) z).
Qed.

Lemma toggle_rows_twice z l :
  map (VariantA.toggle_row z) (map (VariantA.toggle_row z) l) = l.
Proof.
  rewrite map_map. rewrite <- (map_id l) at 2.
  apply map_ext. intros t. apply toggle_row_twice.
Qed.

Lemma toggle_rows_absent z l :
  (forall t, In t l -> VariantA.Task.id t <> z) ->
  map (VariantA.toggle_row z) l = l.
Proof.
  intros Hno. rewrite <- (map_id l) at 2.
  apply map_ext_in. intros t Ht. apply toggle_row_other. now apply Hno.
Qed.

Lemma toggle_rows_ids z l :
  map VariantA.Task.id (map (VariantA.toggle_row z) l)
  = map VariantA.Task.id l.
Proof. rewrite map_map. apply map_ext. intros t. apply toggle_row_id. Qed.

(** What [PUT /tasks/:id] does once the store has read the id. *)
Lemma toggle_run id z w :
  int4in id = Some z ->
  VariantA.toggle id w
  = (Response 200
       (first_row_json VariantA.task_json
          (filter (fun t => VariantA.Task.id t =? z)
                  (map (VariantA.toggle_row z) (VariantA.tasks w)))),
     VariantA.with_tasks (map (VariantA.toggle_row z) (VariantA.tasks w))
                         (VariantA.tasks_id_seq w)
                         (VariantA.sent VariantA.ToggleTask w)).
Proof.
  intros Hid. unfold VariantA.toggle, try_catch, bind, VariantA.toggle_task.
  rewrite Hid. reflexivity.
Qed.

Lemma toggle_returns_row id z w t :
  int4in id = Some z -> NoDup (map VariantA.Task.id (VariantA.tasks w)) ->
  In t (VariantA.tasks w) -> VariantA.Task.id t = z ->
  payload (fst (VariantA.toggle id w))
  = BJson (VariantA.task_json (VariantA.toggle_row z t)).
Proof.
  intros Hid Hnd Hin Hz. rewrite (toggle_run id _ Hid). simpl.
  pose proof (@filter_primary_key _ VariantA.Task.id
                (map (VariantA.toggle_row z) (VariantA.tasks w))
                (VariantA.toggle_row z t)) as F.
  rewrite toggle_rows_ids, toggle_row_id, Hz in F.
  rewrite F; [reflexivity | exact Hnd | now apply in_map].
Qed.
End Toggling.

(** C2.  Toggling an existing task answers 200 and negates its [done]
    (SQL [NOT]: [true] and [false] change places); it does not set it.
    Toggling the same id again restores the row, and with it the whole
    tasks table.  Under the primary key the bodies are the updated row,
    then the original one. *)
Theorem toggle_is_an_involution `{Platform} w id z i t :
  int4in id = Some z ->
  nth_error (VariantA.tasks w) i = Some t -> VariantA.Task.id t = z ->
  let once := VariantA.toggle id w in
  let twice := VariantA.toggle id (snd once) in
  let flipped :=
    VariantA.Task.Row (VariantA.Task.id t) (VariantA.Task.title t)
                      (sql_not (VariantA.Task.done t))
                      (VariantA.Task.project_id t) in
  status (fst once) = 200 /\ status (fst twice) = 200
  /\ nth_error (VariantA.tasks (snd once)) i = Some flipped
  /\ (forall b, VariantA.Task.done t = Some b ->
                VariantA.Task.done flipped = Some (negb b))
  /\ nth_error (VariantA.tasks (snd twice)) i = Some t
  /\ VariantA.tasks (snd twice) = VariantA.tasks w
  /\ (NoDup (map VariantA.Task.id (VariantA.tasks w)) ->
      payload (fst once) = BJson (VariantA.task_json flipped)
      /\ payload (fst twice) = BJson (VariantA.task_json t)).
Proof.
  intros Hid Hi Hz once twice flipped.
  assert (VariantA.toggle_row z t = flipped) as Hflip
      by (unfold VariantA.toggle_row; subst z; now rewrite Z.eqb_refl).
  assert (VariantA.tasks (snd once)
          = map (VariantA.toggle_row z) (VariantA.tasks w)) as Honce
      by (subst once; now rewrite (toggle_run id _ Hid)).
  assert (VariantA.tasks (snd twice) = VariantA.tasks w) as Htwice
      by (subst twice; rewrite (toggle_run id _ Hid); simpl;
          rewrite Honce; apply toggle_rows_twice).
  split; [subst once; now rewrite (toggle_run id _ Hid)|].
  split; [subst twice; now rewrite (toggle_run id _ Hid)|].
  split; [rewrite Honce, nth_error_map, Hi; simpl; now rewrite Hflip|].
  split; [intros b Hb; subst flipped; simpl; now rewrite Hb|].
  split; [now rewrite Htwice|].
  split; [exact Htwice|].
  intros Hnd. split.
  - rewrite <- Hflip. subst once.
    apply toggle_returns_row; auto. eapply nth_error_In; eassumption.
  - subst twice.
    rewrite (@toggle_returns_row _ id z (snd once) flipped Hid).
    + now rewrite <- Hflip, toggle_row_twice.
    + now rewrite Honce, toggle_rows_ids.
    + rewrite Honce, <- Hflip. apply in_map. eapply nth_error_In; eassumption.
    + subst flipped. exact Hz.
Qed.

(** C3.  [PUT /tasks/:id] for an id no task has answers 200 with no body
    ([res.json] of [undefined]), not 404, and leaves every table as it
    was: the store differs by the logged statement only. *)
Theorem toggle_of_missing_task `{Platform} w id z :
  int4in id = Some z ->
  (forall t, In t (VariantA.tasks w) -> VariantA.Task.id t <> z) ->
  VariantA.toggle id w
  = (Response 200 BJsonUndefined, VariantA.sent VariantA.ToggleTask w)
  /\ status (fst (VariantA.toggle id w)) <> 404
  /\ VariantA.tasks (snd (VariantA.toggle id w)) = VariantA.tasks w.
Proof.
  intros Hid Hno. rewrite (toggle_run id _ Hid).
  rewrite toggle_rows_absent by exact Hno.
  rewrite (@filter_absent _ VariantA.Task.id z _ Hno). simpl.
  split; [|split; [discriminate | reflexivity]].
  destruct w; reflexivity.
Qed.

(* ================================================================== *)
(** * File attachments: listing and viewing *)
(* ================================================================== *)

Section Files.
Context `{Platform}.

Lemma list_files_run id z w :
  int4in id = Some z ->
  VariantA.list_files id w
  = (Response 200
       (BJson (JArr (map VariantA.file_listing_json
          (map (fun f => (VariantA.File.id f, VariantA.File.filename f))
               (filter (fun f => sql_eq (VariantA.File.project_id f) z)
                       (VariantA.files w)))))),
     VariantA.sent VariantA.SelectProjectFiles w).
Proof.
  intros Hid.
  unfold VariantA.list_files, try_catch, bind, VariantA.select_project_files.
  rewrite Hid. reflexivity.
Qed.

Lemma view_file_run id z w :
  int4in id = Some z ->
  VariantA.view_file id w
  = (match filter (fun f => VariantA.File.id f =? z) (VariantA.files w) with
     | [] => Response 404 (BText "File not found")
     | row :: _ =>
         Response 200
           (BSendFile (path_resolve dirname (VariantA.File.filepath row)))
     end,
     VariantA.sent VariantA.SelectFile w).
Proof.
  intros Hid.
  unfold VariantA.view_file, try_catch, bind, VariantA.select_file.
  rewrite Hid. simpl.
  now destruct (filter _ (VariantA.files w)).
Qed.

(** Under the primary key the row viewed is the row with that id. *)
Lemma view_file_found id w f :
  int4in id = Some (VariantA.File.id f) ->
  NoDup (map VariantA.File.id (VariantA.files w)) ->
  In f (VariantA.files w) ->
  fst (VariantA.select_file id w) = Some [f]
  /\ fst (VariantA.view_file id w)
     = Response 200
         (BSendFile (path_resolve dirname (VariantA.File.filepath f))).
Proof.
  intros Hid Hnd Hin. split.
  - unfold VariantA.select_file. rewrite Hid. simpl.
    now rewrite (@filter_primary_key _ VariantA.File.id _ _ Hnd Hin).
  - rewrite (view_file_run id _ Hid). simpl.
    now rewrite (@filter_primary_key _ VariantA.File.id _ _ Hnd Hin).
Qed.
End Files.

(** C7.  [GET /projects/:id/files] answers with one object a file of the
    project, each with exactly the properties [id] and [filename]:
    [filepath] is never among them.  [GET /files/:id/view] reads the full
    row of the file, [filepath] included, and sends the file that path
    resolves to. *)
Theorem file_listing_omits_filepath `{Platform} w id z :
  int4in id = Some z ->
  (exists items,
      fst (VariantA.list_files id w) = Response 200 (BJson (JArr items))
      /\ items
         = map (fun f => JObj [("id", id_json (VariantA.File.id f));
                               ("filename", JStr (VariantA.File.filename f))])
               (filter (fun f => sql_eq (VariantA.File.project_id f) z)
                       (VariantA.files w))
      /\ Forall (fun item => json_keys item = ["id"; "filename"]
                             /\ ~ In "filepath" (json_keys item)) items)
  /\ (forall f,
         In f (VariantA.files w) -> VariantA.File.id f = z ->
         NoDup (map VariantA.File.id (VariantA.files w)) ->
         fst (VariantA.select_file id w) = Some [f]
         /\ fst (VariantA.view_file id w)
            = Response 200
                (BSendFile (path_resolve dirname (VariantA.File.filepath f)))).
Proof.
  intros Hid. split.
  - eexists. split; [now rewrite (list_files_run id _ Hid)|].
    rewrite map_map. split; [reflexivity|].
    apply Forall_map, Forall_forall. intros f _. simpl.
    split; [reflexivity|]. intros [E | [E | []]]; discriminate.
  - intros f Hin Hz Hnd. subst z. now apply view_file_found.
Qed.

Section Sending.
Context `{Platform}.

(** The answer of the route: what [res.sendFile] makes of the path the
    handler hands it. *)
Lemma view_route_run id z w :
  int4in id = Some z ->
  fst (VariantA.route (VariantA.GetFileView id) w)
  = match filter (fun f => VariantA.File.id f =? z) (VariantA.files w) with
    | [] => Response 404 (BText "File not found")
    | row :: _ =>
        VariantA.send_file
          200 (path_resolve dirname (VariantA.File.filepath row)) w
    end.
Proof.
  intros Hid. simpl. rewrite (view_file_run id w Hid).
  now destruct (filter _ (VariantA.files w)).
Qed.

Lemma send_file_status st path w :
  status (VariantA.send_file st path w) = 404
  <-> st = 404 \/ VariantA.on_disk path w = None.
Proof.
  unfold VariantA.send_file.
  destruct (VariantA.on_disk path w); simpl; split; auto.
  intros [E | E]; [exact E | discriminate].
Qed.

(** A file the upload middleware wrote is on the disk for a server that
    runs in its own directory. *)
Lemma stored_file_on_disk p w :
  cwd = dirname -> In p (map fst (VariantA.uploads w)) ->
  VariantA.on_disk (path_resolve dirname p) w <> None.
Proof.
  intros Home Hin. unfold VariantA.on_disk. rewrite Home.
  induction (VariantA.uploads w) as [|[q c] rest IH]; [destruct Hin|].
  simpl in *.
  destruct (String.eqb_spec (path_resolve dirname q) (path_resolve dirname p));
    simpl; [discriminate|].
  apply IH. destruct Hin as [-> | Hin]; [contradiction | exact Hin].
Qed.
End Sending.

(** C8, as the server answers.  [GET /files/:id/view] answers 404 with the
    text "File not found" exactly when no row of the files table has that
    id.  When a row has it, the handler hands the row's stored path,
    resolved against its own directory, to [res.sendFile]: the answer is
    200 with the file when the file is on the disk, and again 404, this
    time Express's own, when it is not.  So the status 404 does not tell a
    missing row from a missing file; it does in a store filled through the
    handlers by a server running in its own directory, where every row's
    file is on the disk. *)
Theorem view_file_404_without_row_or_file `{Platform} w id z :
  int4in id = Some z ->
  let answer := fst (VariantA.route (VariantA.GetFileView id) w) in
  (answer = Response 404 (BText "File not found")
   <-> forall f, In f (VariantA.files w) -> VariantA.File.id f <> z)
  /\ (forall f,
         In f (VariantA.files w) -> VariantA.File.id f = z ->
         NoDup (map VariantA.File.id (VariantA.files w)) ->
         let path := path_resolve dirname (VariantA.File.filepath f) in
         fst (VariantA.view_file id w) = Response 200 (BSendFile path)
         /\ (forall content,
                VariantA.on_disk path w = Some content ->
                answer = Response 200 (BFile content))
         /\ (VariantA.on_disk path w = None ->
             answer = Response 404 BErrorPage))
  /\ (NoDup (map VariantA.File.id (VariantA.files w)) ->
      (status answer = 404
       <-> (forall f, In f (VariantA.files w) -> VariantA.File.id f <> z)
           \/ exists f,
                In f (VariantA.files w) /\ VariantA.File.id f = z
                /\ VariantA.on_disk
                     (path_resolve dirname (VariantA.File.filepath f)) w
                   = None))
  /\ (consistent w -> cwd = dirname ->
      (status answer = 404
       <-> forall f, In f (VariantA.files w) -> VariantA.File.id f <> z)).
Proof.
  intros Hid answer. subst answer. rewrite (@view_route_run _ id z w Hid).
  assert (forall f, In f (VariantA.files w) -> VariantA.File.id f = z ->
            NoDup (map VariantA.File.id (VariantA.files w)) ->
            filter (fun f => VariantA.File.id f =? z) (VariantA.files w) = [f])
    as Found.
  { intros f Hin Hz Hnd. subst z.
    exact (@filter_primary_key _ VariantA.File.id _ _ Hnd Hin). }
  assert ((forall f, In f (VariantA.files w) -> VariantA.File.id f <> z)
          \/ exists f, In f (VariantA.files w) /\ VariantA.File.id f = z)
    as Cases.
  { destruct (filter (fun f => VariantA.File.id f =? z) (VariantA.files w))
      as [|f rest] eqn:E.
    - left. intros f Hin Hz.
      destruct (@filter_present _ VariantA.File.id _ _ _ Hin Hz)
        as (b & rest & E' & _).
      rewrite E in E'. discriminate.
    - right. exists f.
      assert (In f (f :: rest)) as Hf by now left.
      rewrite <- E in Hf. apply filter_In in Hf. destruct Hf as [Hin Hz].
      split; [exact Hin | now apply Z.eqb_eq]. }
  split; [|split; [|split]].
  - split.
    + intros S f Hin Hz.
      destruct (@filter_present _ VariantA.File.id _ _ _ Hin Hz)
        as (b & rest & E & _).
      rewrite E in S. unfold VariantA.send_file in S.
      destruct (VariantA.on_disk _ w); discriminate.
    + intros Hno. now rewrite (@filter_absent _ VariantA.File.id z _ Hno).
  - intros f Hin Hz Hnd path.
    rewrite (Found f Hin Hz Hnd). unfold VariantA.send_file. fold path.
    split; [|split].
    + subst z. now apply view_file_found.
    + intros content ->. reflexivity.
    + intros ->. reflexivity.
  - intros Hnd. destruct Cases as [Hno | (f & Hin & Hz)].
    + rewrite (@filter_absent _ VariantA.File.id z _ Hno). simpl.
      split; [intros _; now left | reflexivity].
    + rewrite (Found f Hin Hz Hnd), send_file_status. split.
      * intros [E | Lost]; [discriminate|].
        right. exists f. now repeat split.
      * intros [Hno | (g & Hg & Hgz & Lost)].
        -- exfalso. exact (Hno f Hin Hz).
        -- right. pose proof (Found g Hg Hgz Hnd) as Eg.
           rewrite (Found f Hin Hz Hnd) in Eg. injection Eg as ->.
           exact Lost.
  - intros C Home. destruct C as [_ _ [Hnd _] _ _ _ Stored].
    destruct Cases as [Hno | (f & Hin & Hz)].
    + rewrite (@filter_absent _ VariantA.File.id z _ Hno). simpl.
      split; [intros _; exact Hno | reflexivity].
    + rewrite (Found f Hin Hz Hnd), send_file_status. split.
      * intros [E | Lost]; [discriminate|]. exfalso.
        rewrite Forall_forall in Stored.
        exact (stored_file_on_disk _ w Home (Stored f Hin) Lost).
      * intros Hno. exfalso. exact (Hno f Hin Hz).
Qed.

(* ================================================================== *)
(** * Uploads: the stored path *)
(* ================================================================== *)



Lemma string_of_N_inj (m n : N) : JS.string_of_N m = JS.string_of_N n -> m = n.
Proof.
  unfold JS.string_of_N. intros E.
  apply DecimalN.Unsigned.to_uint_inj.
  apply (f_equal NilEmpty.uint_of_string) in E.
  rewrite !NilEmpty.usu in E. now injection E.
Qed.


Section Uploading.
Context `{Platform}.

End Uploading.


(* ================================================================== *)
(** * Completion: counts through [parseInt] *)
(* ================================================================== *)

Lemma digits_value_decimal (u : Decimal.uint) (a : nat) :
  JS.digits_value 10 (NilEmpty.string_of_uint u) (Some (Z.of_nat a))
  = Some (Z.of_nat (Nat.of_uint_acc u a)).
Proof.
  revert a. induction u as [|u IH|u IH|u IH|u IH|u IH|u IH|u IH|u IH|u IH|u IH];
    intros a; [reflexivity|..];
    cbn [NilEmpty.string_of_uint JS.digits_value Nat.of_uint_acc];
    change (JS.digit_of 10 _) with (Some 0) || change (JS.digit_of 10 _) with (Some 1)
    || change (JS.digit_of 10 _) with (Some 2) || change (JS.digit_of 10 _) with (Some 3)
    || change (JS.digit_of 10 _) with (Some 4) || change (JS.digit_of 10 _) with (Some 5)
    || change (JS.digit_of 10 _) with (Some 6) || change (JS.digit_of 10 _) with (Some 7)
    || change (JS.digit_of 10 _) with (Some 8) || change (JS.digit_of 10 _) with (Some 9);
    cbv iota beta; rewrite <- IH; do 2 f_equal;
    rewrite Nat.tail_mul_spec; lia.
Qed.

Lemma to_uint_nonnil (n : nat) : Nat.to_uint n <> Decimal.Nil.
Proof.
  destruct n as [|n]; [discriminate|]. intros E.
  pose proof (DecimalNat.Unsigned.of_to (S n)) as R.
  rewrite E in R. discriminate.
Qed.

(** Read back by [parseInt], the text of a count is the count. *)
Lemma parseInt_count_text (n : nat) :
  JS.parseInt (count_text n) = JS.num (Z.of_nat n).
Proof.
  unfold count_text.
  pose proof (DecimalNat.Unsigned.of_to n) as Back.
  pose proof (to_uint_nonnil n) as Nonnil.
  destruct (Nat.to_uint n) as [|u|u|u|u|u|u|u|u|u|u] eqn:E;
    [contradiction|..].
  all: unfold JS.parseInt;
    cbn [NilEmpty.string_of_uint JS.skip_white];
    change (JS.is_white _) with false; cbv iota.
  all: match goal with
       | |- context [JS.parse_magnitude ?s] =>
           replace (JS.parse_magnitude s) with (JS.digits_value 10 s None)
             by (destruct u; reflexivity)
       end.
  all: cbn [JS.digits_value];
    change (JS.digit_of 10 _) with (Some 0) || change (JS.digit_of 10 _) with (Some 1)
    || change (JS.digit_of 10 _) with (Some 2) || change (JS.digit_of 10 _) with (Some 3)
    || change (JS.digit_of 10 _) with (Some 4) || change (JS.digit_of 10 _) with (Some 5)
    || change (JS.digit_of 10 _) with (Some 6) || change (JS.digit_of 10 _) with (Some 7)
    || change (JS.digit_of 10 _) with (Some 8) || change (JS.digit_of 10 _) with (Some 9);
    cbv iota beta.
  all: match goal with
       | |- context [JS.digits_value 10 _ (Some ?z)] =>
           change z with (Z.of_nat (Z.to_nat z))
       end;
    rewrite digits_value_decimal;
    unfold Nat.of_uint in Back; cbn [Nat.of_uint_acc] in Back;
    change (Nat.tail_mul 10 0) with 0%nat in Back;
    match goal with
    | |- context [Z.to_nat ?e] =>
        let v := eval vm_compute in (Z.to_nat e) in
        change (Z.to_nat e) with v
    end;
    rewrite Back; destruct n; reflexivity.
Qed.

Section Completion.
Context `{Platform}.

(** What [GET /projects/:id/completion] answers once the store has read
    the id: the percentage of the two counts. *)
Lemma completion_run id z w :
  int4in id = Some z ->
  VariantA.completion id w
  = (Response 200
       (BJson (JObj [("percentage",
          JNum (VariantA.percentage
                  (JS.num (Z.of_nat (List.length (VariantA.project_done_tasks z w))))
                  (JS.num (Z.of_nat (List.length (VariantA.project_tasks z w))))))])),
     VariantA.sent VariantA.CountDoneTasks
                   (VariantA.sent VariantA.CountTasks w)).
Proof.
  intros Hid.
  unfold VariantA.completion, try_catch, bind, VariantA.count_tasks,
    VariantA.count_done_tasks.
  rewrite Hid. cbn beta iota zeta.
  rewrite !parseInt_count_text. reflexivity.
Qed.

Lemma completion_never_404 id w :
  status (fst (VariantA.completion id w)) <> 404.
Proof.
  destruct (int4in id) as [z|] eqn:Hid.
  - rewrite (completion_run id w Hid). discriminate.
  - unfold VariantA.completion, try_catch, bind, VariantA.count_tasks.
    rewrite Hid. discriminate.
Qed.

Lemma no_project_tasks z w :
  (forall t, In t (VariantA.tasks w) -> VariantA.Task.project_id t <> Some z) ->
  VariantA.project_tasks z w = [] /\ VariantA.project_done_tasks z w = [].
Proof.
  intros Hno.
  assert (forall t, In t (VariantA.tasks w) ->
                    sql_eq (VariantA.Task.project_id t) z = false) as F.
  { intros t Ht. specialize (Hno t Ht). unfold sql_eq.
    destruct (VariantA.Task.project_id t) as [p|]; [|reflexivity].
    apply Z.eqb_neq. congruence. }
  unfold VariantA.project_tasks, VariantA.project_done_tasks.
  induction (VariantA.tasks w) as [|t r IH]; [split; reflexivity|].
  simpl. rewrite (F t (or_introl eq_refl)). simpl.
  apply IH; intros; [apply Hno | apply F]; now right.
Qed.
End Completion.

Lemma forallb_seq (f : nat -> bool) (n i : nat) :
  forallb f (seq 0 n) = true -> (i < n)%nat -> f i = true.
Proof.
  intros F Hi. rewrite forallb_forall in F. apply F. apply in_seq. lia.
Qed.

Lemma same_number_eq x y : same_number x y = true -> x = y.
Proof.
  destruct x as [s|s| |s m e], y as [s'|s'| |s' m' e']; simpl;
    try discriminate; try reflexivity; intros E.
  - now apply Bool.eqb_prop in E; subst.
  - now apply Bool.eqb_prop in E; subst.
  - apply andb_prop in E. destruct E as [E He].
    apply andb_prop in E. destruct E as [Hs Hm].
    apply Bool.eqb_prop in Hs. apply Pos.eqb_eq in Hm. apply Z.eqb_eq in He.
    now subst.
Qed.

Lemma agrees_below_40 : forallb agrees_throughout (seq 0 40) = true.
Proof. vm_compute. reflexivity. Qed.

(** The specification's percentage and the handler's are the same for every
    project of fewer than forty tasks. *)
Lemma percentage_as_specified_below_40 (finished total : nat) :
  (finished <= total)%nat -> (total < 40)%nat ->
  VariantA.percentage (JS.num (Z.of_nat finished)) (JS.num (Z.of_nat total))
  = JS.num (spec_percentage finished total).
Proof.
  intros Hd Ht. apply same_number_eq.
  pose proof (@forallb_seq agrees_throughout 40 total agrees_below_40 Ht) as Row.
  apply (@forallb_seq (agrees total) (S total) finished Row). lia.
Qed.

(** C10.  [GET /projects/:id/completion] for an id under which the tasks
    table has no row answers 200 with [{percentage: 0}], whether a project
    of that id exists or not: the handler never looks at the projects
    table.  The endpoint never answers 404. *)
Theorem completion_without_tasks `{Platform} w id :
  (forall z,
      int4in id = Some z ->
      (forall t, In t (VariantA.tasks w) ->
                 VariantA.Task.project_id t <> Some z) ->
      VariantA.completion id w
      = (Response 200 (BJson (JObj [("percentage", JNum (JS.num 0))])),
         VariantA.sent VariantA.CountDoneTasks
                       (VariantA.sent VariantA.CountTasks w)))
  /\ status (fst (VariantA.completion id w)) <> 404.
Proof.
  split; [|apply completion_never_404].
  intros z Hid Hno. rewrite (completion_run id w Hid).
  destruct (@no_project_tasks z w Hno) as [-> ->]. reflexivity.
Qed.

(* ================================================================== *)
(** * The store stays consistent *)
(* ================================================================== *)

Lemma keyed_advance ids seq seq' :
  keyed ids seq -> seq <= seq' -> keyed ids seq'.
Proof.
  intros [Hnd Hids] Hle. split; [exact Hnd|].
  eapply Forall_impl; [|exact Hids]. simpl. intros; lia.
Qed.

Lemma keyed_insert ids seq : keyed ids seq -> keyed (ids ++ [seq + 1]) (seq + 1).
Proof.
  intros [Hnd Hids]. split.
  - apply NoDup_app; [exact Hnd | repeat constructor; intros [] |].
    intros i Hi [<- | []].
    rewrite Forall_forall in Hids. specialize (Hids _ Hi). lia.
  - apply Forall_app. split.
    + eapply Forall_impl; [|exact Hids]. simpl. intros; lia.
    + repeat constructor. lia.
Qed.

Lemma written_file_listed path content d p :
  In p (map fst d) -> In p (map fst (VariantA.write_file path content d)).
Proof.
  intros Hp. unfold VariantA.write_file. simpl.
  destruct (String.eqb_spec p path) as [-> | Hne]; [now left | right].
  apply in_map_iff in Hp. destruct Hp as ([q c] & <- & Hin).
  apply in_map_iff. exists (q, c). split; [reflexivity|].
  apply filter_In. split; [exact Hin|]. simpl in *.
  now apply negb_true_iff, String.eqb_neq.
Qed.

Lemma project_exists_grows z w (l : list VariantA.Project.t) seq :
  VariantA.project_exists z w = true ->
  VariantA.project_exists z
    (VariantA.with_projects (VariantA.projects w ++ l) seq w) = true.
Proof.
  unfold VariantA.project_exists. simpl. intros E.
  rewrite existsb_app, E. reflexivity.
Qed.

Section Invariant.
Context `{Platform}.

Lemma consistent_sent q w : consistent w -> consistent (VariantA.sent q w).
Proof. intros []. constructor; assumption. Qed.

Lemma consistent_read (w' w : VariantA.world) :
  VariantA.projects w' = VariantA.projects w ->
  VariantA.tasks w' = VariantA.tasks w ->
  VariantA.files w' = VariantA.files w ->
  VariantA.uploads w' = VariantA.uploads w ->
  VariantA.projects_id_seq w <= VariantA.projects_id_seq w' ->
  VariantA.tasks_id_seq w <= VariantA.tasks_id_seq w' ->
  VariantA.files_id_seq w <= VariantA.files_id_seq w' ->
  consistent w -> consistent w'.
Proof.
  intros Ep Et Ef Eu Sp St Sf [].
  constructor; unfold VariantA.project_exists in *;
    rewrite ?Ep, ?Et, ?Ef, ?Eu; try assumption;
    eapply keyed_advance; eassumption.
Qed.

Lemma upload_file_consistent now id part w :
  consistent w -> consistent (snd (VariantA.upload_file now id part w)).
Proof.
  intros C. unfold VariantA.upload_file, VariantA.upload_single.
  destruct part as [[original content]|]; [|exact C].
  set (p := VariantA.storage_path now original).
  set (w1 := VariantA.with_uploads _ w).
  assert (consistent w1) as C1.
  { subst w1. destruct C as [Kp Kt Kf Dt Ot Of Sf].
    constructor; try assumption.
    eapply Forall_impl; [|exact Sf].
    intros f Hf. exact (@written_file_listed p content _ _ Hf). }
  unfold try_catch, bind, VariantA.insert_file. simpl.
  destruct (int4in id) as [z|]; [|now apply consistent_sent].
  destruct (int4_max <=? VariantA.files_id_seq w); simpl;
    [now apply consistent_sent|].
  destruct (existsb _ (VariantA.files w) || negb (VariantA.project_exists z _))
    eqn:Refused; simpl.
  - eapply consistent_read; [..|exact C1]; simpl; try reflexivity; lia.
  - apply orb_false_elim in Refused. destruct Refused as [_ Hex].
    apply negb_false_iff in Hex.
    destruct C1. constructor; simpl; try assumption.
    + rewrite map_app. now apply keyed_insert.
    + apply Forall_app. split; [assumption|].
      constructor; [|constructor].
      exists z. split; [reflexivity | exact Hex].
    + apply Forall_app. split; [assumption|].
      constructor; [|constructor]. simpl. now left.
Qed.

Lemma create_project_consistent now body w :
  consistent w -> consistent (snd (VariantA.create_project now body w)).
Proof.
  intros C. unfold VariantA.create_project.
  destruct (negb (truthy (body "name")) || negb (truthy (body "description")));
    [exact C|].
  unfold try_catch, bind, VariantA.insert_project. simpl.
  destruct (refused_text _ || refused_text _); simpl;
    [now apply consistent_sent|].
  destruct (int4_max <=? VariantA.projects_id_seq w); simpl;
    [now apply consistent_sent|].
  destruct (prepare_value (body "name")) as [n|]; simpl.
  2: { eapply consistent_read; [..|exact C]; simpl; try reflexivity; lia. }
  destruct (VariantA.project_exists _ _) eqn:Taken; simpl.
  - eapply consistent_read; [..|exact C]; simpl; try reflexivity; lia.
  - destruct C as [Kp Kt Kf Dt Ot Of Sf]. constructor; simpl; try assumption.
    + rewrite map_app. now apply keyed_insert.
    + eapply Forall_impl; [|exact Ot].
      intros t (z & Hz & Hex). exists z. split; [exact Hz|].
      unfold VariantA.project_exists in *. simpl.
      now rewrite existsb_app, Hex.
    + eapply Forall_impl; [|exact Of].
      intros f (z & Hz & Hex). exists z. split; [exact Hz|].
      unfold VariantA.project_exists in *. simpl.
      now rewrite existsb_app, Hex.
Qed.

Lemma add_task_consistent id body w :
  consistent w -> consistent (snd (VariantA.add_task id body w)).
Proof.
  intros C. unfold VariantA.add_task, try_catch, bind, VariantA.insert_task.
  destruct (int4in id) as [z|]; [|now apply consistent_sent].
  destruct (refused_text _); simpl; [now apply consistent_sent|].
  destruct (int4_max <=? VariantA.tasks_id_seq _); simpl;
    [now apply consistent_sent|].
  destruct (prepare_value (body "title")) as [t|]; simpl.
  2: { eapply consistent_read; [..|exact C]; simpl; try reflexivity; lia. }
  destruct (existsb _ (VariantA.tasks w) || negb (VariantA.project_exists z _))
    eqn:Refused; simpl.
  - eapply consistent_read; [..|exact C]; simpl; try reflexivity; lia.
  - apply orb_false_elim in Refused. destruct Refused as [_ Hex].
    apply negb_false_iff in Hex.
    destruct C. constructor; simpl; try assumption.
    + rewrite map_app. now apply keyed_insert.
    + apply Forall_app. split; [assumption|].
      constructor; [|constructor]. discriminate.
    + apply Forall_app. split; [assumption|].
      constructor; [|constructor].
      exists z. split; [reflexivity | exact Hex].
Qed.

Lemma toggle_consistent id w :
  consistent w -> consistent (snd (VariantA.toggle id w)).
Proof.
  intros C. destruct (int4in id) as [z|] eqn:Hid.
  - rewrite (toggle_run id w Hid). simpl.
    destruct C as [Kp Kt Kf Dt Ot Of Sf].
    constructor; simpl; try assumption.
    + now rewrite toggle_rows_ids.
    + apply Forall_map. eapply Forall_impl; [|exact Dt].
      intros t Ht. unfold VariantA.toggle_row.
      destruct (VariantA.Task.id t =? z); [|exact Ht]. simpl in *.
      destruct (VariantA.Task.done t); [discriminate | exact Ht].
    + apply Forall_map. eapply Forall_impl; [|exact Ot].
      intros t Ht. unfold VariantA.toggle_row.
      now destruct (VariantA.Task.id t =? z).
  - unfold VariantA.toggle, try_catch, bind, VariantA.toggle_task.
    rewrite Hid. now apply consistent_sent.
Qed.

(** No request takes the store out of consistency. *)
Theorem route_consistent r w :
  consistent w -> consistent (snd (VariantA.route r w)).
Proof.
  intros C. destruct r; simpl.
  - exact C.
  - now apply upload_file_consistent.
  - unfold VariantA.list_files, try_catch, bind, VariantA.select_project_files.
    destruct (int4in id); now apply consistent_sent.
  - unfold VariantA.view_file, try_catch, bind, VariantA.select_file.
    destruct (int4in id); [|now apply consistent_sent]. simpl.
    destruct (filter _ _); now apply consistent_sent.
  - destruct (int4in id) as [z|] eqn:Hid.
    + rewrite (completion_run id w Hid). now do 2 apply consistent_sent.
    + unfold VariantA.completion, try_catch, bind, VariantA.count_tasks.
      rewrite Hid. now apply consistent_sent.
  - now apply consistent_sent.
  - now apply create_project_consistent.
  - unfold VariantA.list_tasks, try_catch, bind, VariantA.select_tasks.
    destruct (int4in id); now apply consistent_sent.
  - now apply add_task_consistent.
  - now apply toggle_consistent.
Qed.

Lemma empty_consistent : consistent VariantA.empty.
Proof. constructor; simpl; repeat constructor. Qed.

(** Every store the server builds from the empty one is consistent. *)
Theorem served_consistent rs w :
  consistent w -> consistent (VariantA.serve rs w).
Proof.
  revert w. induction rs as [|r rest IH]; intros w C; simpl; [exact C|].
  apply IH. now apply route_consistent.
Qed.

Theorem route_consistent_B r w :
  consistent_B w -> consistent_B (snd (VariantB.route r w)).
Proof.
  unfold consistent_B. intros C.
  destruct r as [| |now fields]; simpl; try exact C.
  unfold VariantB.create_project.
  destruct (negb (truthy (fields "name")) || negb (truthy (fields "status")));
    [exact C|].
  unfold try_catch, bind, VariantB.insert_project. simpl.
  destruct (refused_text _ || refused_text _); simpl; [exact C|].
  destruct (int4_max <=? VariantB.projects_id_seq w); simpl; [exact C|].
  destruct (prepare_value (fields "name")) as [n|],
           (prepare_value (fields "status")) as [s|]; simpl;
    try (eapply keyed_advance; [exact C | lia]).
  destruct (VariantB.project_exists _ _); simpl.
  - eapply keyed_advance; [exact C | lia].
  - rewrite map_app. now apply keyed_insert.
Qed.
End Invariant.

(* ================================================================== *)
(** * Created later, listed first *)
(* ================================================================== *)

(** Two projects created one after the other in variant A, the second at
    a later store time: [GET /projects] then has the object of the second
    before the object of the first. *)
Theorem project_created_later_is_listed_first `{Platform}
  w now1 now2 body1 body2 n1 d1 n2 d2 :
  body1 "name" = Some (JStr n1) -> n1 <> "" ->
  body1 "description" = Some (JStr d1) -> d1 <> "" ->
  body2 "name" = Some (JStr n2) -> n2 <> "" ->
  body2 "description" = Some (JStr d2) -> d2 <> "" ->
  textin n1 = true -> textin d1 = true ->
  textin n2 = true -> textin d2 = true ->
  issues_fresh_ids (map VariantA.Project.id (VariantA.projects w))
                   (VariantA.projects_id_seq w) ->
  VariantA.projects_id_seq w + 1 < int4_max ->
  now1 < now2 ->
  let w1 := snd (VariantA.create_project now1 body1 w) in
  let w2 := snd (VariantA.create_project now2 body2 w1) in
  exists items i j,
    fst (VariantA.list_projects w2) = Response 200 (BJson (JArr items))
    /\ nth_error items i
       = Some (JObj [("id", id_json (VariantA.projects_id_seq w + 2));
                     ("name", JStr n2);
                     ("description", JStr d2);
                     ("status", JStr "new");
                     ("created_at", JStr (timestamp_text now2))])
    /\ nth_error items j
       = Some (JObj [("id", id_json (VariantA.projects_id_seq w + 1));
                     ("name", JStr n1);
                     ("description", JStr d1);
                     ("status", JStr "new");
                     ("created_at", JStr (timestamp_text now1))])
    /\ (i < j)%nat.
Proof.
  intros Bn1 Hn1 Bd1 Hd1 Bn2 Hn2 Bd2 Hd2 Tn1 Td1 Tn2 Td2 Hfresh Hroom Hlater
         w1 w2.
  assert (w1 = VariantA.with_projects
                 (VariantA.projects w ++ [created_A w now1 n1 d1])
                 (VariantA.projects_id_seq w + 1)
                 (VariantA.sent VariantA.InsertProject w)) as E1.
  { subst w1. rewrite (@create_A_stored _ now1 body1 w n1 d1); auto.
    - apply present_truthy. now exists n1.
    - apply present_truthy. now exists d1.
    - now rewrite Bn1.
    - now rewrite Bd1. }
  assert (issues_fresh_ids (map VariantA.Project.id (VariantA.projects w1))
                           (VariantA.projects_id_seq w1)) as Hfresh1.
  { rewrite E1. simpl. split; [exact Hroom|].
    rewrite map_app. apply Forall_app. split.
    - destruct Hfresh as [_ Hids].
      eapply Forall_impl; [|exact Hids]. simpl. intros; lia.
    - constructor; [simpl; lia | constructor]. }
  assert (VariantA.projects w2
          = (VariantA.projects w1 ++ [created_A w1 now2 n2 d2])%list) as E2.
  { subst w2. rewrite (@create_A_stored _ now2 body2 w1 n2 d2); auto.
    - apply present_truthy. now exists n2.
    - apply present_truthy. now exists d2.
    - now rewrite Bn2.
    - now rewrite Bd2. }
  set (rows := order_by_desc VariantA.Project.created_at (VariantA.projects w2)).
  assert (In (created_A w1 now2 n2 d2) rows) as In2.
  { apply (Permutation_in _ (Permutation_sym (order_by_desc_perm _ _))).
    rewrite E2. apply in_or_app. right. now left. }
  assert (In (created_A w now1 n1 d1) rows) as In1.
  { apply (Permutation_in _ (Permutation_sym (order_by_desc_perm _ _))).
    rewrite E2, E1. simpl. apply in_or_app. left.
    apply in_or_app. right. now left. }
  apply In_nth_error in In2, In1.
  destruct In2 as [i Hi]. destruct In1 as [j Hj].
  exists (map VariantA.project_json rows), i, j.
  split; [apply listing_A|].
  rewrite !nth_error_map, Hi, Hj. simpl.
  split; [|split].
  - unfold VariantA.project_json, created_A. simpl.
    rewrite E1. simpl.
    replace (VariantA.projects_id_seq w + 1 + 1)
      with (VariantA.projects_id_seq w + 2) by lia.
    reflexivity.
  - reflexivity.
  - eapply (@order_by_desc_later_first _ VariantA.Project.created_at
              (VariantA.projects w2) i j); try eassumption; reflexivity.
Qed.

(* ================================================================== *)
(** * Binary64: how far the percentage is from the exact one *)
(* ================================================================== *)

Unset Implicit Arguments.

Lemma digits2_bounds (m : positive) :
  2 ^ (Zpos (digits2_pos m) - 1) <= Zpos m < 2 ^ Zpos (digits2_pos m).
Proof.
  induction m as [m IH|m IH|]; simpl digits2_pos.
  - rewrite Pos2Z.inj_succ.
    replace (Z.succ (Zpos (digits2_pos m)) - 1) with (Z.succ (Zpos (digits2_pos m) - 1)) by lia.
    rewrite !Z.pow_succ_r by lia. lia.
  - rewrite Pos2Z.inj_succ.
    replace (Z.succ (Zpos (digits2_pos m)) - 1) with (Z.succ (Zpos (digits2_pos m) - 1)) by lia.
    rewrite !Z.pow_succ_r by lia. lia.
  - simpl. lia.
Qed.

Lemma digits2_unique (m : positive) (k : Z) :
  2 ^ (k - 1) <= Zpos m < 2 ^ k -> Zpos (digits2_pos m) = k.
Proof.
  intros [Lo Hi]. pose proof (digits2_bounds m) as [Lo' Hi'].
  assert (0 < k) as Hk.
  { destruct (Z.ltb_spec 0 k); [assumption|].
    destruct (Z.eq_dec k 0) as [->|]; [simpl in Hi; lia|].
    rewrite Z.pow_neg_r in Hi by lia. lia. }
  destruct (Z.lt_trichotomy (Zpos (digits2_pos m)) k) as [L|[E|G]]; [|exact E|].
  - assert (2 ^ Zpos (digits2_pos m) <= 2 ^ (k - 1)) by (apply Z.pow_le_mono_r; lia).
    lia.
  - assert (2 ^ k <= 2 ^ (Zpos (digits2_pos m) - 1)) by (apply Z.pow_le_mono_r; lia).
    lia.
Qed.

Lemma Zdigits2_normal (mx : Z) :
  2 ^ 52 <= mx -> 53 <= Zdigits2 mx.
Proof.
  intros Hm. destruct mx as [|p|p]; try (simpl in *; lia).
  unfold Zdigits2. pose proof (digits2_bounds p) as [_ Hi].
  destruct (Z.le_gt_cases 53 (Zpos (digits2_pos p))) as [L|G]; [exact L|].
  assert (2 ^ Zpos (digits2_pos p) <= 2 ^ 52) by (apply Z.pow_le_mono_r; lia).
  lia.
Qed.

Lemma iter_pos_steps {A} (f : A -> A) (Inv : Z -> A -> Prop) :
  (forall k x, 0 <= k -> Inv k x -> Inv (k + 1) (f x)) ->
  forall p k x, 0 <= k -> Inv k x -> Inv (k + Zpos p) (iter_pos f p x).
Proof.
  intros Step. induction p as [p IH|p IH|]; intros k x Hk Hx; simpl.
  - replace (k + Zpos p~1) with (k + 1 + Zpos p + Zpos p) by lia.
    apply IH; [lia|]. apply IH; [lia|]. now apply Step.
  - replace (k + Zpos p~0) with (k + Zpos p + Zpos p) by lia.
    apply IH; [lia|]. now apply IH.
  - now apply Step.
Qed.

Lemma shr_1_nonneg m r s :
  0 <= m -> shr_1 (Build_shr_record m r s) = Build_shr_record (m / 2) (Z.odd m) (r || s).
Proof.
  intros Hm. rewrite <- Z.div2_div.
  destruct m as [|[p|p|]|]; try reflexivity. lia.
Qed.

Lemma loc_of_record_of_loc m l :
  loc_of_shr_record (shr_record_of_loc m l) = l.
Proof. destruct l as [|[]]; reflexivity. Qed.

Lemma shr_m_record_of_loc m l : shr_m (shr_record_of_loc m l) = m.
Proof. destruct l as [|[]]; reflexivity. Qed.

Lemma shifted_to_step mx a b k rec :
  0 <= mx -> 0 <= a < b -> 0 <= k ->
  shifted_to mx a b k rec -> shifted_to mx a b (k + 1) (shr_1 rec).
Proof.
  intros Hm Hab Hk [Hrec Hloc]. destruct rec as [m r s]. simpl in Hrec.
  assert (0 < 2 ^ k) as Hp by (apply Z.pow_pos_nonneg; lia).
  assert (0 <= m) as Hm' by (subst m; apply Z.div_pos; lia).
  unfold shifted_to. rewrite shr_1_nonneg by exact Hm'.
  rewrite Z.pow_add_r, Z.pow_1_r by lia.
  split.
  - simpl. subst m. rewrite Z.div_div by lia. reflexivity.
  - rewrite Z.rem_mul_r by lia. rewrite <- Hrec.
    pose proof (Z.mod_pos_bound mx (2 ^ k) Hp) as Hmod.
    set (A := mx mod 2 ^ k * b + a) in *.
    assert (0 <= A < 2 ^ k * b) as HA by (subst A; nia).
    replace ((mx mod 2 ^ k + 2 ^ k * (m mod 2)) * b + a)
      with (A + (m mod 2) * (2 ^ k * b)) by (subst A; ring).
    rewrite (Zmod_odd m).
    destruct (Z.odd m), r, s;
      cbv beta iota delta [located loc_of_shr_record orb] in Hloc |- *; lia.
Qed.

Lemma shifted_to_start mx a b l :
  located l a b -> shifted_to mx a b 0 (shr_record_of_loc mx l).
Proof.
  intros Hl. split.
  - now rewrite shr_m_record_of_loc, Z.div_1_r.
  - rewrite loc_of_record_of_loc, Z.mod_1_r, Z.pow_0_r.
    replace (0 * b + a) with a by ring. replace (1 * b) with b by ring.
    exact Hl.
Qed.

Lemma shifted_to_iter mx a b l p :
  0 <= mx -> 0 <= a < b -> located l a b ->
  shifted_to mx a b (Zpos p) (iter_pos shr_1 p (shr_record_of_loc mx l)).
Proof.
  intros Hm Hab Hl.
  apply (iter_pos_steps shr_1 (shifted_to mx a b)
           (fun k x Hk => shifted_to_step mx a b k x Hm Hab Hk) p 0); [lia|].
  now apply shifted_to_start.
Qed.

Lemma round_nearest_even_half m l A B :
  0 <= A < B -> located l A B ->
  m <= round_nearest_even m l <= m + 1
  /\ 2 * Z.abs (round_nearest_even m l * B - (m * B + A)) <= B.
Proof.
  intros HA Hl.
  destruct l as [|[]];
    cbv beta iota delta [located round_nearest_even] in Hl |- *; try lia.
  destruct (Z.even m); lia.
Qed.

(** The first step of rounding: the mantissa is cut to 53 bits, and the
    location says where the value lies within the last place kept. *)
Lemma shr_fexp_normal (mx ex : Z) (lx : location) (a b : Z) :
  2 ^ 52 <= mx -> -1074 <= ex + (Zdigits2 mx - 53) ->
  0 <= a < b -> located lx a b ->
  exists rec,
    shr_fexp 53 1024 mx ex lx = (rec, ex + (Zdigits2 mx - 53))
    /\ shifted_to mx a b (Zdigits2 mx - 53) rec.
Proof.
  intros Hm He Hab Hl. pose proof (Zdigits2_normal mx Hm) as Hd.
  unfold shr_fexp, fexp, emin.
  replace (Z.max (Zdigits2 mx + ex - 53) (3 - 1024 - 53) - ex)
    with (Zdigits2 mx - 53) by lia.
  destruct (Zdigits2 mx - 53) as [|q|q] eqn:En; [| |lia].
  - exists (shr_record_of_loc mx lx). simpl. rewrite Z.add_0_r.
    split; [reflexivity | now apply shifted_to_start].
  - unfold shr. eexists. split; [reflexivity|].
    apply shifted_to_iter; [lia | exact Hab | exact Hl].
Qed.

(** The second step: a mantissa that rounding carried to 2^53 is halved. *)
Lemma renormalise (sx : bool) (R e1 : Z) :
  2 ^ 52 <= R <= 2 ^ 53 -> -1074 <= e1 -> e1 + 1 <= 971 ->
  exists m e,
    (let '(mrs, e2) := shr_fexp 53 1024 R e1 loc_Exact in
     match shr_m mrs with
     | Z0 => S754_zero sx
     | Zpos m => if e2 <=? 1024 - 53 then S754_finite sx m e2
                 else S754_infinity sx
     | Zneg _ => S754_nan
     end) = S754_finite sx m e
    /\ 2 ^ 52 <= Zpos m < 2 ^ 53
    /\ ((e = e1 /\ Zpos m = R) \/ (e = e1 + 1 /\ 2 * Zpos m = R)).
Proof.
  intros [Lo Hi] He Hu.
  assert (0 <= 0 < 1) as H01 by lia.
  destruct (Z.eq_dec R (2 ^ 53)) as [-> | Hne].
  - exists (4503599627370496)%positive, (e1 + 1).
    destruct (shr_fexp_normal (2 ^ 53) e1 loc_Exact 0 1)
      as (rec & -> & Hrec & _); [lia | simpl; lia | lia | reflexivity |].
    change (Zdigits2 (2 ^ 53) - 53) with 1 in *.
    change (2 ^ 53 / 2 ^ 1) with 4503599627370496 in Hrec. rewrite Hrec.
    destruct (Z.leb_spec (e1 + 1) (1024 - 53)); [|lia].
    split; [reflexivity|]. split; [lia|]. right. split; reflexivity.
  - destruct R as [|r|r]; try lia.
    assert (Zdigits2 (Zpos r) = 53) as D
        by (apply digits2_unique; simpl; lia).
    destruct (shr_fexp_normal (Zpos r) e1 loc_Exact 0 1)
      as (rec & -> & Hrec & _); [lia | rewrite D; lia | lia | reflexivity |].
    rewrite D in *. change (53 - 53) with 0 in *.
    rewrite Z.div_1_r in Hrec. rewrite Hrec, Z.add_0_r.
    exists r, e1.
    destruct (Z.leb_spec e1 (1024 - 53)); [|lia].
    split; [reflexivity|]. split; [lia|]. left. split; reflexivity.
Qed.

(** Rounding a positive value [(mx + a/b) * 2^ex] of at least 53 bits, in
    the normal range: the result is [R] units of the last place kept, or
    [R/2] of the next when [R] is 2^53, and [R] is within half a unit of
    the value. *)
Lemma round64_spec (mx ex : Z) (lx : location) (a b : Z) :
  2 ^ 52 <= mx ->
  -1074 <= ex + (Zdigits2 mx - 53) -> ex + (Zdigits2 mx - 53) + 1 <= 971 ->
  0 <= a < b -> located lx a b ->
  exists R m e,
    round64 false mx ex lx = S754_finite false m e
    /\ 2 ^ 52 <= Zpos m < 2 ^ 53
    /\ 2 * Z.abs (R * (2 ^ (Zdigits2 mx - 53) * b) - (mx * b + a))
       <= 2 ^ (Zdigits2 mx - 53) * b
    /\ ((e = ex + (Zdigits2 mx - 53) /\ Zpos m = R)
        \/ (e = ex + (Zdigits2 mx - 53) + 1 /\ 2 * Zpos m = R)).
Proof.
  intros Hm He Hu Hab Hl.
  destruct (shr_fexp_normal mx ex lx a b Hm He Hab Hl) as (rec & E1 & Hrec & Hloc).
  pose proof (Zdigits2_normal mx Hm) as Hd.
  set (n := Zdigits2 mx - 53) in *.
  assert (0 < 2 ^ n) as Hp by (apply Z.pow_pos_nonneg; lia).
  pose proof (Z.mod_pos_bound mx (2 ^ n) Hp) as Hmod.
  set (A := mx mod 2 ^ n * b + a) in *.
  assert (0 <= A < 2 ^ n * b) as HA by (subst A; nia).
  set (R := round_nearest_even (shr_m rec) (loc_of_shr_record rec)).
  pose proof (round_nearest_even_half (shr_m rec) _ A (2 ^ n * b) HA Hloc)
    as [HR Hhalf]. fold R in HR, Hhalf. rewrite Hrec in HR, Hhalf.
  assert (mx / 2 ^ n * (2 ^ n * b) + A = mx * b + a) as EN.
  { subst A. rewrite (Z.div_mod mx (2 ^ n)) at 3 by lia. ring. }
  rewrite EN in Hhalf.
  assert (2 ^ 52 <= mx / 2 ^ n < 2 ^ 53) as Hcut.
  { destruct mx as [|p|p]; try lia.
    pose proof (digits2_bounds p) as [Lo Hi].
    unfold Zdigits2 in n, Hd. fold n in Hd.
    assert (Zpos (digits2_pos p) = n + 53) as Dn by (subst n; lia).
    rewrite Dn in Lo, Hi.
    replace (n + 53 - 1) with (52 + n) in Lo by lia.
    rewrite Z.pow_add_r in Lo, Hi by lia.
    split.
    - apply Z.div_le_lower_bound; lia.
    - apply Z.div_lt_upper_bound; lia. }
  destruct (renormalise false R (ex + n)) as (m & e & E2 & Hm2 & Hcase);
    [lia | lia | lia |].
  exists R, m, e. unfold round64, binary_round_aux. rewrite E1. fold R.
  split; [exact E2|]. split; [exact Hm2|]. split; [exact Hhalf | exact Hcase].
Qed.

(** Rounding does not cross a bound that the result's exponent can
    express: a value of at most [c] units of the last place is rounded to
    at most [c] of them. *)
Lemma round64_at_most (mx ex : Z) (lx : location) (a b c : Z) :
  2 ^ 52 <= mx ->
  -1074 <= ex + (Zdigits2 mx - 53) -> ex + (Zdigits2 mx - 53) + 1 <= 971 ->
  0 <= a < b -> located lx a b ->
  mx * b + a <= c * (2 ^ (Zdigits2 mx - 53) * b) ->
  exists R m e,
    round64 false mx ex lx = S754_finite false m e
    /\ 2 ^ 52 <= Zpos m < 2 ^ 53
    /\ R <= c
    /\ 2 * Z.abs (R * (2 ^ (Zdigits2 mx - 53) * b) - (mx * b + a))
       <= 2 ^ (Zdigits2 mx - 53) * b
    /\ ((e = ex + (Zdigits2 mx - 53) /\ Zpos m = R)
        \/ (e = ex + (Zdigits2 mx - 53) + 1 /\ 2 * Zpos m = R)).
Proof.
  intros Hm He Hu Hab Hl Hle.
  destruct (round64_spec mx ex lx a b Hm He Hu Hab Hl)
    as (R & m & e & E & Hm2 & Hhalf & Hcase).
  pose proof (Zdigits2_normal mx Hm) as Hd.
  set (n := Zdigits2 mx - 53) in *.
  assert (0 < 2 ^ n) as Hp by (apply Z.pow_pos_nonneg; lia).
  exists R, m, e. repeat (split; [assumption|]). split; [|split; assumption].
  set (B := 2 ^ n * b) in *. assert (0 < B) as HB by (subst B; nia).
  destruct (Z.le_gt_cases R c) as [L|G]; [exact L|].
  assert ((c + 1) * B <= R * B) by nia. nia.
Qed.

Lemma iter_xO (p k : positive) : Zpos (Pos.iter xO p k) = Zpos p * 2 ^ Zpos k.
Proof.
  induction k as [|k IH] using Pos.peano_ind.
  - simpl. lia.
  - rewrite Pos.iter_succ, Pos2Z.inj_xO, IH, Pos2Z.inj_succ, Z.pow_succ_r by lia.
    lia.
Qed.

(** A mantissa of 53 bits with nothing beyond it is kept as it is. *)
Lemma round64_exact (mz : positive) (ez : Z) :
  2 ^ 52 <= Zpos mz < 2 ^ 53 -> -1074 <= ez -> ez + 1 <= 971 ->
  round64 false (Zpos mz) ez loc_Exact = S754_finite false mz ez.
Proof.
  intros Hm He Hu.
  assert (Zdigits2 (Zpos mz) = 53) as D by (apply digits2_unique; simpl; lia).
  destruct (round64_spec (Zpos mz) ez loc_Exact 0 1)
    as (R & m & e & E & Hm2 & Hhalf & Hcase);
    [lia | rewrite D; lia | rewrite D; lia | lia | reflexivity |].
  rewrite D in *. change (53 - 53) with 0 in *. rewrite E.
  change (2 ^ 0) with 1 in Hhalf.
  assert (R = Zpos mz) as -> by lia.
  destruct Hcase as [[-> Em] | [_ Em]]; [|lia].
  f_equal; lia.
Qed.

(** The Number of a positive integer below 2^53 is that integer, its
    mantissa shifted to 53 bits. *)
Lemma num_canonical (z : Z) :
  0 < z < 2 ^ 53 ->
  exists m e,
    JS.num z = S754_finite false m e
    /\ 2 ^ 52 <= Zpos m < 2 ^ 53 /\ -52 <= e <= 0
    /\ Zpos m = z * 2 ^ (- e).
Proof.
  intros [Lo Hi]. destruct z as [|p|p]; try lia.
  unfold JS.num, binary_normalize, binary_round, JS.prec, JS.emax.
  pose proof (digits2_bounds p) as [Dlo Dhi].
  set (d := Zpos (digits2_pos p)) in *.
  assert (1 <= d <= 53) as Hd.
  { split; [subst d; lia|].
    destruct (Z.le_gt_cases d 53) as [L|G]; [exact L|].
    assert (2 ^ 53 <= 2 ^ (d - 1)) by (apply Z.pow_le_mono_r; lia). lia. }
  unfold fexp, emin.
  replace (Z.max (d + 0 - 53) (3 - 1024 - 53)) with (d - 53) by lia.
  unfold shl_align.
  destruct (d - 53 - 0) as [|k|k] eqn:Ek; [| lia |].
  - assert (d = 53) as D by lia. rewrite D in *.
    exists p, 0. fold round64. rewrite round64_exact by (simpl in *; lia).
    split; [reflexivity|]. split; [simpl in *; lia|]. split; [lia|].
    simpl. lia.
  - assert (Zpos k = 53 - d) as Hk by lia.
    pose proof (iter_xO p k) as Ez. rewrite Hk in Ez.
    set (mz := Pos.iter xO p k) in *.
    assert (2 ^ 52 <= Zpos mz < 2 ^ 53) as Hmz.
    { rewrite Ez.
      assert (2 ^ 52 = 2 ^ (d - 1) * 2 ^ (53 - d)) as ->
          by (rewrite <- Z.pow_add_r by lia; f_equal; lia).
      assert (2 ^ 53 = 2 ^ d * 2 ^ (53 - d)) as ->
          by (rewrite <- Z.pow_add_r by lia; f_equal; lia).
      assert (0 < 2 ^ (53 - d)) by (apply Z.pow_pos_nonneg; lia).
      split; [apply Z.mul_le_mono_nonneg_r | apply Z.mul_lt_mono_pos_r]; lia. }
    exists mz, (d - 53). fold round64. rewrite round64_exact by lia.
    split; [reflexivity|]. split; [exact Hmz|]. split; [lia|].
    rewrite Ez. f_equal. f_equal. lia.
Qed.

(** The location the division computes from its remainder says where the
    quotient lies within its last place. *)
Lemma new_location_located (n k : Z) :
  0 <= k < n -> located (new_location n k) k n.
Proof.
  intros Hk. unfold new_location, new_location_even, new_location_odd.
  destruct (Z.even n) eqn:Ev.
  - destruct (Z.eqb_spec k 0) as [-> | Hk0]; [reflexivity|].
    destruct (Z.compare_spec (2 * k) n); cbv beta iota delta [located]; lia.
  - destruct (Z.eqb_spec k 0) as [-> | Hk0]; [reflexivity|].
    assert (n <> 2 * k) as Hodd.
    { intros ->. rewrite Z.even_mul in Ev. discriminate. }
    destruct (Z.compare_spec (2 * k + 1) n); cbv beta iota delta [located]; lia.
Qed.

Lemma div_core (m1 m2 : positive) (e1 e2 : Z) :
  2 ^ 52 <= Zpos m1 < 2 ^ 53 -> 2 ^ 52 <= Zpos m2 < 2 ^ 53 ->
  -52 <= e1 <= 0 -> -52 <= e2 <= 0 ->
  SFdiv_core_binary 53 1024 (Zpos m1) e1 (Zpos m2) e2
  = (Zpos m1 * 2 ^ 53 / Zpos m2, e1 - e2 - 53,
     new_location (Zpos m2) ((Zpos m1 * 2 ^ 53) mod Zpos m2)).
Proof.
  intros H1 H2 He1 He2. unfold SFdiv_core_binary.
  assert (Zdigits2 (Zpos m1) = 53) as -> by (apply digits2_unique; simpl; lia).
  assert (Zdigits2 (Zpos m2) = 53) as -> by (apply digits2_unique; simpl; lia).
  unfold fexp, emin.
  replace (Z.min (Z.max (53 + e1 - (53 + e2) - 53) (3 - 1024 - 53)) (e1 - e2))
    with (e1 - e2 - 53) by lia.
  replace (e1 - e2 - (e1 - e2 - 53)) with 53 by lia.
  rewrite Z.shiftl_mul_pow2 by lia.
  unfold Z.div, Z.modulo.
  now destruct (Z.div_eucl (Zpos m1 * 2 ^ 53) (Zpos m2)).
Qed.

(** A part of a whole, divided: a Number of at most one, within half a
    unit of its last place of the exact quotient. *)
Lemma div_part_of_whole (d t : Z) :
  0 < d <= t -> t < 2 ^ 53 ->
  exists m e,
    JS.div (JS.num d) (JS.num t) = S754_finite false m e
    /\ 2 ^ 52 <= Zpos m < 2 ^ 53 /\ -107 <= e <= -52
    /\ Zpos m <= 2 ^ (- e)
    /\ 2 * Z.abs (Zpos m * t - d * 2 ^ (- e)) <= t.
Proof.
  intros Hd Ht.
  destruct (num_canonical d) as (m1 & e1 & -> & H1 & He1 & V1); [lia|].
  destruct (num_canonical t) as (m2 & e2 & -> & H2 & He2 & V2); [lia|].
  unfold JS.div, SFdiv, JS.prec, JS.emax.
  rewrite (div_core m1 m2 e1 e2 H1 H2 He1 He2). simpl xorb.
  set (q := Zpos m1 * 2 ^ 53 / Zpos m2).
  set (r := (Zpos m1 * 2 ^ 53) mod Zpos m2).
  assert (Zpos m1 * 2 ^ 53 = Zpos m2 * q + r) as Eq
      by (apply Z.div_mod; lia).
  assert (0 <= r < Zpos m2) as Hr by (apply Z.mod_pos_bound; lia).
  assert (Zpos m1 * 2 ^ 53 <= Zpos m2 * 2 ^ (53 + e2 - e1)) as Hle.
  { assert (Zpos m1 * 2 ^ (- e2) <= Zpos m2 * 2 ^ (- e1)) as C.
    { rewrite V1, V2, <- !Z.mul_assoc, <- !Z.pow_add_r by lia.
      replace (- e2 + - e1) with (- e1 + - e2) by lia.
      apply Z.mul_le_mono_nonneg_r; [apply Z.pow_nonneg|]; lia. }
    assert (2 ^ 53 = 2 ^ (- e2) * 2 ^ (53 + e2)) as ->
        by (rewrite <- Z.pow_add_r by lia; f_equal; lia).
    assert (2 ^ (53 + e2 - e1) = 2 ^ (- e1) * 2 ^ (53 + e2)) as ->
        by (rewrite <- Z.pow_add_r by lia; f_equal; lia).
    rewrite !Z.mul_assoc.
    apply Z.mul_le_mono_nonneg_r; [apply Z.pow_nonneg|]; lia. }
  assert (0 < 2 ^ (53 + e2 - e1)) as Hpow by (apply Z.pow_pos_nonneg; lia).
  assert (2 ^ 52 <= q < 2 ^ 54) as Hq.
  { split.
    - apply Z.div_le_lower_bound; [lia|].
      change (2 ^ 53) with (2 * 2 ^ 52). nia.
    - apply Z.div_lt_upper_bound; [lia|].
      change (2 ^ 54) with (2 * 2 ^ 53). nia. }
  assert (Zdigits2 q = 53 \/ Zdigits2 q = 54) as Dq.
  { destruct q as [|pq|pq]; try lia.
    destruct (Z.lt_ge_cases (Zpos pq) (2 ^ 53)).
    - left. apply digits2_unique. simpl. lia.
    - right. apply digits2_unique. simpl. lia. }
  set (n := Zdigits2 q - 53).
  assert (0 <= n <= 1) as Hn by (subst n; lia).
  assert (0 < 2 ^ n) as Hpn by (apply Z.pow_pos_nonneg; lia).
  assert (2 ^ (53 + e2 - e1) = 2 ^ (53 + e2 - e1 - n) * 2 ^ n) as Esplit
      by (rewrite <- Z.pow_add_r by lia; f_equal; lia).
  destruct (round64_at_most q (e1 - e2 - 53) (new_location (Zpos m2) r)
                        r (Zpos m2) (2 ^ (53 + e2 - e1 - n)))
    as (R & m & e & Ebra & Hm & HRc & Hhalf & Hcase); fold n.
  - lia.
  - lia.
  - lia.
  - exact Hr.
  - now apply new_location_located.
  - rewrite Z.mul_assoc, <- Esplit. lia.
  - fold round64. rewrite Ebra. exists m, e.
    split; [reflexivity|]. split; [exact Hm|].
    fold n in Hhalf, Hcase.
    assert (0 < 2 ^ (53 + e2 - e1 - n)) as Hc by (apply Z.pow_pos_nonneg; lia).
    set (E := 53 + e2 - e1 - n) in *.
    (* the error, at the scale of the counts *)
    assert (2 * Z.abs (R * t - d * 2 ^ E) <= t) as Herr.
    { replace (q * Zpos m2 + r) with (Zpos m1 * 2 ^ 53) in Hhalf by lia.
      set (P := 2 ^ n * 2 ^ (- e2)).
      assert (0 < P) as HP
          by (subst P; apply Z.mul_pos_pos; apply Z.pow_pos_nonneg; lia).
      assert (2 ^ (- e1) * 2 ^ 53 = 2 ^ E * P) as Hscale
          by (subst P E; rewrite <- !Z.pow_add_r by lia; f_equal; lia).
      assert (R * (2 ^ n * Zpos m2) - Zpos m1 * 2 ^ 53
              = P * (R * t - d * 2 ^ E)) as EP.
      { rewrite V1, V2.
        replace (d * 2 ^ (- e1) * 2 ^ 53) with (d * (2 ^ E * P))
          by (rewrite <- Hscale; ring).
        subst P. ring. }
      assert (2 ^ n * Zpos m2 = P * t) as EB by (rewrite V2; subst P; ring).
      rewrite EP, EB, Z.abs_mul, (Z.abs_eq P) in Hhalf by lia.
      apply (proj2 (Z.mul_le_mono_pos_l (2 * Z.abs (R * t - d * 2 ^ E)) t P HP)).
      replace (P * (2 * Z.abs (R * t - d * 2 ^ E)))
        with (2 * (P * Z.abs (R * t - d * 2 ^ E))) by ring.
      exact Hhalf. }
    assert (forall x, 0 <= x -> Zpos m <= 2 ^ x -> 52 <= x) as Deep.
    { intros x H0 Hx. destruct (Z.le_gt_cases 52 x) as [L|G]; [exact L|].
      assert (2 ^ x <= 2 ^ 51) by (apply Z.pow_le_mono_r; lia).
      change (2 ^ 52) with (2 * 2 ^ 51) in Hm. lia. }
    destruct Hcase as [[-> Em] | [-> Em]].
    + replace (- (e1 - e2 - 53 + n)) with E by (subst E; lia).
      rewrite Em.
      assert (52 <= E) by (apply Deep; [subst E|]; lia).
      split; [subst E; lia|]. split; [exact HRc | exact Herr].
    + replace (- (e1 - e2 - 53 + n + 1)) with (E - 1) by (subst E; lia).
      assert (1 <= E).
      { destruct (Z.le_gt_cases 1 E) as [L|G]; [exact L|].
        assert (E = 0) as E0 by (subst E; lia). rewrite E0 in HRc.
        simpl in HRc. lia. }
      assert (2 ^ E = 2 * 2 ^ (E - 1)) as Eh
          by (rewrite <- Z.pow_succ_r by lia; f_equal; lia).
      assert (52 <= E - 1) by (apply Deep; lia).
      split; [subst E; lia|]. split; [lia|].
      rewrite <- Em, Eh in Herr. lia.
Qed.

Lemma num_100 : JS.num 100 = S754_finite false 7036874417766400 (-46).
Proof. reflexivity. Qed.

(** At most one, times a hundred: a Number of at most a hundred, within
    half a unit of its last place of the exact product. *)
Lemma mul_by_100 (m : positive) (e : Z) :
  2 ^ 52 <= Zpos m < 2 ^ 53 -> -107 <= e <= -52 -> Zpos m <= 2 ^ (- e) ->
  exists m' e',
    JS.mul (S754_finite false m e) (JS.num 100) = S754_finite false m' e'
    /\ 2 ^ 52 <= Zpos m' < 2 ^ 53 /\ e + 6 <= e' <= e + 8 /\ e' <= -46
    /\ Zpos m' <= 100 * 2 ^ (- e')
    /\ 2 * Z.abs (Zpos m' * 2 ^ (e' - e) - 100 * Zpos m) <= 2 ^ (e' - e).
Proof.
  intros Hm He Hle. rewrite num_100.
  unfold JS.mul, SFmul, JS.prec, JS.emax. simpl xorb.
  rewrite Pos2Z.inj_mul.
  set (mx := Zpos m * 7036874417766400).
  assert (2 ^ 104 <= mx < 2 ^ 106) as Hmx.
  { subst mx. change (2 ^ 104) with (2 ^ 52 * 4503599627370496).
    change (2 ^ 106) with (2 ^ 53 * 9007199254740992). nia. }
  assert (Zdigits2 mx = 105 \/ Zdigits2 mx = 106) as Dm.
  { destruct mx as [|p|p] eqn:Emx; try lia.
    destruct (Z.lt_ge_cases (Zpos p) (2 ^ 105)).
    - left. apply digits2_unique. simpl. lia.
    - right. apply digits2_unique. simpl. lia. }
  set (n := Zdigits2 mx - 53).
  assert (52 <= n <= 53) as Hn by (subst n; lia).
  assert (0 < 2 ^ (- e)) as Hpe by (apply Z.pow_pos_nonneg; lia).
  assert (2 ^ (46 - e) = 2 ^ (46 - e - n) * 2 ^ n) as Esplit
      by (rewrite <- Z.pow_add_r by lia; f_equal; lia).
  assert (2 ^ (46 - e) = 70368744177664 * 2 ^ (- e)) as E46
      by (change 70368744177664 with (2 ^ 46);
          rewrite <- Z.pow_add_r by lia; f_equal; lia).
  destruct (round64_at_most mx (e + -46) loc_Exact 0 1 (100 * 2 ^ (46 - e - n)))
    as (R & m' & e' & Ebra & Hm' & HRc & Hhalf & Hcase); fold n.
  - lia.
  - lia.
  - lia.
  - lia.
  - reflexivity.
  - rewrite Z.mul_1_r, Z.add_0_r, Z.mul_1_r, <- Z.mul_assoc, <- Esplit, E46.
    subst mx. nia.
  - fold round64. rewrite Ebra. exists m', e'.
    split; [reflexivity|]. split; [exact Hm'|].
    fold n in Hhalf, Hcase.
    rewrite Z.mul_1_r, Z.add_0_r, Z.mul_1_r in Hhalf.
    assert (0 < 2 ^ (46 - e - n)) as Hc by (apply Z.pow_pos_nonneg; lia).
    assert (forall x, 0 <= x -> Zpos m' <= 100 * 2 ^ x -> 46 <= x) as Deep.
    { intros x H0 Hx. destruct (Z.le_gt_cases 46 x) as [L|G]; [exact L|].
      assert (2 ^ x <= 2 ^ 45) by (apply Z.pow_le_mono_r; lia).
      change (2 ^ 52) with (128 * 2 ^ 45) in Hm'. lia. }
    assert (mx = 100 * Zpos m * 2 ^ 46) as Emx
        by (subst mx; change (2 ^ 46) with 70368744177664; lia).
    destruct Hcase as [[-> Em] | [-> Em]].
    + replace (e + -46 + n - e) with (n - 46) by lia.
      assert (2 ^ n = 2 ^ (n - 46) * 2 ^ 46) as En
          by (rewrite <- Z.pow_add_r by lia; f_equal; lia).
      assert (0 < 2 ^ (n - 46)) by (apply Z.pow_pos_nonneg; lia).
      assert (Zpos m' <= 100 * 2 ^ (- (e + -46 + n))) as Hb
          by (replace (- (e + -46 + n)) with (46 - e - n) by lia; lia).
      pose proof (Deep (- (e + -46 + n)) ltac:(lia) Hb).
      split; [lia|]. split; [lia|]. split; [exact Hb|].
      rewrite Em. rewrite Emx, En in Hhalf.
      replace (R * (2 ^ (n - 46) * 2 ^ 46) - 100 * Zpos m * 2 ^ 46)
        with (2 ^ 46 * (R * 2 ^ (n - 46) - 100 * Zpos m)) in Hhalf by ring.
      rewrite Z.abs_mul in Hhalf. change (Z.abs (2 ^ 46)) with (2 ^ 46) in Hhalf.
      change (2 ^ 46) with 70368744177664 in Hhalf. lia.
    + replace (e + -46 + n + 1 - e) with (n - 45) by lia.
      assert (2 ^ n = 2 ^ (n - 46) * 2 ^ 46) as En
          by (rewrite <- Z.pow_add_r by lia; f_equal; lia).
      assert (2 ^ (n - 45) = 2 * 2 ^ (n - 46)) as En'
          by (rewrite <- Z.pow_succ_r by lia; f_equal; lia).
      assert (0 < 2 ^ (n - 46)) by (apply Z.pow_pos_nonneg; lia).
      assert (2 ^ (46 - e - n) = 2 * 2 ^ (- (e + -46 + n + 1))) as Eh
          by (rewrite <- Z.pow_succ_r by lia; f_equal; lia).
      assert (Zpos m' <= 100 * 2 ^ (- (e + -46 + n + 1))) as Hb by lia.
      pose proof (Deep (- (e + -46 + n + 1)) ltac:(lia) Hb).
      split; [lia|]. split; [lia|]. split; [exact Hb|].
      rewrite En'. rewrite Emx, En, <- Em in Hhalf.
      replace (2 * Zpos m' * (2 ^ (n - 46) * 2 ^ 46) - 100 * Zpos m * 2 ^ 46)
        with (2 ^ 46 * (Zpos m' * (2 * 2 ^ (n - 46)) - 100 * Zpos m))
        in Hhalf by ring.
      rewrite Z.abs_mul in Hhalf. change (Z.abs (2 ^ 46)) with (2 ^ 46) in Hhalf.
      change (2 ^ 46) with 70368744177664 in Hhalf. lia.
Qed.

(** At most a hundred, rounded: an integer from 0 to 100, within a half. *)
Lemma round_to_percentage (m : positive) (e : Z) :
  e <= -46 -> Zpos m <= 100 * 2 ^ (- e) ->
  exists k,
    0 <= k <= 100 /\ JS.Math_round (S754_finite false m e) = JS.num k
    /\ 2 * Z.abs (Zpos m - k * 2 ^ (- e)) <= 2 ^ (- e).
Proof.
  intros He Hle. unfold JS.Math_round.
  destruct (Z.leb_spec 0 e); [lia|].
  set (n := (2 * Zpos m + 2 ^ (- e)) / 2 ^ (1 - e)).
  assert (0 < 2 ^ (- e)) as Hp by (apply Z.pow_pos_nonneg; lia).
  assert (2 ^ (1 - e) = 2 * 2 ^ (- e)) as Ep
      by (rewrite <- Z.pow_succ_r by lia; f_equal; lia).
  pose proof (Z.div_mod (2 * Zpos m + 2 ^ (- e)) (2 ^ (1 - e)) ltac:(lia)) as Dm.
  pose proof (Z.mod_pos_bound (2 * Zpos m + 2 ^ (- e)) (2 ^ (1 - e)) ltac:(lia))
    as Hrem.
  fold n in Dm. rewrite Ep in Dm, Hrem.
  assert (0 <= n < 101) as Hn.
  { subst n. split.
    - apply Z.div_pos; lia.
    - apply Z.div_lt_upper_bound; lia. }
  exists n. split; [lia|]. split.
  - destruct (Z.eqb_spec n 0) as [-> | _]; reflexivity.
  - nia.
Qed.

(** The handler's percentage of [d] done tasks among [t]: an integer from
    0 to 100, and, for fewer than 2^43 tasks, one nearest to the exact
    percentage [100 * d / t]. *)
Theorem percentage_is_nearest (d t : Z) :
  0 <= d <= t -> 0 < t < 2 ^ 53 ->
  exists k,
    VariantA.percentage (JS.num d) (JS.num t) = JS.num k
    /\ 0 <= k <= 100
    /\ (t < 2 ^ 43 -> 2 * Z.abs (k * t - 100 * d) <= t).
Proof.
  intros Hd Ht. unfold VariantA.percentage.
  destruct (num_canonical t) as (m2 & e2 & Et & _); [lia|].
  assert (JS.strict_eq (JS.num t) (JS.num 0) = false) as ->
      by (rewrite Et; reflexivity).
  destruct (Z.eq_dec d 0) as [-> | Hd0].
  - exists 0. rewrite Et. split; [reflexivity|]. split; lia.
  - destruct (div_part_of_whole d t) as (mq & eq & -> & Hmq & Heq & Hleq & Herrq);
      [lia | lia |].
    destruct (mul_by_100 mq eq Hmq Heq Hleq)
      as (mp & ep & -> & Hmp & Hg & Hep & Hlep & Herrp).
    destruct (round_to_percentage mp ep Hep Hlep) as (k & Hk & -> & Herrk).
    exists k. split; [reflexivity|]. split; [exact Hk|].
    intros Hsmall.
    set (g := ep - eq) in *. set (A := - ep) in *. set (B := - eq) in *.
    assert (0 < 2 ^ A) as HA by (apply Z.pow_pos_nonneg; subst A; lia).
    assert (0 < 2 ^ g) as Hpg by (apply Z.pow_pos_nonneg; subst g; lia).
    assert (2 ^ B = 2 ^ A * 2 ^ g) as EB
        by (rewrite <- Z.pow_add_r by (subst A g; lia); f_equal; subst A B g; lia).
    assert (2 ^ g <= 2 ^ 8) as Hg8 by (apply Z.pow_le_mono_r; subst g; lia).
    assert (2 ^ 52 <= 2 ^ B) as HB52 by (apply Z.pow_le_mono_r; subst B; lia).
    change (2 ^ 8) with 256 in Hg8.
    change (2 ^ 52) with 4503599627370496 in HB52.
    change (2 ^ 43) with 8796093022208 in Hsmall.
    set (X1 := Zpos mp - k * 2 ^ A) in *.
    set (X2 := Zpos mp * 2 ^ g - 100 * Zpos mq) in *.
    set (X3 := Zpos mq * t - d * 2 ^ B) in *.
    set (Y := k * t - 100 * d).
    assert (2 ^ B * Y = - (t * 2 ^ g * X1) + t * X2 + 100 * X3) as EY
        by (subst Y X1 X2 X3; rewrite EB; ring).
    assert (2 * Z.abs (t * 2 ^ g * X1) <= t * 2 ^ B) as H1.
    { rewrite Z.abs_mul, (Z.abs_eq (t * 2 ^ g)), EB
        by (apply Z.mul_nonneg_nonneg; lia).
      replace (2 * (t * 2 ^ g * Z.abs X1)) with (t * 2 ^ g * (2 * Z.abs X1))
        by ring.
      replace (t * (2 ^ A * 2 ^ g)) with (t * 2 ^ g * 2 ^ A) by ring.
      apply Z.mul_le_mono_nonneg_l; [apply Z.mul_nonneg_nonneg; lia|].
      exact Herrk. }
    assert (2 * Z.abs (t * X2) <= t * 2 ^ g) as H2.
    { rewrite Z.abs_mul, (Z.abs_eq t) by lia.
      replace (2 * (t * Z.abs X2)) with (t * (2 * Z.abs X2)) by ring.
      apply Z.mul_le_mono_nonneg_l; [lia | exact Herrp]. }
    assert (t * 2 ^ g <= t * 256) as H4
        by (apply Z.mul_le_mono_nonneg_l; lia).
    assert (2 * Z.abs (2 ^ B * Y) <= t * 2 ^ B + t * 2 ^ g + 100 * t) as H3
        by (clear - EY H1 H2 Herrq; lia).
    rewrite Z.abs_mul, (Z.abs_eq (2 ^ B)) in H3 by lia.
    assert (2 ^ B * (2 * Z.abs Y - t) < 2 ^ B * 1) as H5.
    { replace (2 ^ B * (2 * Z.abs Y - t))
        with (2 * (2 ^ B * Z.abs Y) - t * 2 ^ B) by ring.
      clear - H3 H4 HB52 Hsmall Ht. lia. }
    apply Z.mul_lt_mono_pos_l in H5; [|lia].
    clear - H5. lia.
Qed.

(** Off the exact halves, the nearest integer is the specification's. *)
Lemma nearest_is_specified (d t k : Z) :
  0 < t -> 0 <= d ->
  2 * Z.abs (k * t - 100 * d) <= t ->
  2 * ((100 * d) mod t) <> t ->
  k = (200 * d + t) / (2 * t).
Proof.
  intros Ht Hd Hnear Hhalf.
  pose proof (Z.div_mod (100 * d) t ltac:(lia)) as Dm.
  pose proof (Z.mod_pos_bound (100 * d) t Ht) as Hr.
  set (q := 100 * d / t) in *. set (r := (100 * d) mod t) in *.
  assert (k * t - 100 * d = (k - q) * t - r) as Ek by lia.
  rewrite Ek in Hnear.
  assert (q <= k <= q + 1) as Hk by (split; nia).
  apply Z.div_unique with (r := if 2 * r <? t then 2 * r + t else 2 * r - t).
  - destruct (Z.ltb_spec (2 * r) t); lia.
  - assert (k = q \/ k = q + 1) as [-> | ->] by lia;
      destruct (Z.ltb_spec (2 * r) t); lia.
Qed.

(* ================================================================== *)
(** * Completion, for every project *)
(* ================================================================== *)

Lemma done_within_total (z : Z) (w : VariantA.world) :
  (List.length (VariantA.project_done_tasks z w)
   <= List.length (VariantA.project_tasks z w))%nat.
Proof.
  unfold VariantA.project_done_tasks, VariantA.project_tasks.
  induction (VariantA.tasks w) as [|t r IH]; simpl; [lia|].
  destruct (sql_eq (VariantA.Task.project_id t) z); simpl; [|exact IH].
  destruct (VariantA.Task.done t) as [[|]|]; simpl; lia.
Qed.

(** [GET /projects/:id/completion] answers 200 with a percentage that is
    an integer from 0 to 100 and as near to the exact percentage of done
    tasks as an integer can be.  Unless the exact percentage ends in a
    half it is therefore the percentage of the specification; at a half
    the handler may give the integer below where the specification gives
    the one above. *)
Theorem completion_is_nearest `{Platform} (w : VariantA.world) (id : string)
  (z : Z) :
  int4in id = Some z ->
  let total := Z.of_nat (List.length (VariantA.project_tasks z w)) in
  let finished := Z.of_nat (List.length (VariantA.project_done_tasks z w)) in
  total < 2 ^ 43 ->
  exists k,
    fst (VariantA.completion id w)
    = Response 200 (BJson (JObj [("percentage", JNum (JS.num k))]))
    /\ 0 <= k <= 100
    /\ 2 * Z.abs (k * total - 100 * finished) <= total
    /\ (2 * ((100 * finished) mod total) <> total ->
        k = spec_percentage
              (List.length (VariantA.project_done_tasks z w))
              (List.length (VariantA.project_tasks z w))).
Proof.
  intros Hid total finished Hsmall.
  rewrite (completion_run id w Hid). fold total finished.
  pose proof (done_within_total z w) as Hle.
  destruct (List.length (VariantA.project_tasks z w)) as [|n] eqn:En.
  - assert (List.length (VariantA.project_done_tasks z w) = 0%nat) as E0 by lia.
    subst total finished. rewrite E0. exists 0.
    split; [reflexivity|]. split; [lia|]. split; [simpl; lia | reflexivity].
  - destruct (percentage_is_nearest finished total) as (k & -> & Hk & Hnear).
    + subst total finished. lia.
    + subst total. change (2 ^ 53) with 9007199254740992.
      change (2 ^ 43) with 8796093022208 in Hsmall. lia.
    + exists k. split; [reflexivity|]. split; [exact Hk|].
      split; [exact (Hnear Hsmall)|].
      intros Hhalf. unfold spec_percentage.
      apply nearest_is_specified; subst total finished;
        [lia | lia | exact (Hnear Hsmall) | exact Hhalf].
Qed.

(* ================================================================== *)
(** * What each handler does to the store *)
(* ================================================================== *)

Lemma same_store_sent (q : VariantA.sql) (w : VariantA.world) :
  same_store w (VariantA.sent q w).
Proof. repeat split. Qed.

Lemma same_store_tables (w w' : VariantA.world) :
  same_store w w' -> same_tables w w'.
Proof. intros [T _]. exact T. Qed.

Lemma extends_refl (w : VariantA.world) : extends w w.
Proof.
  repeat split; auto. intros t Ht. now apply in_map.
Qed.

Lemma extends_trans (w1 w2 w3 : VariantA.world) :
  extends w1 w2 -> extends w2 w3 -> extends w1 w3.
Proof.
  intros (P1 & T1 & F1 & U1) (P2 & T2 & F2 & U2). repeat split; auto.
  intros t Ht. apply T1, in_map_iff in Ht. destruct Ht as (t2 & <- & Ht2).
  now apply T2.
Qed.

Lemma same_store_extends (w w' : VariantA.world) :
  same_store w w' -> extends w w'.
Proof.
  intros ((P & T & F) & _ & _ & _ & U). unfold extends.
  rewrite P, T, F, U. apply extends_refl.
Qed.

Section Outcomes.
Context `{Platform}.

(** The handlers behind [app.get] send their statements and leave the
    store as it is. *)
Lemma list_files_reads id w :
  same_store w (snd (VariantA.list_files id w))
  /\ (status (fst (VariantA.list_files id w)) = 200
      \/ fst (VariantA.list_files id w)
         = Response 500 (BText "Error fetching files")).
Proof.
  unfold VariantA.list_files, try_catch, bind, VariantA.select_project_files.
  destruct (int4in id); simpl; (split; [apply same_store_sent | auto]).
Qed.

Lemma view_file_reads id w :
  same_store w (snd (VariantA.view_file id w))
  /\ (status (fst (VariantA.view_file id w)) = 200
      \/ fst (VariantA.view_file id w) = Response 404 (BText "File not found")
      \/ fst (VariantA.view_file id w)
         = Response 500 (BText "Error viewing file")).
Proof.
  unfold VariantA.view_file, try_catch, bind, VariantA.select_file.
  destruct (int4in id); simpl; [|split; [apply same_store_sent | auto]].
  destruct (filter _ _); simpl; (split; [apply same_store_sent | auto]).
Qed.

(** The route of [GET /files/:id/view]: the handler, then what
    [res.sendFile] makes of the path. *)
Lemma view_route_reads id w :
  same_store w (snd (VariantA.route (VariantA.GetFileView id) w))
  /\ (status (fst (VariantA.route (VariantA.GetFileView id) w)) = 200
      \/ status (fst (VariantA.route (VariantA.GetFileView id) w)) = 404
      \/ status (fst (VariantA.route (VariantA.GetFileView id) w)) = 500).
Proof.
  simpl. destruct (view_file_reads id w) as [Same Answer].
  destruct (VariantA.view_file id w) as [r w'] eqn:E. simpl in *.
  split; [exact Same|].
  unfold VariantA.view_file, try_catch, bind, VariantA.select_file in E.
  destruct (int4in id); simpl in E.
  - destruct (filter _ _); injection E as <- _; simpl; auto.
    unfold VariantA.delivered, VariantA.send_file. simpl.
    destruct (VariantA.on_disk _ _); simpl; auto.
  - injection E as <- _. simpl. auto.
Qed.

Lemma completion_reads id w :
  same_store w (snd (VariantA.completion id w))
  /\ (status (fst (VariantA.completion id w)) = 200
      \/ fst (VariantA.completion id w)
         = Response 500 (BText "Error calculating completion")).
Proof.
  destruct (int4in id) as [z|] eqn:Hid.
  - rewrite (completion_run id w Hid). simpl. split; [repeat split | auto].
  - unfold VariantA.completion, try_catch, bind, VariantA.count_tasks.
    rewrite Hid. simpl. split; [apply same_store_sent | auto].
Qed.

Lemma list_projects_reads w :
  same_store w (snd (VariantA.list_projects w))
  /\ status (fst (VariantA.list_projects w)) = 200.
Proof. split; [apply same_store_sent | reflexivity]. Qed.

Lemma list_tasks_reads id w :
  same_store w (snd (VariantA.list_tasks id w))
  /\ (status (fst (VariantA.list_tasks id w)) = 200
      \/ fst (VariantA.list_tasks id w)
         = Response 500 (BText "Error fetching tasks")).
Proof.
  unfold VariantA.list_tasks, try_catch, bind, VariantA.select_tasks.
  destruct (int4in id); simpl; (split; [apply same_store_sent | auto]).
Qed.

(** [POST /projects/:id/upload]: without a file nothing happens; with one
    it is on the disk before the row is inserted, and stays there when
    the store refuses the row. *)
Lemma upload_file_outcome now id part w :
  let r := VariantA.upload_file now id part w in
  (part = None /\ r = (Response 400 (BText "No file uploaded"), w))
  \/ (exists original content,
         part = Some (original, content)
         /\ VariantA.uploads (snd r)
            = VariantA.write_file (VariantA.storage_path now original) content
                                  (VariantA.uploads w)
         /\ VariantA.projects (snd r) = VariantA.projects w
         /\ VariantA.tasks (snd r) = VariantA.tasks w
         /\ ((fst r = Response 500 (BText "Upload error")
              /\ VariantA.files (snd r) = VariantA.files w)
             \/ (fst r = Response 201 (BText "File uploaded")
                 /\ exists z,
                     int4in id = Some z
                     /\ VariantA.project_exists z w = true
                     /\ VariantA.files (snd r)
                        = (VariantA.files w
                           ++ [uploaded_row w now original z])%list))).
Proof.
  intros r. subst r. destruct part as [[original content]|]; [right | now left].
  exists original, content. split; [reflexivity|].
  unfold VariantA.upload_file, VariantA.upload_single, try_catch, bind,
    VariantA.insert_file.
  simpl. destruct (int4in id) as [z|]; simpl; [|now auto 6].
  destruct (int4_max <=? VariantA.files_id_seq w); simpl; [now auto 6|].
  destruct (existsb _ (VariantA.files w)); simpl; [now auto 6|].
  unfold VariantA.project_exists. simpl.
  fold (VariantA.project_exists z w).
  destruct (VariantA.project_exists z w) eqn:Known; simpl; [|now auto 6].
  repeat (split; [reflexivity|]). right. split; [reflexivity|].
  exists z. repeat split. exact Known.
Qed.

(** [POST /projects]: refused by the guard, refused by the store, or one
    row more. *)
Lemma create_project_outcome now body w :
  let r := VariantA.create_project now body w in
  VariantA.tasks (snd r) = VariantA.tasks w
  /\ VariantA.files (snd r) = VariantA.files w
  /\ VariantA.uploads (snd r) = VariantA.uploads w
  /\ ((status (fst r) = 400 /\ snd r = w)
      \/ (fst r = Response 500 (BText "Server Error")
          /\ VariantA.projects (snd r) = VariantA.projects w)
      \/ (status (fst r) = 201
          /\ exists row,
              VariantA.projects (snd r) = (VariantA.projects w ++ [row])%list)).
Proof.
  intros r. subst r. unfold VariantA.create_project.
  destruct (negb (truthy (body "name")) || negb (truthy (body "description")));
    [now auto 7|].
  unfold try_catch, bind, VariantA.insert_project. simpl.
  destruct (refused_text _ || refused_text _); simpl; [now auto 7|].
  destruct (int4_max <=? VariantA.projects_id_seq w); simpl; [now auto 7|].
  destruct (prepare_value (body "name")) as [n|]; simpl; [|now auto 7].
  destruct (VariantA.project_exists _ _); simpl; [now auto 7|].
  repeat (split; [reflexivity|]). right. right. split; [reflexivity|].
  eexists. reflexivity.
Qed.

(** [POST /projects/:id/tasks]: refused by the store, or one row more. *)
Lemma add_task_outcome id body w :
  let r := VariantA.add_task id body w in
  VariantA.projects (snd r) = VariantA.projects w
  /\ VariantA.files (snd r) = VariantA.files w
  /\ VariantA.uploads (snd r) = VariantA.uploads w
  /\ ((fst r = Response 500 (BText "Error adding task")
       /\ VariantA.tasks (snd r) = VariantA.tasks w)
      \/ (status (fst r) = 201
          /\ exists row z,
              int4in id = Some z
              /\ VariantA.Task.project_id row = Some z
              /\ VariantA.tasks (snd r) = (VariantA.tasks w ++ [row])%list)).
Proof.
  intros r. subst r.
  unfold VariantA.add_task, try_catch, bind, VariantA.insert_task.
  destruct (int4in id) as [z|]; simpl; [|now auto 6].
  destruct (refused_text _); simpl; [now auto 6|].
  destruct (int4_max <=? VariantA.tasks_id_seq w); simpl; [now auto 6|].
  destruct (prepare_value (body "title")) as [t|]; simpl; [|now auto 6].
  destruct (existsb _ (VariantA.tasks w) || negb (VariantA.project_exists z _));
    simpl; [now auto 6|].
  repeat (split; [reflexivity|]). right. split; [reflexivity|].
  exists (VariantA.Task.Row (VariantA.tasks_id_seq w + 1) t (Some false)
                            (Some z)), z.
  split; [reflexivity|]. split; reflexivity.
Qed.

(** [PUT /tasks/:id]: refused by the store, or the update of the rows
    with that id. *)
Lemma toggle_outcome id w :
  let r := VariantA.toggle id w in
  VariantA.projects (snd r) = VariantA.projects w
  /\ VariantA.files (snd r) = VariantA.files w
  /\ VariantA.uploads (snd r) = VariantA.uploads w
  /\ ((fst r = Response 500 (BText "Error toggling task")
       /\ VariantA.tasks (snd r) = VariantA.tasks w)
      \/ (status (fst r) = 200
          /\ exists z,
              int4in id = Some z
              /\ VariantA.tasks (snd r)
                 = map (VariantA.toggle_row z) (VariantA.tasks w))).
Proof.
  intros r. subst r. destruct (int4in id) as [z|] eqn:Hid.
  - rewrite (toggle_run id w Hid). simpl.
    repeat (split; [reflexivity|]). right. split; [reflexivity|].
    exists z. split; reflexivity.
  - unfold VariantA.toggle, try_catch, bind, VariantA.toggle_task.
    rewrite Hid. simpl. now auto 6.
Qed.
End Outcomes.

Lemma toggle_row_identity z t :
  task_identity (VariantA.toggle_row z t) = task_identity t.
Proof.
  unfold VariantA.toggle_row. now destruct (VariantA.Task.id t =? z).
Qed.

Lemma toggle_rows_identity z l :
  map task_identity (map (VariantA.toggle_row z) l) = map task_identity l.
Proof. rewrite map_map. apply map_ext. intros t. apply toggle_row_identity. Qed.

(* ================================================================== *)
(** * Reading, refusing, keeping *)
(* ================================================================== *)

(** A GET request changes nothing but the log of statements: the rows,
    the sequences and the upload directory are as before, whatever the
    path parameter and the answer. *)
Theorem get_requests_read_only `{Platform} (r : VariantA.request)
  (w : VariantA.world) :
  is_get r = true -> same_store w (snd (VariantA.route r w)).
Proof.
  destruct r as [|now id part|id|id|id| |now fields|id|id fields|id]; simpl;
    try discriminate; intros _.
  - repeat split.
  - apply list_files_reads.
  - apply view_route_reads.
  - apply completion_reads.
  - apply list_projects_reads.
  - apply list_tasks_reads.
Qed.

(** A request that is answered with an error status (400, 404 or 500)
    has changed no row of any table. *)
Theorem refused_requests_change_no_row `{Platform} (r : VariantA.request)
  (w : VariantA.world) :
  400 <= status (fst (VariantA.route r w)) ->
  same_tables w (snd (VariantA.route r w)).
Proof.
  destruct r as [|now id part|id|id|id| |now fields|id|id fields|id]; simpl;
    intros Hs.
  - repeat split.
  - destruct (upload_file_outcome now id part w)
      as [[_ ->] | (o & c & _ & _ & P & T & [[_ F] | [E _]])];
      [repeat split | repeat split; assumption |].
    rewrite E in Hs. simpl in Hs. lia.
  - apply same_store_tables, list_files_reads.
  - apply same_store_tables, view_route_reads.
  - apply same_store_tables, completion_reads.
  - apply same_store_tables, list_projects_reads.
  - destruct (create_project_outcome now fields w)
      as (T & F & _ & [[_ ->] | [[_ P] | [E _]]]);
      [repeat split | repeat split; assumption | lia].
  - apply same_store_tables, list_tasks_reads.
  - destruct (add_task_outcome id fields w) as (P & F & _ & [[_ T] | [E _]]);
      [repeat split; assumption | lia].
  - destruct (toggle_outcome id w) as (P & F & _ & [[_ T] | [E _]]);
      [repeat split; assumption | lia].
Qed.

Lemma route_extends `{Platform} (r : VariantA.request) (w : VariantA.world) :
  extends w (snd (VariantA.route r w)).
Proof.
  destruct r as [|now id part|id|id|id| |now fields|id|id fields|id]; simpl.
  - apply extends_refl.
  - destruct (upload_file_outcome now id part w)
      as [[_ ->] | (o & c & _ & U & P & T & Hf)]; [apply extends_refl|].
    unfold extends. rewrite P, T, U. repeat split; auto.
    + intros t Ht. now apply in_map.
    + destruct Hf as [[_ ->] | [_ (z & _ & _ & ->)]]; [auto|].
      intros f Hf. apply in_or_app. now left.
    + intros p Hp. now apply written_file_listed.
  - apply same_store_extends, list_files_reads.
  - apply same_store_extends, view_route_reads.
  - apply same_store_extends, completion_reads.
  - apply same_store_extends, list_projects_reads.
  - destruct (create_project_outcome now fields w)
      as (T & F & U & [[_ ->] | [[_ P] | [_ (row & P)]]]);
      [apply extends_refl | |]; unfold extends; rewrite P, T, F, U;
      repeat split; auto; try (intros t Ht; now apply in_map).
    intros p Hp. apply in_or_app. now left.
  - apply same_store_extends, list_tasks_reads.
  - destruct (add_task_outcome id fields w)
      as (P & F & U & [[_ T] | [_ (row & z & _ & _ & T)]]);
      unfold extends; rewrite P, T, F, U;
      repeat split; auto; intros t Ht; apply in_map; [exact Ht|].
    apply in_or_app. now left.
  - destruct (toggle_outcome id w)
      as (P & F & U & [[_ T] | [_ (z & _ & T)]]);
      unfold extends; rewrite P, T, F, U;
      repeat split; auto; intros t Ht.
    + now apply in_map.
    + rewrite toggle_rows_identity. now apply in_map.
Qed.

(** No sequence of requests removes anything: every project and file row
    is still there, every task is still there with its id, title and
    project, and every path of the upload directory still holds a file.
    The server has no route that deletes, so [ON DELETE CASCADE] never
    fires. *)
Theorem nothing_is_ever_removed `{Platform} (rs : list VariantA.request)
  (w : VariantA.world) :
  extends w (VariantA.serve rs w).
Proof.
  revert w. induction rs as [|r rest IH]; intros w; simpl.
  - apply extends_refl.
  - eapply extends_trans; [apply route_extends | apply IH].
Qed.

(** 404 is the answer of [GET /files/:id/view] alone, and 400 the answer
    of [POST /projects] and of an upload without a file alone: a task or
    a project that does not exist is never reported as such. *)
Theorem only_view_file_answers_404 `{Platform} (r : VariantA.request)
  (w : VariantA.world) :
  (status (fst (VariantA.route r w)) = 404 ->
   exists id, r = VariantA.GetFileView id)
  /\ (status (fst (VariantA.route r w)) = 400 ->
      (exists now body, r = VariantA.PostProjects now body)
      \/ (exists now id, r = VariantA.PostUpload now id None)).
Proof.
  destruct r as [|now id part|id|id|id| |now fields|id|id fields|id]; simpl.
  - split; discriminate.
  - destruct (upload_file_outcome now id part w)
      as [[-> ->] | (o & c & _ & _ & _ & _ & [[-> _] | [-> _]])]; simpl;
      split; try discriminate.
    intros _. right. now exists now, id.
  - destruct (list_files_reads id w) as [_ [-> | ->]]; split; discriminate.
  - split; [intros _; now exists id|].
    pose proof (view_route_reads id w) as [_ R]. simpl in R.
    intros E. rewrite E in R. destruct R as [R | [R | R]]; discriminate.
  - destruct (completion_reads id w) as [_ [-> | ->]]; split; discriminate.
  - split; discriminate.
  - split.
    + destruct (create_project_outcome now fields w)
        as (_ & _ & _ & [[-> _] | [[-> _] | [-> _]]]); discriminate.
    + intros _. left. now exists now, fields.
  - destruct (list_tasks_reads id w) as [_ [-> | ->]]; split; discriminate.
  - destruct (add_task_outcome id fields w)
      as (_ & _ & _ & [[-> _] | [-> _]]); split; discriminate.
  - destruct (toggle_outcome id w)
      as (_ & _ & _ & [[-> _] | [-> _]]); split; discriminate.
Qed.

(* ================================================================== *)
(** * Path parameters the store cannot read *)
(* ================================================================== *)

(** A path parameter that the store does not read as an integer makes
    the statement fail: every handler that takes an id answers 500 with
    its own message, after sending its first statement only. *)
Theorem malformed_id_is_answered_500 `{Platform} (id : string)
  (w : VariantA.world) :
  int4in id = None ->
  VariantA.list_files id w
  = (Response 500 (BText "Error fetching files"),
     VariantA.sent VariantA.SelectProjectFiles w)
  /\ VariantA.view_file id w
     = (Response 500 (BText "Error viewing file"),
        VariantA.sent VariantA.SelectFile w)
  /\ VariantA.completion id w
     = (Response 500 (BText "Error calculating completion"),
        VariantA.sent VariantA.CountTasks w)
  /\ VariantA.list_tasks id w
     = (Response 500 (BText "Error fetching tasks"),
        VariantA.sent VariantA.SelectTasks w)
  /\ (forall body,
         VariantA.add_task id body w
         = (Response 500 (BText "Error adding task"),
            VariantA.sent VariantA.InsertTask w))
  /\ VariantA.toggle id w
     = (Response 500 (BText "Error toggling task"),
        VariantA.sent VariantA.ToggleTask w)
  /\ (forall now original content,
         fst (VariantA.upload_file now id (Some (original, content)) w)
         = Response 500 (BText "Upload error")).
Proof.
  intros Hid.
  unfold VariantA.list_files, VariantA.view_file, VariantA.completion,
    VariantA.list_tasks, VariantA.add_task, VariantA.toggle,
    VariantA.upload_file, VariantA.upload_single, try_catch, bind,
    VariantA.select_project_files, VariantA.select_file, VariantA.count_tasks,
    VariantA.select_tasks, VariantA.insert_task, VariantA.toggle_task,
    VariantA.insert_file.
  simpl. rewrite Hid. repeat split.
Qed.

(* ================================================================== *)
(** * Attachments: written, listed, viewed *)
(* ================================================================== *)

Lemma written_file_first (path content : string) (d : list (string * string)) :
  In (path, content) (VariantA.write_file path content d).
Proof. now left. Qed.

(** The upload middleware runs before the handler: a file sent for a
    project that does not exist is answered 500 and gets no row, yet it
    has been written to the upload directory and stays there. *)
Theorem upload_to_unknown_project_keeps_the_file `{Platform}
  (now : N) (id : string) (z : Z) (original content : string)
  (w : VariantA.world) :
  int4in id = Some z -> VariantA.project_exists z w = false ->
  let r := VariantA.upload_file now id (Some (original, content)) w in
  fst r = Response 500 (BText "Upload error")
  /\ VariantA.files (snd r) = VariantA.files w
  /\ In (VariantA.storage_path now original, content)
        (VariantA.uploads (snd r)).
Proof.
  intros Hid Unknown r.
  destruct (upload_file_outcome now id (Some (original, content)) w)
    as [[No _] | (o & c & E & U & _ & _ & Hf)]; [discriminate|].
  injection E as <- <-. fold r in U, Hf.
  destruct Hf as [[R F] | [_ (z' & Hid' & Known & _)]].
  - split; [exact R|]. split; [exact F|].
    rewrite U. apply written_file_first.
  - rewrite Hid in Hid'. injection Hid' as <-. congruence.
Qed.



(* ================================================================== *)
(** * Tasks: added, listed, toggled *)
(* ================================================================== *)

Section Tasks.
Context `{Platform}.

Lemma list_tasks_run id z w :
  int4in id = Some z ->
  VariantA.list_tasks id w
  = (Response 200
       (BJson (JArr (map VariantA.task_json (VariantA.project_tasks z w)))),
     VariantA.sent VariantA.SelectTasks w).
Proof.
  intros Hid.
  unfold VariantA.list_tasks, try_catch, bind, VariantA.select_tasks.
  rewrite Hid. reflexivity.
Qed.

Lemma add_task_stored id z body title w :
  int4in id = Some z -> VariantA.project_exists z w = true ->
  issues_fresh_ids (map VariantA.Task.id (VariantA.tasks w))
                   (VariantA.tasks_id_seq w) ->
  body "title" = Some (JStr title) -> textin title = true ->
  VariantA.add_task id body w
  = (Response 201 (BJson (VariantA.task_json (created_task w title z))),
     VariantA.with_tasks (VariantA.tasks w ++ [created_task w title z])
                         (VariantA.tasks_id_seq w + 1)
                         (VariantA.sent VariantA.InsertTask w)).
Proof.
  intros Hid Known [Room Ids] Title Taken.
  unfold VariantA.add_task, try_catch, bind, VariantA.insert_task.
  rewrite Hid, Title. simpl. rewrite Taken. simpl.
  destruct (Z.leb_spec int4_max (VariantA.tasks_id_seq w)) as [Full|_];
    [lia|]. simpl.
  rewrite <- (id_among_keys VariantA.Task.id), (fresh_id_unused Ids).
  unfold VariantA.project_exists in *. simpl. rewrite Known. reflexivity.
Qed.

(** A title the store does not take as text fails the insert before it
    runs: no row, no id used up. *)
Lemma add_task_text_refused id z body title w :
  int4in id = Some z ->
  body "title" = Some (JStr title) -> textin title = false ->
  VariantA.add_task id body w
  = (Response 500 (BText "Error adding task"),
     VariantA.sent VariantA.InsertTask w).
Proof.
  intros Hid Title Refused.
  unfold VariantA.add_task, try_catch, bind, VariantA.insert_task.
  rewrite Hid, Title. simpl. rewrite Refused. reflexivity.
Qed.
End Tasks.

(** A task is stored with the title string the body carries, the empty
    one included, when the store takes it as text: the answer is 201 with
    the new row, [done] false, and the listing of the project's tasks
    then holds the row's object beside the objects listed before.  A
    title the store refuses as text (PostgreSQL: one holding U+0000) is
    answered 500, and neither a row nor an id is spent on it. *)
Theorem added_task_is_listed `{Platform} (id : string) (z : Z)
  (body : req_body) (title : string) (w : VariantA.world) :
  int4in id = Some z -> VariantA.project_exists z w = true ->
  issues_fresh_ids (map VariantA.Task.id (VariantA.tasks w))
                   (VariantA.tasks_id_seq w) ->
  body "title" = Some (JStr title) ->
  let row :=
    VariantA.Task.Row (VariantA.tasks_id_seq w + 1) title (Some false)
                      (Some z) in
  let item :=
    JObj [("id", id_json (VariantA.tasks_id_seq w + 1));
          ("title", JStr title);
          ("done", JBool false);
          ("project_id", id_json z)] in
  let w' := snd (VariantA.add_task id body w) in
  (textin title = true ->
   fst (VariantA.add_task id body w) = Response 201 (BJson item)
   /\ VariantA.tasks w' = (VariantA.tasks w ++ [row])%list
   /\ exists items items',
       fst (VariantA.list_tasks id w) = Response 200 (BJson (JArr items))
       /\ fst (VariantA.list_tasks id w') = Response 200 (BJson (JArr items'))
       /\ Permutation items' (items ++ [item]))
  /\ (textin title = false ->
      VariantA.add_task id body w
      = (Response 500 (BText "Error adding task"),
         VariantA.sent VariantA.InsertTask w)).
Proof.
  intros Hid Known Fresh Title row item w'. subst w'. split.
  - intros Taken.
    rewrite (add_task_stored id z body title w Hid Known Fresh Title Taken).
    simpl. split; [reflexivity|]. split; [reflexivity|].
    do 2 eexists. rewrite !(list_tasks_run id z _ Hid). simpl.
    split; [reflexivity|]. split; [reflexivity|].
    unfold VariantA.project_tasks. simpl.
    rewrite filter_app, map_app. simpl. rewrite Z.eqb_refl.
    apply Permutation_refl.
  - intros Refused. exact (add_task_text_refused id z body title w Hid Title Refused).
Qed.

(** A task without a title, or for a project that does not exist, is
    refused by the store, not by the handler: the answer is 500 and no
    task is stored. *)
Theorem add_task_without_title_or_project `{Platform} (id : string)
  (body : req_body) (w : VariantA.world) :
  (body "title" = None \/ body "title" = Some JNull
   \/ exists z, int4in id = Some z /\ VariantA.project_exists z w = false) ->
  fst (VariantA.add_task id body w) = Response 500 (BText "Error adding task")
  /\ VariantA.tasks (snd (VariantA.add_task id body w)) = VariantA.tasks w.
Proof.
  intros Why.
  destruct (add_task_outcome id body w)
    as (_ & _ & _ & [Refused | [S (row & z0 & _ & _ & T)]]);
    [exact Refused | exfalso].
  revert S. clear T.
  unfold VariantA.add_task, try_catch, bind, VariantA.insert_task.
  destruct (int4in id) as [z|]; simpl; [|discriminate].
  destruct (refused_text _); simpl; [discriminate|].
  destruct (int4_max <=? VariantA.tasks_id_seq w); simpl; [discriminate|].
  destruct Why as [-> | [-> | (z' & Hz & Unknown)]]; simpl; try discriminate.
  injection Hz as <-.
  destruct (prepare_value (body "title")); simpl; [|discriminate].
  unfold VariantA.project_exists in *. simpl. rewrite Unknown, orb_true_r.
  simpl. discriminate.
Qed.

Lemma nothing_owned_by_unknown_project {A} (owner : A -> option Z)
  (w : VariantA.world) (z : Z) (rows : list A) :
  VariantA.project_exists z w = false ->
  Forall (fun r => exists z', owner r = Some z'
                              /\ VariantA.project_exists z' w = true) rows ->
  filter (fun r => sql_eq (owner r) z) rows = [].
Proof.
  intros Unknown Owned. induction Owned as [|r rest (z' & Ez & Known) _ IH];
    simpl; [reflexivity|].
  rewrite Ez. simpl. destruct (Z.eqb_spec z' z) as [-> | _]; [congruence|].
  exact IH.
Qed.

(** The listings of a project that does not exist are empty lists, with
    status 200: in a store filled through the handlers no task and no
    file belongs to such a project. *)
Theorem unknown_project_has_empty_listings `{Platform} (id : string) (z : Z)
  (w : VariantA.world) :
  consistent w -> int4in id = Some z -> VariantA.project_exists z w = false ->
  fst (VariantA.list_tasks id w) = Response 200 (BJson (JArr []))
  /\ fst (VariantA.list_files id w) = Response 200 (BJson (JArr [])).
Proof.
  intros [_ _ _ _ Ot Of _] Hid Unknown. split.
  - rewrite (list_tasks_run id z w Hid). unfold VariantA.project_tasks.
    now rewrite (nothing_owned_by_unknown_project _ w z _ Unknown Ot).
  - rewrite (@list_files_run _ id z w Hid).
    now rewrite (nothing_owned_by_unknown_project _ w z _ Unknown Of).
Qed.

(** [PUT /tasks/:id] touches one column of one row: the projects and the
    files are as before, the tasks are the same up to [done], and every
    task with another id is as it was. *)
Theorem toggle_touches_one_task `{Platform} (id : string) (z : Z)
  (w : VariantA.world) :
  int4in id = Some z ->
  let w' := snd (VariantA.toggle id w) in
  VariantA.projects w' = VariantA.projects w
  /\ VariantA.files w' = VariantA.files w
  /\ Permutation (map task_identity (VariantA.tasks w'))
                 (map task_identity (VariantA.tasks w))
  /\ forall t, VariantA.Task.id t <> z ->
               (In t (VariantA.tasks w') <-> In t (VariantA.tasks w)).
Proof.
  intros Hid w'. subst w'. rewrite (@toggle_run _ id z w Hid). simpl.
  split; [reflexivity|]. split; [reflexivity|].
  split; [rewrite toggle_rows_identity; apply Permutation_refl|].
  intros t Other. rewrite in_map_iff. split.
  - intros (t0 & <- & Hin).
    rewrite toggle_row_id in Other.
    now rewrite (@toggle_row_other z t0 Other).
  - intros Hin. exists t.
    split; [apply (@toggle_row_other z t Other) | exact Hin].
Qed.

(** A task that was just added can be marked done with the id of the
    201 answer: the toggle answers the row with [done] true. *)
Theorem added_task_can_be_marked_done `{Platform} (id tid : string) (z : Z)
  (body : req_body) (title : string) (w : VariantA.world) :
  int4in id = Some z -> VariantA.project_exists z w = true ->
  keyed (map VariantA.Task.id (VariantA.tasks w)) (VariantA.tasks_id_seq w) ->
  VariantA.tasks_id_seq w < int4_max ->
  body "title" = Some (JStr title) -> textin title = true ->
  int4in tid = Some (VariantA.tasks_id_seq w + 1) ->
  let w' := snd (VariantA.add_task id body w) in
  fst (VariantA.add_task id body w)
  = Response 201
      (BJson (JObj [("id", id_json (VariantA.tasks_id_seq w + 1));
                    ("title", JStr title);
                    ("done", JBool false);
                    ("project_id", id_json z)]))
  /\ fst (VariantA.toggle tid w')
     = Response 200
         (BJson (JObj [("id", id_json (VariantA.tasks_id_seq w + 1));
                       ("title", JStr title);
                       ("done", JBool true);
                       ("project_id", id_json z)])).
Proof.
  intros Hid Known Keyed Room Title Taken Htid w'. subst w'.
  rewrite (add_task_stored id z body title w Hid Known
             (conj Room (proj2 Keyed)) Title Taken).
  simpl. split; [reflexivity|].
  match goal with |- fst (VariantA.toggle tid ?w1) = _ =>
    pose proof (@toggle_returns_row _ tid _ w1 (created_task w title z) Htid)
      as Row;
    pose proof (@toggle_run _ tid _ w1 Htid) as Run
  end.
  simpl in Row. rewrite map_app in Row.
  specialize (Row (proj1 (keyed_insert Keyed))).
  specialize (Row ltac:(apply in_or_app; right; now left) eq_refl).
  rewrite Run in Row |- *. simpl in Row |- *. rewrite Row.
  unfold VariantA.toggle_row, created_task. simpl.
  now rewrite Z.eqb_refl.
Qed.

Lemma sql_eq_true (column : option Z) (value : Z) :
  sql_eq column value = true -> column = Some value.
Proof.
  destruct column as [c|]; simpl; [|discriminate].
  intros E. apply Z.eqb_eq in E. now rewrite E.
Qed.

(** A selection among the tasks of project [q] is the same before and
    after the update of a task of another project. *)
Lemma other_project_after_toggle (z q : Z) (l : list VariantA.Task.t)
  (g : VariantA.Task.t -> bool) :
  (forall t, g t = true -> VariantA.Task.project_id t = Some q) ->
  (forall t, In t l -> VariantA.Task.id t = z ->
             VariantA.Task.project_id t <> Some q) ->
  filter g (map (VariantA.toggle_row z) l) = filter g l.
Proof.
  intros Of_q. induction l as [|t r IH]; simpl; intros Other; [reflexivity|].
  rewrite IH by (intros t' Ht'; apply Other; now right).
  destruct (Z.eq_dec (VariantA.Task.id t) z) as [E | Ne].
  - pose proof (Other t (or_introl eq_refl) E) as Elsewhere.
    assert (g t = false) as ->
        by (destruct (g t) eqn:G; [now apply Of_q in G | reflexivity]).
    assert (g (VariantA.toggle_row z t) = false) as ->; [|reflexivity].
    destruct (g (VariantA.toggle_row z t)) eqn:G; [|reflexivity].
    apply Of_q in G. unfold VariantA.toggle_row in G.
    now destruct (VariantA.Task.id t =? z).
  - now rewrite (@toggle_row_other z t Ne).
Qed.

(** What happens to the tasks of one project leaves the percentage of
    every other project as it was: neither a toggle of another project's
    task nor a task added to another project changes the answer of
    [GET /projects/:id/completion]. *)
Theorem other_projects_keep_their_percentage `{Platform}
  (qid : string) (q : Z) (w : VariantA.world) :
  int4in qid = Some q ->
  (forall tid z,
      int4in tid = Some z ->
      (forall t, In t (VariantA.tasks w) -> VariantA.Task.id t = z ->
                 VariantA.Task.project_id t <> Some q) ->
      fst (VariantA.completion qid (snd (VariantA.toggle tid w)))
      = fst (VariantA.completion qid w))
  /\ (forall pid p body,
         int4in pid = Some p -> p <> q ->
         fst (VariantA.completion qid (snd (VariantA.add_task pid body w)))
         = fst (VariantA.completion qid w)).
Proof.
  intros Hq. split.
  - intros tid z Htid Other.
    rewrite !(completion_run qid _ Hq), (@toggle_run _ tid z w Htid). simpl.
    unfold VariantA.project_tasks, VariantA.project_done_tasks. simpl.
    rewrite !(other_project_after_toggle z q); try exact Other;
      [reflexivity | |]; intros t G.
    + now apply sql_eq_true.
    + apply andb_true_iff in G. now apply sql_eq_true.
  - intros pid p body Hp Ne.
    rewrite !(completion_run qid _ Hq). simpl.
    destruct (add_task_outcome pid body w)
      as (_ & _ & _ & [[_ T] | [_ (row & p' & Hp' & Owner & T)]]);
      unfold VariantA.project_tasks, VariantA.project_done_tasks;
      rewrite T; [reflexivity|].
    rewrite Hp in Hp'. injection Hp' as <-.
    rewrite !filter_app. simpl. rewrite Owner. simpl.
    destruct (Z.eqb_spec p q) as [E | _]; [contradiction|].
    simpl. now rewrite !app_nil_r.
Qed.

(* ================================================================== *)
(** * Completion at the ends, and as tasks get done *)
(* ================================================================== *)

Lemma done_tasks_among (z : Z) (w : VariantA.world) :
  VariantA.project_done_tasks z w
  = filter (fun t => match VariantA.Task.done t with
                     | Some true => true
                     | _ => false
                     end)
           (VariantA.project_tasks z w).
Proof.
  unfold VariantA.project_done_tasks, VariantA.project_tasks.
  induction (VariantA.tasks w) as [|t r IH]; simpl; [reflexivity|].
  destruct (sql_eq (VariantA.Task.project_id t) z); simpl; [|exact IH].
  destruct (VariantA.Task.done t) as [[|]|]; simpl; now rewrite IH.
Qed.

Lemma all_done_all_counted (l : list VariantA.Task.t) :
  (forall t, In t l -> VariantA.Task.done t = Some true) ->
  filter (fun t => match VariantA.Task.done t with
                   | Some true => true
                   | _ => false
                   end) l
  = l.
Proof.
  intros Done. induction l as [|t r IH]; simpl; [reflexivity|].
  rewrite (Done t (or_introl eq_refl)), IH; [reflexivity|].
  intros t' Ht'. apply Done. now right.
Qed.

Lemma none_done_none_counted (l : list VariantA.Task.t) :
  (forall t, In t l -> VariantA.Task.done t <> Some true) ->
  filter (fun t => match VariantA.Task.done t with
                   | Some true => true
                   | _ => false
                   end) l
  = [].
Proof.
  intros Open. induction l as [|t r IH]; simpl; [reflexivity|].
  pose proof (Open t (or_introl eq_refl)) as Ht.
  destruct (VariantA.Task.done t) as [[|]|]; try congruence;
    apply IH; intros t' Ht'; apply Open; now right.
Qed.

(** Nearest integers of two percentages over the same total come in the
    order of the percentages. *)
Lemma nearest_monotone (d d' t k k' : Z) :
  0 < t -> d <= d' ->
  2 * Z.abs (k * t - 100 * d) <= t ->
  2 * Z.abs (k' * t - 100 * d') <= t ->
  d < d' \/ k = k' -> k <= k'.
Proof.
  intros Ht Hd Hk Hk' [Hlt | ->]; [|lia].
  destruct (Z.le_gt_cases k k') as [Hle | Hgt]; [exact Hle | exfalso].
  assert (t * 1 <= t * (k - k')) as Hm
      by (apply Z.mul_le_mono_nonneg_l; lia).
  replace (t * (k - k')) with (k * t - k' * t) in Hm by ring.
  clear - Hm Hk Hk' Hlt Ht. lia.
Qed.

(** The percentage of a project with tasks is 100 when every task is
    done and 0 when none is: the division and the product are exact
    there. *)
Theorem completion_at_the_ends `{Platform} (id : string) (z : Z)
  (w : VariantA.world) :
  int4in id = Some z ->
  VariantA.project_tasks z w <> [] ->
  Z.of_nat (List.length (VariantA.project_tasks z w)) < 2 ^ 43 ->
  ((forall t, In t (VariantA.project_tasks z w) ->
              VariantA.Task.done t = Some true) ->
   fst (VariantA.completion id w)
   = Response 200 (BJson (JObj [("percentage", JNum (JS.num 100))])))
  /\ ((forall t, In t (VariantA.project_tasks z w) ->
                 VariantA.Task.done t <> Some true) ->
      fst (VariantA.completion id w)
      = Response 200 (BJson (JObj [("percentage", JNum (JS.num 0))]))).
Proof.
  intros Hid Some_task Small.
  rewrite (completion_run id w Hid), done_tasks_among. simpl.
  set (l := VariantA.project_tasks z w) in *.
  assert (0 < Z.of_nat (List.length l)) as Pos
      by (destruct l; [congruence | simpl; lia]).
  assert (Z.of_nat (List.length l) < 2 ^ 53) as Small53.
  { change (2 ^ 53) with 9007199254740992.
    change (2 ^ 43) with 8796093022208 in Small. lia. }
  split; intros Done.
  - rewrite (all_done_all_counted l Done).
    destruct (percentage_is_nearest (Z.of_nat (List.length l))
                (Z.of_nat (List.length l)))
      as (k & -> & _ & Near); [lia | lia |].
    specialize (Near Small).
    replace k with 100; [reflexivity|].
    set (t := Z.of_nat (List.length l)) in *.
    replace (k * t - 100 * t) with ((k - 100) * t) in Near by ring.
    rewrite Z.abs_mul, (Z.abs_eq t) in Near by lia.
    destruct (Z.eq_dec k 100) as [E | Ne]; [now rewrite E|].
    assert (1 * t <= Z.abs (k - 100) * t) as Hm
        by (apply Z.mul_le_mono_nonneg_r; lia).
    clear - Hm Near Pos. lia.
  - rewrite (none_done_none_counted l Done).
    change (Z.of_nat (List.length (@nil VariantA.Task.t))) with 0.
    destruct (percentage_is_nearest 0 (Z.of_nat (List.length l)))
      as (k & -> & _ & Near); [lia | lia |].
    specialize (Near Small).
    replace k with 0; [reflexivity|].
    set (t := Z.of_nat (List.length l)) in *.
    replace (k * t - 100 * 0) with (k * t) in Near by ring.
    rewrite Z.abs_mul, (Z.abs_eq t) in Near by lia.
    destruct (Z.eq_dec k 0) as [E | Ne]; [now rewrite E|].
    assert (1 * t <= Z.abs k * t) as Hm
        by (apply Z.mul_le_mono_nonneg_r; lia).
    clear - Hm Near Pos. lia.
Qed.

(** The update keeps the tasks of every project... *)
Lemma toggled_tasks_of_project (z p : Z) (l : list VariantA.Task.t) :
  List.length
    (filter (fun t => sql_eq (VariantA.Task.project_id t) p)
            (map (VariantA.toggle_row z) l))
  = List.length (filter (fun t => sql_eq (VariantA.Task.project_id t) p) l).
Proof.
  induction l as [|t r IH]; simpl; [reflexivity|].
  replace (VariantA.Task.project_id (VariantA.toggle_row z t))
    with (VariantA.Task.project_id t)
    by (unfold VariantA.toggle_row; now destruct (VariantA.Task.id t =? z)).
  destruct (sql_eq (VariantA.Task.project_id t) p); simpl; now rewrite IH.
Qed.

(** ... and turns one task of project [p] that was not done into a done
    one. *)
Lemma toggled_tasks_done (z p : Z) (l : list VariantA.Task.t)
  (t : VariantA.Task.t) :
  NoDup (map VariantA.Task.id l) -> In t l -> VariantA.Task.id t = z ->
  VariantA.Task.project_id t = Some p -> VariantA.Task.done t = Some false ->
  List.length
    (filter (fun t => sql_eq (VariantA.Task.project_id t) p
                      && match VariantA.Task.done t with
                         | Some true => true
                         | _ => false
                         end)
            (map (VariantA.toggle_row z) l))
  = S (List.length
         (filter (fun t => sql_eq (VariantA.Task.project_id t) p
                           && match VariantA.Task.done t with
                              | Some true => true
                              | _ => false
                              end)
                 l)).
Proof.
  intros Nd Hin Hz Hp Hd.
  set (finished := fun t => sql_eq (VariantA.Task.project_id t) p
                            && match VariantA.Task.done t with
                               | Some true => true
                               | _ => false
                               end).
  induction l as [|a r IH]; [destruct Hin|].
  simpl in Nd. apply NoDup_cons_iff in Nd. destruct Nd as [Fresh Nd].
  simpl. destruct Hin as [-> | Hin].
  - rewrite (@toggle_rows_absent z r).
    2: { intros b Hb E. apply Fresh. rewrite <- Hz in E. rewrite <- E.
         now apply in_map. }
    assert (finished t = false) as ->
        by (unfold finished; rewrite Hd; apply andb_false_r).
    assert (finished (VariantA.toggle_row z t) = true) as ->.
    { unfold finished, VariantA.toggle_row. rewrite Hz, Z.eqb_refl. simpl.
      rewrite Hp, Hd. simpl. now rewrite Z.eqb_refl. }
    reflexivity.
  - assert (VariantA.Task.id a <> z) as Other.
    { intros E. apply Fresh. rewrite E, <- Hz. now apply in_map. }
    rewrite (@toggle_row_other z a Other).
    destruct (finished a); simpl; now rewrite (IH Nd Hin).
Qed.

(** Marking a task done never lowers the percentage of its project:
    although the percentage is computed in binary64, the answer after
    the toggle is at least the answer before it. *)
Theorem marking_a_task_done_never_lowers_completion `{Platform}
  (tid pid : string) (z p : Z) (t : VariantA.Task.t) (w : VariantA.world) :
  NoDup (map VariantA.Task.id (VariantA.tasks w)) ->
  int4in tid = Some z -> int4in pid = Some p ->
  In t (VariantA.tasks w) -> VariantA.Task.id t = z ->
  VariantA.Task.project_id t = Some p -> VariantA.Task.done t = Some false ->
  Z.of_nat (List.length (VariantA.project_tasks p w)) < 2 ^ 43 ->
  exists k k',
    fst (VariantA.completion pid w)
    = Response 200 (BJson (JObj [("percentage", JNum (JS.num k))]))
    /\ fst (VariantA.completion pid (snd (VariantA.toggle tid w)))
       = Response 200 (BJson (JObj [("percentage", JNum (JS.num k'))]))
    /\ 0 <= k /\ k <= k' /\ k' <= 100.
Proof.
  intros Nd Htid Hpid Hin Hz Hp Hd Small.
  rewrite !(completion_run pid _ Hpid), (@toggle_run _ tid z w Htid). simpl.
  unfold VariantA.project_tasks, VariantA.project_done_tasks in *. simpl.
  rewrite (toggled_tasks_of_project z p),
          (toggled_tasks_done z p _ t Nd Hin Hz Hp Hd).
  pose proof (done_within_total p w) as Le.
  unfold VariantA.project_tasks, VariantA.project_done_tasks in Le.
  pose proof (done_within_total p
                (VariantA.with_tasks
                   (map (VariantA.toggle_row z) (VariantA.tasks w)) 0 w))
    as Le'.
  unfold VariantA.project_tasks, VariantA.project_done_tasks in Le'.
  simpl in Le'.
  rewrite (toggled_tasks_of_project z p),
          (toggled_tasks_done z p _ t Nd Hin Hz Hp Hd) in Le'.
  set (total :=
         List.length
           (filter (fun t => sql_eq (VariantA.Task.project_id t) p)
                   (VariantA.tasks w))) in *.
  set (done :=
         List.length
           (filter (fun t => sql_eq (VariantA.Task.project_id t) p
                             && match VariantA.Task.done t with
                                | Some true => true
                                | _ => false
                                end)
                   (VariantA.tasks w))) in *.
  assert (0 < Z.of_nat total < 2 ^ 53) as Ht.
  { change (2 ^ 53) with 9007199254740992.
    change (2 ^ 43) with 8796093022208 in Small. lia. }
  destruct (percentage_is_nearest (Z.of_nat done) (Z.of_nat total))
    as (k & -> & Hk & Near); [lia | exact Ht |].
  destruct (percentage_is_nearest (Z.of_nat (S done)) (Z.of_nat total))
    as (k' & -> & Hk' & Near'); [lia | exact Ht |].
  exists k, k'. split; [reflexivity|]. split; [reflexivity|].
  split; [lia|]. split; [|lia].
  apply (nearest_monotone (Z.of_nat done) (Z.of_nat (S done)) (Z.of_nat total));
    [lia | lia | exact (Near Small) | exact (Near' Small) | left; lia].
Qed.

(* ================================================================== *)
(** * The stored path tells the upload *)
(* ================================================================== *)

Lemma string_of_uint_dashless (u : Decimal.uint) :
  dashless (NilEmpty.string_of_uint u) = true.
Proof. induction u; simpl; auto. Qed.

Lemma dash_splits (a b x y : string) :
  dashless a = true -> dashless b = true ->
  a ++ "-" ++ x = b ++ "-" ++ y -> a = b /\ x = y.
Proof.
  revert b. induction a as [|c a IH]; intros [|c' b] Da Db E; simpl in *.
  - injection E as ->. split; reflexivity.
  - injection E as <- _. now rewrite Ascii.eqb_refl in Db.
  - injection E as -> _. now rewrite Ascii.eqb_refl in Da.
  - injection E as <- E.
    apply andb_true_iff in Da, Db. destruct Da as [_ Da], Db as [_ Db].
    destruct (IH b Da Db E) as [-> ->]. split; reflexivity.
Qed.

(** Two uploads are stored under the same path only if they carry the
    same original name and were named in the same millisecond: a
    difference in either gives different paths. *)
Theorem different_uploads_get_different_paths (now1 now2 : N)
  (original1 original2 : string) :
  now1 <> now2 \/ original1 <> original2 ->
  VariantA.storage_path now1 original1 <> VariantA.storage_path now2 original2.
Proof.
  intros Differ E. unfold VariantA.storage_path, VariantA.storage_filename in E.
  injection E as E.
  apply dash_splits in E; try apply string_of_uint_dashless.
  destruct E as [En Eo]. apply string_of_N_inj in En.
  destruct Differ as [D | D]; contradiction.
Qed.

(* ================================================================== *)
(** * Variant B: the store stays consistent, a created project is listed *)
(* ================================================================== *)

(** Every store variant B builds keeps its primary key: the ids of the
    projects are pairwise different and were issued by the sequence. *)
Theorem served_consistent_B `{Platform} (rs : list VariantB.request)
  (w : VariantB.world) :
  consistent_B w -> consistent_B (VariantB.serve rs w).
Proof.
  revert w. induction rs as [|r rest IH]; intros w C; simpl; [exact C|].
  apply IH. now apply route_consistent_B.
Qed.

(** In variant B a project created with a name and a status, of text the
    store takes, is in the listing that follows, with the status the
    request gave it: the listing has one object a row, and the rows are
    those that were there and the new one. *)
Theorem created_project_is_listed_B `{Platform} (now : Z) (body : req_body)
  (n s : string) (w : VariantB.world) :
  body "name" = Some (JStr n) -> n <> "" ->
  body "status" = Some (JStr s) -> s <> "" ->
  textin n = true -> textin s = true ->
  issues_fresh_ids (map VariantB.Project.id (VariantB.projects w))
                   (VariantB.projects_id_seq w) ->
  let row :=
    VariantB.Project.Row (VariantB.projects_id_seq w + 1) n s (Some now) in
  let w' := snd (VariantB.create_project now body w) in
  exists rows items,
    fst (VariantB.list_projects w') = Response 200 (BJson (JArr items))
    /\ items
       = map (fun p =>
                JObj [("id", id_json (VariantB.Project.id p));
                      ("name", JStr (VariantB.Project.name p));
                      ("status", JStr (VariantB.Project.status p));
                      ("created_at",
                       opt_json (fun t => JStr (timestamp_text t))
                                (VariantB.Project.created_at p))])
             rows
    /\ Permutation rows (VariantB.projects w ++ [row])
    /\ In (JObj [("id", id_json (VariantB.projects_id_seq w + 1));
                 ("name", JStr n);
                 ("status", JStr s);
                 ("created_at", JStr (timestamp_text now))])
          items.
Proof.
  intros Bn Hn Bs Hs Tn Ts Fresh row w'.
  assert (VariantB.projects w' = (VariantB.projects w ++ [row])%list) as E.
  { subst w'. rewrite (@create_B_stored _ now body w n s); auto.
    - apply present_truthy. now exists n.
    - apply present_truthy. now exists s.
    - now rewrite Bn.
    - now rewrite Bs. }
  pose proof (order_by_desc_perm VariantB.Project.created_at
                (VariantB.projects w')) as P.
  rewrite E in P.
  exists (order_by_desc VariantB.Project.created_at (VariantB.projects w')).
  eexists. split; [reflexivity|]. split; [reflexivity|].
  rewrite E. split; [exact P|].
  apply in_map_iff. exists row. split; [reflexivity|].
  apply (Permutation_in _ (Permutation_sym P)).
  apply in_or_app. right. now left.
Qed.

(* ================================================================== *)
(** * Start-up: the tables are made once *)
(* ================================================================== *)

(** [createTables] never ends in its [catch]: [projects] is made before
    the two tables that reference it.  Whatever tables the database has,
    afterwards it has all three, those that were there with their rows
    and sequences, the others empty.  A blank database becomes the empty
    store of the handlers, and a restart over a store leaves every row in
    place.  The same holds of [createTable] in variant B. *)
Theorem createTables_keeps_what_is_there :
  (forall d : Schema.database,
      let d' := snd (Schema.createTables d) in
      fst (Schema.createTables d) = Schema.TablesReady
      /\ Schema.projects d'
         = Some (match Schema.projects d with
                 | Some t => t
                 | None => Schema.fresh
                 end)
      /\ Schema.tasks d'
         = Some (match Schema.tasks d with
                 | Some t => t
                 | None => Schema.fresh
                 end)
      /\ Schema.files d'
         = Some (match Schema.files d with
                 | Some t => t
                 | None => Schema.fresh
                 end))
  /\ Schema.createTables Schema.blank
     = (Schema.TablesReady, Schema.tables_of VariantA.empty)
  /\ (forall w : VariantA.world,
         Schema.createTables (Schema.tables_of w)
         = (Schema.TablesReady, Schema.tables_of w))
  /\ Schema.createTable None
     = (Schema.TablesReady,
        Some (VariantB.projects VariantB.empty,
              VariantB.projects_id_seq VariantB.empty))
  /\ (forall w : VariantB.world,
         Schema.createTable
           (Some (VariantB.projects w, VariantB.projects_id_seq w))
         = (Schema.TablesReady,
            Some (VariantB.projects w, VariantB.projects_id_seq w))).
Proof.
  split; [|repeat split].
  intros [[p|] [t|] [f|]]; repeat split.
Qed.

(* ================================================================== *)
(** * The theorems at concrete requests *)
(* ================================================================== *)

Section Runs.
#[local] Existing Instance node_on_postgres.

(** The ids of a concrete table are pairwise different; no row of a
    concrete table has a given id. *)
Ltac distinct_ids :=
  repeat (constructor; [simpl; intuition discriminate|]); constructor.

Ltac none_has_id :=
  simpl; intros ? Hin;
  repeat (destruct Hin as [<- | Hin]; [discriminate|]); destruct Hin.

(** Apollo was created before Gemini, a second earlier: the listing has
    Gemini first. *)
Lemma list_projects_newest_first_witness :
  fst (VariantA.list_projects two_projects)
  = Response 200
      (BJson (JArr [JObj [("id", id_json 2); ("name", JStr "Gemini");
                          ("description", JStr "second");
                          ("status", JStr "new");
                          ("created_at", JStr "2000")];
                    JObj [("id", id_json 1); ("name", JStr "Apollo");
                          ("description", JStr "first");
                          ("status", JStr "new");
                          ("created_at", JStr "1000")]])).
Proof.
  destruct (@list_projects_newest_first node_on_postgres) as [HA _].
  destruct (HA two_projects) as (rows & Answer & Hperm & Hord).
  rewrite Answer.
  apply Permutation_sym, Permutation_length_2_inv in Hperm.
  destruct Hperm as [-> | ->].
  - exfalso.
    assert (1 < 0)%nat as F
        by (apply (Hord 1%nat 0%nat apollo gemini 1000 2000);
            [reflexivity | reflexivity | reflexivity | reflexivity | lia]).
    lia.
  - reflexivity.
Defined.

(** C6 as the specification words it fails.  Gemini is created after
    Apollo, and is listed after it: once when the store's clock gives both
    inserts the same time, once when the clock has been set back between
    them. *)
Lemma project_created_later_is_listed_last :
  let apollo_body :=
    body_of [("name", JStr "Apollo"); ("description", JStr "first")] in
  let gemini_body :=
    body_of [("name", JStr "Gemini"); ("description", JStr "second")] in
  let same_time :=
    snd (VariantA.create_project 1000 gemini_body
           (snd (VariantA.create_project 1000 apollo_body VariantA.empty))) in
  let clock_set_back :=
    snd (VariantA.create_project 1000 gemini_body
           (snd (VariantA.create_project 2000 apollo_body VariantA.empty))) in
  fst (VariantA.list_projects same_time)
  = Response 200
      (BJson (JArr [JObj [("id", id_json 1); ("name", JStr "Apollo");
                          ("description", JStr "first");
                          ("status", JStr "new");
                          ("created_at", JStr "1000")];
                    JObj [("id", id_json 2); ("name", JStr "Gemini");
                          ("description", JStr "second");
                          ("status", JStr "new");
                          ("created_at", JStr "1000")]]))
  /\ fst (VariantA.list_projects clock_set_back)
     = Response 200
         (BJson (JArr [JObj [("id", id_json 1); ("name", JStr "Apollo");
                             ("description", JStr "first");
                             ("status", JStr "new");
                             ("created_at", JStr "2000")];
                       JObj [("id", id_json 2); ("name", JStr "Gemini");
                             ("description", JStr "second");
                             ("status", JStr "new");
                             ("created_at", JStr "1000")]])).
Proof. split; vm_compute; reflexivity. Qed.

(** A request without a description, one without a status, one with all
    three fields for each server, and one whose name holds U+0000, each
    sent to an empty store. *)
Lemma create_project_validates_before_insert_witness :
  (VariantA.create_project 1000 (body_of [("name", JStr "Apollo")])
                           VariantA.empty
   = (Response 400
        (BJson (JObj [("error", JStr "Name and description are required")])),
      VariantA.empty))
  /\ (VariantB.create_project 1000 (body_of [("name", JStr "")])
                              VariantB.empty
      = (Response 400
           (BJson (JObj [("error", JStr "Name and status are required")])),
         VariantB.empty))
  /\ (fst (VariantA.create_project 1000
             (body_of [("name", JStr "Apollo"); ("description", JStr "Moon");
                       ("status", JStr "open")])
             VariantA.empty)
      = Response 201
          (BJson (JObj [("id", id_json 1); ("name", JStr "Apollo");
                        ("description", JStr "Moon"); ("status", JStr "new");
                        ("created_at", JStr "1000")])))
  /\ (fst (VariantB.create_project 1000
             (body_of [("name", JStr "Apollo"); ("description", JStr "Moon");
                       ("status", JStr "open")])
             VariantB.empty)
      = Response 201
          (BJson (JObj [("id", id_json 1); ("name", JStr "Apollo");
                        ("status", JStr "open");
                        ("created_at", JStr "1000")])))
  /\ (VariantA.create_project 1000
        (body_of [("name", JStr (String Ascii.zero "Apollo"));
                  ("description", JStr "Moon")])
        VariantA.empty
      = (Response 500 (BText "Server Error"),
         VariantA.sent VariantA.InsertProject VariantA.empty)).
Proof.
  pose proof (@create_project_validates_before_insert node_on_postgres 1000)
    as T.
  split; [|split; [|split; [|split]]].
  - destruct (T (body_of [("name", JStr "Apollo")])) as [HA _].
    destruct (HA VariantA.empty) as [Refused _].
    apply Refused. right. left. reflexivity.
  - destruct (T (body_of [("name", JStr "")])) as [_ HB].
    destruct (HB VariantB.empty) as [Refused _].
    apply Refused. left. right. right. reflexivity.
  - destruct (T (body_of [("name", JStr "Apollo"); ("description", JStr "Moon");
                          ("status", JStr "open")])) as [HA _].
    destruct (HA VariantA.empty) as [_ Stored].
    destruct (Stored "Apollo" "Moon") as [Taken _];
      [reflexivity | discriminate | reflexivity | discriminate |].
    destruct Taken as [R _];
      [reflexivity | reflexivity | split; [reflexivity | constructor]
      | exact R].
  - destruct (T (body_of [("name", JStr "Apollo"); ("description", JStr "Moon");
                          ("status", JStr "open")])) as [_ HB].
    destruct (HB VariantB.empty) as [_ Stored].
    destruct (Stored "Apollo" "open") as [Taken _];
      [reflexivity | discriminate | reflexivity | discriminate |].
    destruct Taken as [R _];
      [reflexivity | reflexivity | split; [reflexivity | constructor]
      | exact R].
  - destruct (T (body_of [("name", JStr (String Ascii.zero "Apollo"));
                          ("description", JStr "Moon")])) as [HA _].
    destruct (HA VariantA.empty) as [_ Stored].
    destruct (Stored (String Ascii.zero "Apollo") "Moon") as [_ Refused];
      [reflexivity | discriminate | reflexivity | discriminate |].
    apply Refused. left. reflexivity.
Defined.

(** A name alone is refused; a name with a description is stored with
    status "new", whatever status the body carries. *)
Lemma create_project_requires_description_witness :
  fst (VariantA.create_project 1000 (body_of [("name", JStr "Apollo")])
                               VariantA.empty)
  = Response 400
      (BJson (JObj [("error", JStr "Name and description are required")]))
  /\ exists row,
      fst (VariantA.create_project 1000
             (body_of [("name", JStr "Apollo"); ("description", JStr "Moon");
                       ("status", JStr "open")])
             VariantA.empty)
      = Response 201
          (BJson (JObj [("id", id_json (VariantA.Project.id row));
                        ("name", JStr "Apollo");
                        ("description", JStr "Moon");
                        ("status", JStr "new");
                        ("created_at", JStr "1000")]))
      /\ VariantA.Project.id row = 1
      /\ VariantA.Project.status row = Some "new".
Proof.
  split.
  - destruct (@create_project_requires_description node_on_postgres 1000
                (body_of [("name", JStr "Apollo")]) VariantA.empty)
      as [Refused _].
    apply Refused.
    + exists "Apollo". split; [reflexivity | discriminate].
    + left. reflexivity.
  - destruct (@create_project_requires_description node_on_postgres 1000
                (body_of [("name", JStr "Apollo"); ("description", JStr "Moon");
                          ("status", JStr "open")]) VariantA.empty)
      as [_ Stored].
    destruct (Stored "Apollo" "Moon") as (row & R & _ & I & _ & _ & S);
      [reflexivity | discriminate | reflexivity | discriminate
      | reflexivity | reflexivity
      | split; [reflexivity | constructor] | ].
    exists row. split; [exact R | split; [exact I | exact S]].
Defined.

(** C5 as the specification words it fails: a name without a description
    is answered 400, not 201, and no row is created. *)
Lemma create_project_without_description_refused :
  status (fst (VariantA.create_project 1000
                 (body_of [("name", JStr "Apollo")]) VariantA.empty)) = 400
  /\ status (fst (VariantA.create_project 1000
                 (body_of [("name", JStr "Apollo")]) VariantA.empty)) <> 201
  /\ VariantA.projects
       (snd (VariantA.create_project 1000
               (body_of [("name", JStr "Apollo")]) VariantA.empty)) = [].
Proof. repeat split. discriminate. Qed.

(** Task 3 of four, not done: toggled it is done, toggled again it is as
    before. *)
Lemma toggle_is_an_involution_witness :
  let w := tracked 1 4 in
  payload (fst (VariantA.toggle "3" w))
  = BJson (VariantA.task_json (VariantA.Task.Row 3 "task" (Some true) (Some 1)))
  /\ payload (fst (VariantA.toggle "3" (snd (VariantA.toggle "3" w))))
     = BJson (VariantA.task_json (VariantA.Task.Row 3 "task" (Some false) (Some 1)))
  /\ VariantA.tasks (snd (VariantA.toggle "3" (snd (VariantA.toggle "3" w))))
     = VariantA.tasks w.
Proof.
  intros w.
  destruct (@toggle_is_an_involution node_on_postgres w "3" 3 2%nat
              (VariantA.Task.Row 3 "task" (Some false) (Some 1)))
    as (_ & _ & _ & _ & _ & Same & Bodies);
    [reflexivity | reflexivity | reflexivity |].
  destruct Bodies as [B1 B2]; [distinct_ids|].
  split; [exact B1 | split; [exact B2 | exact Same]].
Defined.

(** No task has id 9. *)
Lemma toggle_of_missing_task_witness :
  VariantA.toggle "9" (tracked 1 4)
  = (Response 200 BJsonUndefined,
     VariantA.sent VariantA.ToggleTask (tracked 1 4)).
Proof.
  destruct (@toggle_of_missing_task node_on_postgres (tracked 1 4) "9" 9)
    as [Run _]; [reflexivity | none_has_id | exact Run].
Defined.

(** The two attachments of project 1, listed and viewed. *)
Lemma file_listing_omits_filepath_witness :
  fst (VariantA.list_files "1" attached)
  = Response 200
      (BJson (JArr [JObj [("id", id_json 1); ("filename", JStr "plan.pdf")];
                    JObj [("id", id_json 2); ("filename", JStr "notes.txt")]]))
  /\ fst (VariantA.view_file "2" attached)
     = Response 200
         (BSendFile "/srv/backend/uploads/1700000000500-notes.txt").
Proof.
  split.
  - destruct (@file_listing_omits_filepath node_on_postgres attached "1" 1)
      as [(items & Run & Items & _) _]; [reflexivity|].
    rewrite Run, Items. reflexivity.
  - destruct (@file_listing_omits_filepath node_on_postgres attached "2" 2)
      as [_ View]; [reflexivity|].
    destruct (View notes_txt) as [_ Sent];
      [right; left; reflexivity | reflexivity | distinct_ids | exact Sent].
Defined.

(** No row has id 7; file 2 has its row and is on the disk. *)
Lemma view_file_404_without_row_or_file_witness :
  fst (VariantA.route (VariantA.GetFileView "7") attached)
  = Response 404 (BText "File not found")
  /\ fst (VariantA.route (VariantA.GetFileView "2") attached)
     = Response 200 (BFile "notes").
Proof.
  split.
  - destruct (@view_file_404_without_row_or_file node_on_postgres
                attached "7" 7) as [[_ Absent] _]; [reflexivity|].
    apply Absent. none_has_id.
  - destruct (@view_file_404_without_row_or_file node_on_postgres
                attached "2" 2) as (_ & Found & _); [reflexivity|].
    destruct (Found notes_txt) as (_ & On_disk & _);
      [right; left; reflexivity | reflexivity | distinct_ids |].
    apply On_disk. reflexivity.
Defined.

(** C8 as the specification words it fails: file 2 has its row, but the
    file is gone from the disk, and the answer is 404 all the same. *)
Lemma view_of_a_lost_file_is_404 :
  In notes_txt (VariantA.files lost)
  /\ VariantA.File.id notes_txt = 2
  /\ fst (VariantA.route (VariantA.GetFileView "2") lost)
     = Response 404 BErrorPage
  /\ status (fst (VariantA.route (VariantA.GetFileView "2") lost)) <> 200.
Proof.
  split; [right; left; reflexivity|]. split; [reflexivity|].
  split; [reflexivity | discriminate].
Qed.



(** Project 1 exists and has no task; no project has id 7.  The answers
    are the same. *)
Lemma completion_without_tasks_witness :
  fst (VariantA.completion "1" two_projects)
  = Response 200 (BJson (JObj [("percentage", JNum (JS.num 0))]))
  /\ fst (VariantA.completion "7" two_projects)
     = Response 200 (BJson (JObj [("percentage", JNum (JS.num 0))])).
Proof.
  split.
  - destruct (@completion_without_tasks node_on_postgres two_projects "1")
      as [Zero _].
    rewrite (Zero 1); [reflexivity | reflexivity | intros t []].
  - destruct (@completion_without_tasks node_on_postgres two_projects "7")
      as [Zero _].
    rewrite (Zero 7); [reflexivity | reflexivity | intros t []].
Defined.

(** The examples of the specification: no task, one of four, one of
    three. *)
Lemma completion_examples :
  fst (VariantA.completion "1" (tracked 0 0))
  = Response 200 (BJson (JObj [("percentage", JNum (JS.num 0))]))
  /\ fst (VariantA.completion "1" (tracked 1 4))
     = Response 200 (BJson (JObj [("percentage", JNum (JS.num 25))]))
  /\ fst (VariantA.completion "1" (tracked 1 3))
     = Response 200 (BJson (JObj [("percentage", JNum (JS.num 33))])).
Proof. repeat split; vm_compute; reflexivity. Qed.

(** What the handler computes for 23 of 40 is what the processor's own
    binary64 arithmetic gives. *)
Lemma percentage_on_hardware :
  Prim2SF (PrimFloat.mul
             (PrimFloat.div (PrimFloat.of_uint63 23) (PrimFloat.of_uint63 40))
             (PrimFloat.of_uint63 100))
  = JS.mul (JS.div (JS.num 23) (JS.num 40)) (JS.num 100)
  /\ JS.Math_round (JS.mul (JS.div (JS.num 23) (JS.num 40)) (JS.num 100))
     = JS.num 57.
Proof. split; vm_compute; reflexivity. Qed.

(** C1 at a project of forty tasks, twenty-three of them done.  The exact
    percentage is 57.5 and the specification's rounding gives 58.  The
    handler divides first: 23/40 is stored as the binary64 number next
    below 0.575, the product with 100 is 57.49999999999999, and
    [Math.round] gives 57. *)
Theorem completion_rounds_a_half_down :
  List.length (VariantA.project_tasks 1 (tracked 23 40)) = 40%nat
  /\ List.length (VariantA.project_done_tasks 1 (tracked 23 40)) = 23%nat
  /\ fst (VariantA.completion "1" (tracked 23 40))
     = Response 200 (BJson (JObj [("percentage", JNum (JS.num 57))]))
  /\ spec_percentage 23 40 = 58
  /\ JS.mul (JS.div (JS.num 23) (JS.num 40)) (JS.num 100)
     = S754_finite false 8092405580431359 (-47).
Proof. repeat split; vm_compute; reflexivity. Qed.


(** ** Runs of the statements about whole stores *)


Lemma attached_consistent : consistent attached.
Proof.
  constructor; simpl; try (split; [distinct_ids | repeat constructor; lia]);
    repeat (constructor; [try (exists 1; split; reflexivity); simpl; auto|]);
    constructor.
Qed.

(** A project, a task for it, the task done, a file for it: the store
    that results is consistent. *)
Lemma served_consistent_witness :
  consistent
    (VariantA.serve
       [VariantA.PostProjects 1000
          (body_of [("name", JStr "Apollo"); ("description", JStr "Moon")]);
        VariantA.PostTasks "1" (body_of [("title", JStr "land")]);
        VariantA.PutTask "1";
        VariantA.PostUpload 1700000000000 "1" (Some ("plan.pdf", "v1"))]
       VariantA.empty).
Proof. apply served_consistent. apply empty_consistent. Defined.

(** The same of variant B, after two projects. *)
Lemma served_consistent_B_witness :
  consistent_B
    (VariantB.serve
       [VariantB.PostProjects 1000
          (body_of [("name", JStr "Apollo"); ("status", JStr "open")]);
        VariantB.GetProjects;
        VariantB.PostProjects 2000
          (body_of [("name", JStr "Gemini"); ("status", JStr "done")])]
       VariantB.empty).
Proof.
  apply served_consistent_B. split; [constructor | constructor].
Defined.

(** Asking for the completion of project 1 leaves the four tasks, the
    sequences and the disk alone. *)
Lemma get_requests_read_only_witness :
  same_store (tracked 1 4)
             (snd (VariantA.route (VariantA.GetCompletion "1") (tracked 1 4))).
Proof. apply get_requests_read_only. reflexivity. Defined.

(** A task for project 7, which does not exist: 500, and no row. *)
Lemma refused_requests_change_no_row_witness :
  same_tables two_projects
    (snd (VariantA.route
            (VariantA.PostTasks "7" (body_of [("title", JStr "land")]))
            two_projects)).
Proof. apply refused_requests_change_no_row. vm_compute. discriminate. Defined.

(** File 7 is not there: the 404 comes from the view route. *)
Lemma only_view_file_answers_404_witness :
  exists id, VariantA.GetFileView "7" = VariantA.GetFileView id.
Proof.
  apply (only_view_file_answers_404 (VariantA.GetFileView "7") attached).
  reflexivity.
Defined.

(** [abc] is no integer. *)
Lemma malformed_id_is_answered_500_witness :
  VariantA.toggle "abc" (tracked 1 4)
  = (Response 500 (BText "Error toggling task"),
     VariantA.sent VariantA.ToggleTask (tracked 1 4))
  /\ VariantA.completion "abc" (tracked 1 4)
     = (Response 500 (BText "Error calculating completion"),
        VariantA.sent VariantA.CountTasks (tracked 1 4)).
Proof.
  destruct (@malformed_id_is_answered_500 node_on_postgres "abc" (tracked 1 4))
    as (_ & _ & Completion & _ & _ & Toggle & _); [reflexivity|].
  split; [exact Toggle | exact Completion].
Defined.

(** A file for project 7, which does not exist. *)
Lemma upload_to_unknown_project_keeps_the_file_witness :
  let r := VariantA.upload_file 1700000000000 "7" (Some ("plan.pdf", "v1"))
                                two_projects in
  fst r = Response 500 (BText "Upload error")
  /\ VariantA.files (snd r) = []
  /\ In ("uploads/1700000000000-plan.pdf", "v1") (VariantA.uploads (snd r)).
Proof.
  apply (@upload_to_unknown_project_keeps_the_file node_on_postgres
           1700000000000%N "7" 7 "plan.pdf" "v1" two_projects);
    reflexivity.
Defined.



(** A task with the empty title for project 2, and one whose title holds
    U+0000. *)
Lemma added_task_is_listed_witness :
  fst (VariantA.add_task "2" (body_of [("title", JStr "")]) two_projects)
  = Response 201
      (BJson (JObj [("id", id_json 1); ("title", JStr "");
                    ("done", JBool false); ("project_id", id_json 2)]))
  /\ VariantA.tasks
       (snd (VariantA.add_task "2" (body_of [("title", JStr "")]) two_projects))
     = [VariantA.Task.Row 1 "" (Some false) (Some 2)]
  /\ VariantA.add_task "2"
       (body_of [("title", JStr (String Ascii.zero "land"))]) two_projects
     = (Response 500 (BText "Error adding task"),
        VariantA.sent VariantA.InsertTask two_projects).
Proof.
  split; [|split].
  - destruct (@added_task_is_listed node_on_postgres "2" 2
                (body_of [("title", JStr "")]) "" two_projects)
      as [Taken _];
      [reflexivity | reflexivity | split; [reflexivity | constructor]
      | reflexivity |].
    destruct Taken as (Answer & _); [reflexivity | exact Answer].
  - destruct (@added_task_is_listed node_on_postgres "2" 2
                (body_of [("title", JStr "")]) "" two_projects)
      as [Taken _];
      [reflexivity | reflexivity | split; [reflexivity | constructor]
      | reflexivity |].
    destruct Taken as (_ & Rows & _); [reflexivity | exact Rows].
  - destruct (@added_task_is_listed node_on_postgres "2" 2
                (body_of [("title", JStr (String Ascii.zero "land"))])
                (String Ascii.zero "land") two_projects)
      as [_ Refused];
      [reflexivity | reflexivity | split; [reflexivity | constructor]
      | reflexivity |].
    apply Refused. reflexivity.
Defined.

(** A body without a title. *)
Lemma add_task_without_title_or_project_witness :
  fst (VariantA.add_task "1" (body_of []) two_projects)
  = Response 500 (BText "Error adding task")
  /\ VariantA.tasks (snd (VariantA.add_task "1" (body_of []) two_projects))
     = [].
Proof.
  apply (@add_task_without_title_or_project node_on_postgres "1" (body_of [])
           two_projects).
  left. reflexivity.
Defined.

(** No project has id 7. *)
Lemma unknown_project_has_empty_listings_witness :
  fst (VariantA.list_tasks "7" attached) = Response 200 (BJson (JArr []))
  /\ fst (VariantA.list_files "7" attached) = Response 200 (BJson (JArr [])).
Proof.
  apply (@unknown_project_has_empty_listings node_on_postgres "7" 7 attached);
    [apply attached_consistent | reflexivity | reflexivity].
Defined.

(** A task for project 2, then done. *)
Lemma added_task_can_be_marked_done_witness :
  fst (VariantA.toggle "1"
         (snd (VariantA.add_task "2" (body_of [("title", JStr "land")])
                                 two_projects)))
  = Response 200
      (BJson (JObj [("id", id_json 1); ("title", JStr "land");
                    ("done", JBool true); ("project_id", id_json 2)])).
Proof.
  apply (@added_task_can_be_marked_done node_on_postgres "2" "1" 2
           (body_of [("title", JStr "land")]) "land" two_projects);
    try reflexivity.
  split; constructor.
Defined.

(** Task 3 belongs to project 1: project 2 is not concerned. *)
Lemma other_projects_keep_their_percentage_witness :
  fst (VariantA.completion "2" (snd (VariantA.toggle "3" (tracked 1 4))))
  = fst (VariantA.completion "2" (tracked 1 4)).
Proof.
  destruct (@other_projects_keep_their_percentage node_on_postgres "2" 2
              (tracked 1 4)) as [Toggle _]; [reflexivity|].
  apply (Toggle "3" 3); [reflexivity|].
  simpl. intros t Hin _.
  repeat (destruct Hin as [<- | Hin]; [discriminate|]). destruct Hin.
Defined.

(** Toggling task 3 leaves task 1 as it is. *)
Lemma toggle_touches_one_task_witness :
  In (VariantA.Task.Row 1 "task" (Some true) (Some 1))
     (VariantA.tasks (snd (VariantA.toggle "3" (tracked 1 4)))).
Proof.
  destruct (@toggle_touches_one_task node_on_postgres "3" 3 (tracked 1 4))
    as (_ & _ & _ & Others); [reflexivity|].
  apply Others; [discriminate | left; reflexivity].
Defined.

(** Four of four, none of four. *)
Lemma completion_at_the_ends_witness :
  fst (VariantA.completion "1" (tracked 4 4))
  = Response 200 (BJson (JObj [("percentage", JNum (JS.num 100))]))
  /\ fst (VariantA.completion "1" (tracked 0 4))
     = Response 200 (BJson (JObj [("percentage", JNum (JS.num 0))])).
Proof.
  split.
  - destruct (@completion_at_the_ends node_on_postgres "1" 1 (tracked 4 4))
      as [All _]; [reflexivity | discriminate | reflexivity |].
    apply All. simpl. intros t Hin.
    repeat (destruct Hin as [<- | Hin]; [reflexivity|]). destruct Hin.
  - destruct (@completion_at_the_ends node_on_postgres "1" 1 (tracked 0 4))
      as [_ None]; [reflexivity | discriminate | reflexivity |].
    apply None. simpl. intros t Hin.
    repeat (destruct Hin as [<- | Hin]; [discriminate|]). destruct Hin.
Defined.

(** Task 3 of four gets done when one was done already. *)
Lemma marking_a_task_done_never_lowers_completion_witness :
  exists k k',
    fst (VariantA.completion "1" (tracked 1 4))
    = Response 200 (BJson (JObj [("percentage", JNum (JS.num k))]))
    /\ fst (VariantA.completion "1" (snd (VariantA.toggle "3" (tracked 1 4))))
       = Response 200 (BJson (JObj [("percentage", JNum (JS.num k'))]))
    /\ 0 <= k /\ k <= k' /\ k' <= 100.
Proof.
  apply (@marking_a_task_done_never_lowers_completion node_on_postgres
           "3" "1" 3 1 (VariantA.Task.Row 3 "task" (Some false) (Some 1))
           (tracked 1 4));
    [distinct_ids | reflexivity | reflexivity
    | right; right; left; reflexivity
    | reflexivity | reflexivity | reflexivity | reflexivity].
Defined.

(** Two names in one millisecond. *)
Lemma different_uploads_get_different_paths_witness :
  VariantA.storage_path 1700000000000 "plan.pdf"
  <> VariantA.storage_path 1700000000000 "notes.txt".
Proof.
  apply different_uploads_get_different_paths. right. discriminate.
Defined.

(** The first project of variant B. *)
Lemma created_project_is_listed_B_witness :
  exists items,
    fst (VariantB.list_projects
           (snd (VariantB.create_project 1000
                   (body_of [("name", JStr "Apollo"); ("status", JStr "open")])
                   VariantB.empty)))
    = Response 200 (BJson (JArr items))
    /\ In (JObj [("id", id_json 1); ("name", JStr "Apollo");
                 ("status", JStr "open"); ("created_at", JStr "1000")])
          items.
Proof.
  destruct (@created_project_is_listed_B node_on_postgres 1000
              (body_of [("name", JStr "Apollo"); ("status", JStr "open")])
              "Apollo" "open" VariantB.empty)
    as (rows & items & Listing & _ & _ & Listed);
    [reflexivity | discriminate | reflexivity | discriminate
    | reflexivity | reflexivity | split; [reflexivity | constructor] |].
  exists items. split; [exact Listing | exact Listed].
Defined.

(** One of three: 33. *)
Lemma completion_is_nearest_witness :
  exists k,
    fst (VariantA.completion "1" (tracked 1 3))
    = Response 200 (BJson (JObj [("percentage", JNum (JS.num k))]))
    /\ 0 <= k <= 100
    /\ k = 33.
Proof.
  destruct (@completion_is_nearest node_on_postgres (tracked 1 3) "1" 1)
    as (k & Answer & Range & _ & Specified); [reflexivity | reflexivity |].
  exists k. split; [exact Answer|]. split; [exact Range|].
  rewrite Specified; [reflexivity | vm_compute; discriminate].
Defined.

(** Apollo, then Gemini a second later, into an empty store. *)
Lemma project_created_later_is_listed_first_witness :
  let body1 :=
    body_of [("name", JStr "Apollo"); ("description", JStr "Moon")] in
  let body2 :=
    body_of [("name", JStr "Gemini"); ("description", JStr "Orbit")] in
  let w1 := snd (VariantA.create_project 1000 body1 VariantA.empty) in
  let w2 := snd (VariantA.create_project 2000 body2 w1) in
  exists items i j,
    fst (VariantA.list_projects w2) = Response 200 (BJson (JArr items))
    /\ nth_error items i
       = Some (JObj [("id", id_json 2); ("name", JStr "Gemini");
                     ("description", JStr "Orbit"); ("status", JStr "new");
                     ("created_at", JStr "2000")])
    /\ nth_error items j
       = Some (JObj [("id", id_json 1); ("name", JStr "Apollo");
                     ("description", JStr "Moon"); ("status", JStr "new");
                     ("created_at", JStr "1000")])
    /\ (i < j)%nat.
Proof.
  apply (@project_created_later_is_listed_first node_on_postgres
           VariantA.empty 1000 2000
           (body_of [("name", JStr "Apollo"); ("description", JStr "Moon")])
           (body_of [("name", JStr "Gemini"); ("description", JStr "Orbit")])
           "Apollo" "Moon" "Gemini" "Orbit");
    try reflexivity; try discriminate.
  split; [reflexivity | constructor].
Defined.
End Runs.
